(** * SwiftAssist support chat: the response normaliser and the conversation
      controller of [src/App.tsx], embedded in Rocq.

    The embedding follows the TypeScript source function by function; the
    earlier revision of the component, the second source file, is embedded
    in the module [Earlier].

    - JavaScript strings are sequences of code units; the model covers code
      units below 256 (Latin-1), which is what [ascii] holds.
    - JavaScript numbers are IEEE-754 binary64 values.  A finite binary64
      value is a rational, so numbers are [Q] and every arithmetic operation
      rounds its exact result to the nearest binary64 value, ties to even
      ([fl]).
    - [Math.random()] and [Date.now()] are inputs of the functions that call
      them.
    - An [async] function is cut at its [await]: the part before it runs when
      the handler is called, the part after it when the remote call settles;
      calls in flight settle in any order.
    - The imported JSON parser is a parameter. *)

From Stdlib Require Import ZArith QArith Qround Qabs Qpower Lia Bool List.
From Stdlib Require Import Ascii String DecimalString DecimalN.
Import ListNotations.

Open Scope string_scope.

(* ================================================================== *)
(** * Strings *)

Module JsString.

Definition code (c : ascii) : N := N_of_ascii c.

(** White space and line terminators of ECMAScript below U+0100:
    TAB, LF, VT, FF, CR, SP and NBSP. *)
Definition isWhiteSpace (c : ascii) : bool :=
  let n := code c in
  ((9 <=? n) && (n <=? 13) || (n =? 32) || (n =? 160))%N.

(** Upper-case letters below U+0100: A-Z, and the Latin-1 capitals
    U+00C0-U+00DE without the multiplication sign U+00D7. *)
Definition isUpper (c : ascii) : bool :=
  let n := code c in
  ((65 <=? n) && (n <=? 90) || (192 <=? n) && (n <=? 222) && negb (n =? 215))%N.

Definition lowerChar (c : ascii) : ascii :=
  if isUpper c then ascii_of_N (code c + 32) else c.

(** [String.prototype.toLowerCase] *)
Fixpoint toLowerCase (s : string) : string :=
  match s with
  | EmptyString => EmptyString
  | String c s' => String (lowerChar c) (toLowerCase s')
  end.

(** [String.prototype.startsWith] *)
Fixpoint startsWith (s sub : string) {struct sub} : bool :=
  match sub with
  | EmptyString => true
  | String b sub' =>
      match s with
      | EmptyString => false
      | String a s' => Ascii.eqb a b && startsWith s' sub'
      end
  end.

(** [String.prototype.includes]: [sub] occurs in [s] as a substring. *)
Fixpoint includes (s sub : string) : bool :=
  if startsWith s sub then true
  else match s with
       | EmptyString => false
       | String _ s' => includes s' sub
       end.

Fixpoint trimStart (s : string) : string :=
  match s with
  | EmptyString => EmptyString
  | String c s' => if isWhiteSpace c then trimStart s' else s
  end.

Fixpoint trimEnd (s : string) : string :=
  match s with
  | EmptyString => EmptyString
  | String c s' =>
      match trimEnd s' with
      | EmptyString => if isWhiteSpace c then EmptyString else String c EmptyString
      | t => String c t
      end
  end.

(** [String.prototype.trim] *)
Definition trim (s : string) : string := trimEnd (trimStart s).

Definition isEmpty (s : string) : bool :=
  match s with EmptyString => true | _ => false end.

(** The decimal digits of a non-negative integer, as a template literal
    or [ToString] prints it. *)
Definition ofN (n : N) : string := NilEmpty.string_of_uint (N.to_uint n).

(** Every character of the string is white space (the empty string
    included). *)
Fixpoint allWhiteSpace (s : string) : bool :=
  match s with
  | EmptyString => true
  | String c s' => isWhiteSpace c && allWhiteSpace s'
  end.

End JsString.

(* ================================================================== *)
(** * Numbers: binary64 rounding over the rationals *)

Module Float64.

Open Scope Q_scope.

Definition pow2 (k : Z) : Q := 2 ^ k.

(** floor (log2 x) for a positive rational x *)
Definition ilog2 (x : Q) : Z :=
  let d := (Z.log2 (Qnum x) - Z.log2 (Zpos (Qden x)))%Z in
  if Qle_bool (pow2 d) x then d else (d - 1)%Z.

(** Round to the nearest integer, ties to the even one. *)
Definition rne (q : Q) : Z :=
  let f := Qfloor q in
  match Qcompare (q - inject_Z f) (1 # 2) with
  | Lt => f
  | Gt => (f + 1)%Z
  | Eq => if Z.even f then f else (f + 1)%Z
  end.

(** Exponent of the unit in the last place of x: 53 bits of precision,
    smallest normal exponent -1022 (below it the spacing stays 2^-1074). *)
Definition ulpExp (x : Q) : Z := (Z.max (ilog2 (Qabs x)) (-1022) - 52)%Z.

(** The binary64 value nearest to x (x within the finite range). *)
Definition fl (x : Q) : Q :=
  let k := ulpExp x in
  Qred (inject_Z (rne (x / pow2 k)) * pow2 k).

Definition isDouble (x : Q) : Prop := fl x == x.

(** Number literals and the arithmetic operators. *)
Definition lit (x : Q) : Q := fl x.
Definition add (x y : Q) : Q := fl (x + y).
Definition mul (x y : Q) : Q := fl (x * y).

(** [Math.floor] *)
Definition floor (x : Q) : Z := Qfloor x.

(** [Number.prototype.toFixed(1)] for 0 <= x < 10^21: the integer n with
    n / 10 closest to x, the larger one on a tie, printed with one digit
    after the point. *)
Definition tenths (x : Q) : Z := Qfloor (x * 10 + (1 # 2)).

Definition printTenths (n : N) : string :=
  (JsString.ofN (n / 10) ++ "." ++ JsString.ofN (n mod 10))%string.

Definition toFixed1 (x : Q) : string := printTenths (Z.to_N (tenths x)).

Close Scope Q_scope.

End Float64.

Arguments Float64.fl : simpl never.
Arguments Float64.lit : simpl never.
Arguments Float64.toFixed1 : simpl never.
Arguments Float64.printTenths : simpl never.
Arguments JsString.ofN : simpl never.

(* ================================================================== *)
(** * JavaScript values, as [response.json()] yields them *)

#[warnings="-register-all"]
Inductive JsValue : Type :=
| JUndefined
| JNull
| JBool (b : bool)
| JNum (q : Q)
| JStr (s : string)
| JArr (items : list JsValue)
| JObj (fields : list (string * JsValue)).

(** Errors a [catch] clause can receive. *)
Inductive JsError : Type :=
| TypeError            (* property access on null or undefined *)
| FetchError           (* fetch() rejected *)
| HttpError (status : Z) (* thrown on !response.ok *)
| SyntaxError          (* response.json() rejected *)
| ParserError.         (* parseLLMJson threw *)

Inductive Completion (A : Type) : Type :=
| Normal (a : A)
| Throw (e : JsError).
Arguments Normal {A} a.
Arguments Throw {A} e.

Module Js.

(** ToBoolean *)
Definition truthy (v : JsValue) : bool :=
  match v with
  | JUndefined | JNull => false
  | JBool b => b
  | JNum q => negb (Qnum q =? 0)%Z
  | JStr s => negb (JsString.isEmpty s)
  | JArr _ | JObj _ => true
  end.

Definition typeof (v : JsValue) : string :=
  match v with
  | JUndefined => "undefined"
  | JNull | JArr _ | JObj _ => "object"
  | JBool _ => "boolean"
  | JNum _ => "number"
  | JStr _ => "string"
  end.

Fixpoint lookup (k : string) (fields : list (string * JsValue)) : JsValue :=
  match fields with
  | [] => JUndefined
  | (k', v) :: rest => if String.eqb k k' then v else lookup k rest
  end.

(** [v.k] for the property names the program reads (none of them is a
    property of a prototype): a [TypeError] on null and undefined, the
    field of an object, undefined on anything else. *)
Definition get (v : JsValue) (k : string) : Completion JsValue :=
  match v with
  | JUndefined | JNull => Throw TypeError
  | JObj fields => Normal (lookup k fields)
  | _ => Normal JUndefined
  end.

(** The value has an own property [k] (whatever its value). *)
Definition hasField (v : JsValue) (k : string) : Prop :=
  match v with
  | JObj fields => exists x, In (k, x) fields
  | _ => False
  end.

(** [Object.keys] *)
Definition keys (v : JsValue) : Completion (list string) :=
  match v with
  | JUndefined | JNull => Throw TypeError
  | JObj fields => Normal (map fst fields)
  | JArr items => Normal (map (fun i => JsString.ofN (N.of_nat i)) (seq 0 (List.length items)))
  | JStr s => Normal (map (fun i => JsString.ofN (N.of_nat i)) (seq 0 (String.length s)))
  | _ => Normal []
  end.

End Js.

(* ================================================================== *)
(** * The component state *)

Module Message.

(** [interface Message].  The optional fields hold [JUndefined] when
    absent; fields filled from the remote reply hold whatever value the
    reply carried. *)
Record t : Type := mk {
  id : string;
  text : JsValue;
  isUser : bool;
  timestamp : N;
  suggestedTopics : JsValue;
  confidenceScore : JsValue;
  queryType : JsValue;
  processingTime : JsValue;
  responseId : JsValue;
  feedbackSubmitted : JsValue
}.

(** [{ ...msg, feedbackSubmitted: true }] *)
Definition withFeedbackSubmitted (msg : t) : t :=
  mk (id msg) (text msg) (isUser msg) (timestamp msg) (suggestedTopics msg)
     (confidenceScore msg) (queryType msg) (processingTime msg)
     (responseId msg) (JBool true).

End Message.

(** A remote call that has been issued and has not settled yet: the
    suspended [handleSendMessage] or [handleFeedback] behind it. *)
Inductive Pending : Type :=
| AwaitSupport (text : string)
| AwaitFeedback (messageId : string) (payload : string).

Record State : Type := mkState {
  messages : list Message.t;
  inputText : string;
  isTyping : bool;
  debugMode : bool;
  debugLogs : list string;
  inFlight : list Pending
}.

Definition initialState : State := mkState [] "" false false [] [].

(** How the fetch of a remote call ends. *)
Inductive Transport : Type :=
| NetworkFailure              (* fetch rejects *)
| HttpFailure (status : Z) (body : option JsValue)
                              (* a response with [ok] false; its JSON body, if it parses *)
| MalformedBody               (* the body is not JSON *)
| Reply (result : JsValue).   (* a 2xx response with a JSON body *)

(** The five [Math.random()] results [createMockSupportResponse] draws, in
    the order it draws them. *)
Record MockDraws : Type := mkDraws {
  drawTopic1 : Q;
  drawTopic2 : Q;
  drawTopic3 : Q;
  drawConfidence : Q;
  drawTime : Q
}.

(** The clock readings taken while a message object is built:
    [Date.now()] for the id, [new Date()] for the timestamp, [Date.now()]
    for the response id. *)
Record Readings : Type := mkReadings {
  idAt : N;
  stampAt : N;
  respAt : N
}.

(* ================================================================== *)
(** * Effects: component state and exceptions *)

Definition Eff (A : Type) : Type := State -> Completion A * State.

Definition ret {A} (a : A) : Eff A := fun st => (Normal a, st).

Definition bind {A B} (m : Eff A) (k : A -> Eff B) : Eff B :=
  fun st => match m st with
            | (Normal a, st') => k a st'
            | (Throw e, st') => (Throw e, st')
            end.

Definition throw {A} (e : JsError) : Eff A := fun st => (Throw e, st).

Definition lift {A} (c : Completion A) : Eff A := fun st => (c, st).

(** [try { body } catch (error) { handler }] *)
Definition tryCatch {A} (body : Eff A) (handler : JsError -> Eff A) : Eff A :=
  fun st => match body st with
            | (Normal a, st') => (Normal a, st')
            | (Throw e, st') => handler e st'
            end.

(** [try { body } finally { final }] *)
Definition tryFinally {A} (body : Eff A) (final : Eff unit) : Eff A :=
  fun st => match body st with
            | (c, st') => match final st' with
                          | (Normal _, st'') => (c, st'')
                          | (Throw e, st'') => (Throw e, st'')
                          end
            end.

Declare Scope eff_scope.
Delimit Scope eff_scope with eff.
Notation "x <- m ;; k" := (bind m (fun x => k))
  (at level 61, m at next level, right associativity) : eff_scope.
Notation "m ;; k" := (bind m (fun _ => k))
  (at level 61, right associativity) : eff_scope.
Open Scope eff_scope.

Definition getProp (v : JsValue) (k : string) : Eff JsValue := lift (Js.get v k).

(** [a || b] and [a && b], the right operand evaluated only when needed. *)
Definition orElse (a b : Eff JsValue) : Eff JsValue :=
  x <- a ;; if Js.truthy x then ret x else b.

Definition andAlso (a b : Eff JsValue) : Eff JsValue :=
  x <- a ;; if Js.truthy x then b else ret x.

Definition setMessages (f : list Message.t -> list Message.t) : Eff unit :=
  fun st => (Normal tt, mkState (f (messages st)) (inputText st) (isTyping st)
                                (debugMode st) (debugLogs st) (inFlight st)).

Definition setInputText (s : string) : Eff unit :=
  fun st => (Normal tt, mkState (messages st) s (isTyping st)
                                (debugMode st) (debugLogs st) (inFlight st)).

Definition setIsTyping (b : bool) : Eff unit :=
  fun st => (Normal tt, mkState (messages st) (inputText st) b
                                (debugMode st) (debugLogs st) (inFlight st)).

Definition setDebugMode (b : bool) : Eff unit :=
  fun st => (Normal tt, mkState (messages st) (inputText st) (isTyping st)
                                b (debugLogs st) (inFlight st)).

Definition setDebugLogs (f : list string -> list string) : Eff unit :=
  fun st => (Normal tt, mkState (messages st) (inputText st) (isTyping st)
                                (debugMode st) (f (debugLogs st)) (inFlight st)).

(** Issue the fetch: the call is in flight until it settles. *)
Definition issue (p : Pending) : Eff unit :=
  fun st => (Normal tt, mkState (messages st) (inputText st) (isTyping st)
                                (debugMode st) (debugLogs st) (inFlight st ++ [p])%list).

(** [addDebugLog]: the entry is the message; the bracketed wall-clock
    prefix of the source is left out, the [data] argument only goes to the
    console. *)
Definition addDebugLog (message : string) : Eff unit :=
  setDebugLogs (fun prev => (prev ++ [message])%list).

(* ================================================================== *)
(** * The program *)

Module AgentIds.
Definition support : string := "68e2b77f615699d53b624bca".
Definition feedback : string := "68e2b78a1d634c83109811d8".
End AgentIds.

Definition HELP_TOPICS : list string := ["Orders"; "Shipping"; "Returns"].

Module Text.
Definition orders : string :=
  "I've received your question about orders. Our ordering system is designed to be simple and secure. You can track your order status, modify shipping details, or check estimated delivery times from your account dashboard. For specific order inquiries, please provide your order number.".
Definition shipping : string :=
  "Great question about shipping! We offer various shipping options including standard, express, and overnight delivery. Most orders ship within 1-2 business days. You can track your shipment in real-time with the tracking number provided in your confirmation email.".
Definition returns : string :=
  "I understand you have a question about returns. Our return policy allows returns within 30 days of purchase. Items should be in original condition. You can initiate a return from your account or contact customer service for assistance with the process.".
Definition generic : string :=
  "Thank you for your question! I'm here to help you with any inquiries about our products and services. Based on your question, I'll provide you with helpful information and suggestions for your next steps.".
Definition fallback : string :=
  "I'm here to help! Let me know what you need assistance with.".
Definition apology : string :=
  "I apologize, but I'm having trouble processing your request right now. Please try asking again or select a help topic.".
End Text.

Definition mockTopics : list JsValue :=
  [JStr "Orders"; JStr "Shipping"; JStr "Returns"; JStr "Products"; JStr "Warranty"; JStr "Account"].

(** [topics[Math.floor(Math.random() * topics.length)]] *)
Definition pickTopic (r : Q) : JsValue :=
  let i := Float64.floor (Float64.mul r (inject_Z (Z.of_nat (List.length mockTopics)))) in
  if (i <? 0)%Z then JUndefined else nth (Z.to_nat i) mockTopics JUndefined.

Definition mockQueryType (query : string) : string :=
  let isOrderRelated := JsString.includes (JsString.toLowerCase query) "order" in
  let isShippingRelated := JsString.includes (JsString.toLowerCase query) "ship" in
  let isReturnRelated := JsString.includes (JsString.toLowerCase query) "return" in
  if isOrderRelated then "order"
  else if isShippingRelated then "shipping"
  else if isReturnRelated then "return"
  else "general".

Definition mockMessage (query : string) : string :=
  let isOrderRelated := JsString.includes (JsString.toLowerCase query) "order" in
  let isShippingRelated := JsString.includes (JsString.toLowerCase query) "ship" in
  let isReturnRelated := JsString.includes (JsString.toLowerCase query) "return" in
  if isOrderRelated then Text.orders
  else if isShippingRelated then Text.shipping
  else if isReturnRelated then Text.returns
  else Text.generic.

(** [0.8 + Math.random() * 0.19] *)
Definition mockConfidence (r : Q) : Q :=
  Float64.add (Float64.lit (8 # 10)) (Float64.mul r (Float64.lit (19 # 100))).

(** ['' + (0.5 + Math.random() * 1.5).toFixed(1) + 's'] *)
Definition mockSupportTime (r : Q) : string :=
  ("" ++ Float64.toFixed1 (Float64.add (Float64.lit (1 # 2)) (Float64.mul r (Float64.lit (3 # 2)))))
  ++ "s".

(** ["" + (0.1 + Math.random() * 0.4).toFixed(1) + "s"] *)
Definition mockFeedbackTime (r : Q) : string :=
  ("" ++ Float64.toFixed1 (Float64.add (Float64.lit (1 # 10)) (Float64.mul r (Float64.lit (4 # 10)))))
  ++ "s".

(* The sampled values stay folded under [simpl] and [cbn]. *)
Arguments pickTopic : simpl never.
Arguments mockConfidence : simpl never.
Arguments mockSupportTime : simpl never.
Arguments mockFeedbackTime : simpl never.
Arguments mockMessage : simpl never.
Arguments mockQueryType : simpl never.

Definition createMockSupportResponse (query : string) (d : MockDraws) : Eff JsValue :=
  let suggested_topics :=
    [pickTopic (drawTopic1 d); pickTopic (drawTopic2 d); pickTopic (drawTopic3 d)] in
  let message := mockMessage query in
  let confidence_score := mockConfidence (drawConfidence d) in
  addDebugLog "Using mock support response with confidence:" ;;
  ret (JObj [("response", JObj [("message", JStr message);
                                ("suggested_topics", JArr suggested_topics);
                                ("confidence_score", JNum confidence_score)]);
             ("metadata", JObj [("query_type", JStr (mockQueryType query));
                                ("processing_time", JStr (mockSupportTime (drawTime d)))])]).

Definition createMockFeedbackResponse (r : Q) (now : N) : Eff JsValue :=
  addDebugLog "Using mock feedback response" ;;
  ret (JObj [("response", JObj [("acknowledgment", JStr "Thank you for your feedback!");
                                ("feedback_processed", JBool true);
                                ("feedback_type", JStr "positive")]);
             ("metadata", JObj [("processing_time", JStr (mockFeedbackTime r));
                                ("response_id", JStr ("resp-" ++ JsString.ofN now))])]).

Definition validateSupportAgentResponse (data : JsValue) (d : MockDraws) : Eff JsValue :=
  tryCatch
    (if negb (Js.truthy data) then ret JNull
     else
       canonical <- andAlso (getProp data "response") (getProp data "metadata") ;;
       if Js.truthy canonical then ret data
       else
         wrapped <- getProp data "agent_response" ;;
         if Js.truthy wrapped then
           response <- orElse (getProp wrapped "response") (ret wrapped) ;;
           metadata <- orElse (getProp wrapped "metadata") (ret (JObj [])) ;;
           ret (JObj [("response", response); ("metadata", metadata)])
         else if String.eqb (Js.typeof data) "string" then
           match data with
           | JStr s => createMockSupportResponse s d
           | _ => ret JNull
           end
         else if String.eqb (Js.typeof data) "object" then
           response <- orElse (getProp data "response")
                              (orElse (getProp data "message") (ret data)) ;;
           metadata <- orElse (getProp data "metadata") (ret (JObj [])) ;;
           ret (JObj [("response", response); ("metadata", metadata)])
         else ret JNull)
    (fun error => addDebugLog "Validation error:" ;; ret JNull).

Inductive Polarity : Type := Positive | Negative.

Definition polarityText (p : Polarity) : string :=
  match p with Positive => "positive" | Negative => "negative" end.

Definition readMessages : Eff (list Message.t) := fun st => (Normal (messages st), st).

Section App.

(** [./utils/jsonParser] is imported and not part of the sources: the
    parser is a parameter; it returns a value or throws. *)
Variable parseLLMJson : JsValue -> Completion JsValue.

(** [Number::toString] of the language, for a number spliced into a
    template literal. *)
Variable numberToString : Q -> string.

(** ToString, as a template literal applies it. *)
Fixpoint toStr (v : JsValue) : string :=
  match v with
  | JUndefined => "undefined"
  | JNull => "null"
  | JBool b => if b then "true" else "false"
  | JNum q => numberToString q
  | JStr s => s
  | JArr items =>
      (fix join (l : list JsValue) : string :=
         match l with
         | [] => ""
         | x :: rest =>
             let e := match x with JUndefined | JNull => "" | _ => toStr x end in
             match rest with
             | [] => e
             | _ => e ++ "," ++ join rest
             end
         end) items
  | JObj _ => "[object Object]"
  end.

(** [callAgentAPI] up to [await fetch(...)]: the log entry and the
    request.  The request body (user id, session id) is not modelled. *)
Definition callAgentAPI_request (agentId message : string) (p : Pending) : Eff unit :=
  addDebugLog ("Calling agent API: " ++ agentId ++ " with message: " ++ message) ;;
  issue p.

(** [callAgentAPI] from the point where the fetch settles.  The synthesized
    feedback reply takes its one draw from [drawTime] and its one clock
    reading from [respAt]. *)
Definition callAgentAPI_settle (agentId message : string) (tr : Transport)
           (d : MockDraws) (rd : Readings) : Eff JsValue :=
  tryCatch
    (match tr with
     | NetworkFailure => throw FetchError
     | HttpFailure status _ => throw (HttpError status)
     | MalformedBody => throw SyntaxError
     | Reply result =>
         addDebugLog "Agent API response:" ;;
         parsedData <-
           tryCatch
             (assistant <- getProp result "assistant" ;;
              if Js.truthy assistant then lift (parseLLMJson assistant)
              else
                response <- getProp result "response" ;;
                if Js.truthy response then ret response else ret result)
             (fun parseError =>
                addDebugLog "Parse error using fallback:" ;; ret result) ;;
         addDebugLog "Parsed data:" ;;
         if String.eqb agentId AgentIds.support then
           orElse (validateSupportAgentResponse parsedData d)
                  (createMockSupportResponse message d)
         else
           orElse (ret parsedData) (createMockFeedbackResponse (drawTime d) (respAt rd))
     end)
    (fun error =>
       addDebugLog "Agent API error, using mock response:" ;;
       if String.eqb agentId AgentIds.support then createMockSupportResponse message d
       else if String.eqb agentId AgentIds.feedback then
              createMockFeedbackResponse (drawTime d) (respAt rd)
       else throw error).

Definition userMessage (text : string) (rd : Readings) : Message.t :=
  Message.mk ("msg-" ++ JsString.ofN (idAt rd)) (JStr (JsString.trim text)) true (stampAt rd)
             JUndefined JUndefined JUndefined JUndefined JUndefined JUndefined.

Definition errorMessage (rd : Readings) : Message.t :=
  Message.mk ("msg-" ++ JsString.ofN (idAt rd + 1)) (JStr Text.apology) false (stampAt rd)
             JUndefined JUndefined JUndefined JUndefined JUndefined JUndefined.

(** The [aiMessage] object literal of [handleSendMessage]. *)
Definition aiMessage (response : JsValue) (rd : Readings) : Eff Message.t :=
  responseBlock <- orElse (getProp response "response") (ret response) ;;
  metadataBlock <- orElse (getProp response "metadata") (ret (JObj [])) ;;
  text <- orElse (getProp responseBlock "message")
           (orElse (getProp responseBlock "text")
             (orElse (getProp response "text")
               (orElse (getProp response "message") (ret (JStr Text.fallback))))) ;;
  suggestedTopics <- orElse (getProp responseBlock "suggested_topics")
                      (orElse (getProp responseBlock "suggestedTopics") (ret (JArr []))) ;;
  confidenceScore <- orElse (getProp responseBlock "confidence_score")
                      (orElse (getProp responseBlock "confidenceScore")
                        (orElse (getProp metadataBlock "confidence_score")
                                (ret (JNum (Float64.lit (8 # 10)))))) ;;
  queryType <- orElse (getProp metadataBlock "query_type")
                (orElse (getProp metadataBlock "queryType")
                  (orElse (getProp responseBlock "query_type") (ret (JStr "general")))) ;;
  processingTime <- orElse (getProp metadataBlock "processing_time")
                     (orElse (getProp metadataBlock "processingTime") (ret (JStr "0.5s"))) ;;
  responseId <- orElse (getProp responseBlock "response_id")
                 (ret (JStr ("resp-" ++ JsString.ofN (respAt rd)))) ;;
  ret (Message.mk ("msg-" ++ JsString.ofN (idAt rd + 1)) text false (stampAt rd)
                  suggestedTopics confidenceScore queryType processingTime
                  responseId JUndefined).

(** [handleSendMessage] up to [await callAgentAPI(...)]. *)
Definition handleSendMessage_begin (text : string) (rd : Readings) : Eff unit :=
  if JsString.isEmpty (JsString.trim text) then ret tt
  else
    setMessages (fun prev => (prev ++ [userMessage text rd])%list) ;;
    setInputText "" ;;
    setIsTyping true ;;
    addDebugLog "Calling support agent with message:" ;;
    callAgentAPI_request AgentIds.support (JsString.trim text)
                         (AwaitSupport (JsString.trim text)).

(** [handleSendMessage] from the point where [callAgentAPI] settles;
    [message] is the trimmed text the call was made with. *)
Definition handleSendMessage_resume (message : string) (tr : Transport)
           (d : MockDraws) (rd : Readings) : Eff unit :=
  tryFinally
    (tryCatch
       (response <- callAgentAPI_settle AgentIds.support message tr d rd ;;
        _ <- lift (Js.keys response) ;;
        _ <- getProp response "response" ;;
        _ <- getProp response "metadata" ;;
        addDebugLog "Support agent response structure:" ;;
        msg <- aiMessage response rd ;;
        addDebugLog "Creating AI message:" ;;
        setMessages (fun prev => (prev ++ [msg])%list))
       (fun error =>
          addDebugLog "Support agent error:" ;;
          setMessages (fun prev => (prev ++ [errorMessage rd])%list) ;;
          addDebugLog "Error message displayed:"))
    (setIsTyping false).

Definition findMessage (messageId : string) (l : list Message.t) : option Message.t :=
  find (fun m => String.eqb (Message.id m) messageId) l.

(** [prev.map(msg => msg.id === messageId ? { ...msg, feedbackSubmitted: true } : msg)] *)
Definition markFeedback (messageId : string) (prev : list Message.t) : list Message.t :=
  map (fun msg => if String.eqb (Message.id msg) messageId
                  then Message.withFeedbackSubmitted msg else msg) prev.

(** [handleFeedback] up to [await callAgentAPI(...)]. *)
Definition handleFeedback_begin (messageId : string) (feedbackType : Polarity) : Eff unit :=
  msgs <- readMessages ;;
  match findMessage messageId msgs with
  | None => ret tt
  | Some message =>
      if negb (Js.truthy (Message.responseId message)) then ret tt
      else
        addDebugLog "Calling feedback agent for message:" ;;
        let payload := "Feedback for response " ++ toStr (Message.responseId message)
                       ++ ": " ++ polarityText feedbackType in
        callAgentAPI_request AgentIds.feedback payload (AwaitFeedback messageId payload)
  end.

(** [handleFeedback] from the point where [callAgentAPI] settles; the
    [catch] clause only writes to the console. *)
Definition handleFeedback_resume (messageId payload : string) (tr : Transport)
           (d : MockDraws) (rd : Readings) : Eff unit :=
  tryCatch
    (_ <- callAgentAPI_settle AgentIds.feedback payload tr d rd ;;
     setMessages (markFeedback messageId))
    (fun error => ret tt).

Definition handleTopicClick (topic : string) (rd : Readings) : Eff unit :=
  handleSendMessage_begin ("Tell me about " ++ topic) rd.

Definition handleSubmit (rd : Readings) : Eff unit :=
  fun st => handleSendMessage_begin (inputText st) rd st.

(** ** What the component renders *)

(** [!message.isUser && message.responseId && !message.feedbackSubmitted] *)
Definition feedbackControlsShown (m : Message.t) : bool :=
  negb (Message.isUser m) && Js.truthy (Message.responseId m)
  && negb (Js.truthy (Message.feedbackSubmitted m)).

(** [disabled={isTyping}] on the text input *)
Definition inputDisabled (st : State) : bool := isTyping st.

(** [disabled={isTyping || !inputText.trim()}] on the send button *)
Definition sendDisabled (st : State) : bool :=
  isTyping st || JsString.isEmpty (JsString.trim (inputText st)).

(** The chips under a message whose suggested topics are an array, the
    type [interface Message] declares: [!message.isUser &&
    message.suggestedTopics && message.suggestedTopics.length > 0 && ...].
    For a value that is not an array the source renders no chips (a falsy
    value, a number, a boolean, an object without a positive [length]) or
    throws while it renders, since there is no [map] to call (a non-empty
    string, an object with a positive [length]).  There are no chips to
    click in either case; the exception of the second is not modelled, so
    the sessions of the model include those of the component. *)
Definition suggestedChips (m : Message.t) : list JsValue :=
  if Message.isUser m then []
  else match Message.suggestedTopics m with
       | JArr items => items
       | _ => []
       end.

(** ** Events *)

Inductive Event : Type :=
| ChangeInput (s : string)                        (* typing into the text input *)
| SubmitForm (rd : Readings)                      (* the send button, or Enter in the input *)
| ClickHelpTopic (topic : string) (rd : Readings) (* a button of the help-topics panel *)
| ClickSuggestedTopic (i j : nat) (rd : Readings) (* chip j under message i *)
| ClickFeedback (i : nat) (p : Polarity)          (* a feedback button under message i *)
| ToggleDebug
| ClearDebugLogs
| Settle (k : nat) (tr : Transport) (d : MockDraws) (rd : Readings).
                                                  (* the k-th call in flight settles *)

Definition run (m : Eff unit) (st : State) : State := snd (m st).

Definition dropInFlight (k : nat) (st : State) : State :=
  mkState (messages st) (inputText st) (isTyping st) (debugMode st) (debugLogs st)
          (firstn k (inFlight st) ++ skipn (S k) (inFlight st))%list.

(** One event: the handler runs when the control that raises the event
    is rendered and enabled; otherwise nothing happens. *)
Definition step (ev : Event) (st : State) : State :=
  match ev with
  | ChangeInput s =>
      if inputDisabled st then st else run (setInputText s) st
  | SubmitForm rd =>
      if sendDisabled st then st else run (handleSubmit rd) st
  | ClickHelpTopic topic rd =>
      if existsb (String.eqb topic) HELP_TOPICS
      then run (handleTopicClick topic rd) st else st
  | ClickSuggestedTopic i j rd =>
      match nth_error (messages st) i with
      | Some m =>
          match nth_error (suggestedChips m) j with
          | Some (JStr topic) => run (handleSendMessage_begin topic rd) st
          | _ => st
          end
      | None => st
      end
  | ClickFeedback i p =>
      match nth_error (messages st) i with
      | Some m =>
          if feedbackControlsShown m
          then run (handleFeedback_begin (Message.id m) p) st else st
      | None => st
      end
  | ToggleDebug => run (setDebugMode (negb (debugMode st))) st
  | ClearDebugLogs =>
      if debugMode st then run (setDebugLogs (fun _ => [])) st else st
  | Settle k tr d rd =>
      match nth_error (inFlight st) k with
      | Some (AwaitSupport message) =>
          run (handleSendMessage_resume message tr d rd) (dropInFlight k st)
      | Some (AwaitFeedback messageId payload) =>
          run (handleFeedback_resume messageId payload tr d rd) (dropInFlight k st)
      | None => st
      end
  end.

Fixpoint runEvents (evs : list Event) (st : State) : State :=
  match evs with
  | [] => st
  | ev :: rest => runEvents rest (step ev st)
  end.

(** The support exchanges in flight. *)
Definition exchangesInFlight (st : State) : nat :=
  List.length (filter (fun p => match p with AwaitSupport _ => true | _ => false end)
                      (inFlight st)).

End App.

(* ================================================================== *)
(** * The earlier revision of the component

    The second source file is an earlier revision of [App.tsx]: no
    normaliser, no synthesized replies, no debug log; [callAgentAPI]
    rethrows what it catches. *)

Module Earlier.

Definition fallback : string :=
  "I'm here to help you with any questions you have about our products and services.".
Definition apology : string :=
  "I apologize, but I'm having trouble processing your request right now. Please try again in a moment.".

(** [v?.k] *)
Definition optProp (v : JsValue) (k : string) : Eff JsValue :=
  match v with
  | JUndefined | JNull => ret JUndefined
  | _ => getProp v k
  end.

Section App.

Variable parseLLMJson : JsValue -> Completion JsValue.
Variable numberToString : Q -> string.

(** [callAgentAPI] from the point where the fetch settles;
    [response.ok] is not looked at. *)
Definition callAgentAPI_settle (tr : Transport) : Eff JsValue :=
  tryCatch
    (result <- match tr with
               | NetworkFailure => throw FetchError
               | MalformedBody | HttpFailure _ None => throw SyntaxError
               | HttpFailure _ (Some r) | Reply r => ret r
               end ;;
     arg <- orElse (getProp result "assistant")
                   (orElse (getProp result "response") (ret result)) ;;
     lift (parseLLMJson arg))
    (fun error => throw error).

Definition userMessage (text : string) (rd : Readings) : Message.t :=
  Message.mk ("msg-" ++ JsString.ofN (idAt rd)) (JStr (JsString.trim text)) true (stampAt rd)
             JUndefined JUndefined JUndefined JUndefined JUndefined JUndefined.

Definition errorMessage (rd : Readings) : Message.t :=
  Message.mk ("msg-" ++ JsString.ofN (idAt rd + 1)) (JStr apology) false (stampAt rd)
             JUndefined JUndefined JUndefined JUndefined JUndefined JUndefined.

Definition aiMessage (response : JsValue) (rd : Readings) : Eff Message.t :=
  text <- orElse (r <- getProp response "response" ;; optProp r "message")
                 (ret (JStr fallback)) ;;
  suggestedTopics <- orElse (r <- getProp response "response" ;; optProp r "suggested_topics")
                            (ret (JArr [])) ;;
  confidenceScore <- orElse (r <- getProp response "response" ;; optProp r "confidence_score")
                            (ret (JNum (Float64.lit (8 # 10)))) ;;
  queryType <- orElse (m <- getProp response "metadata" ;; optProp m "query_type")
                      (ret (JStr "general")) ;;
  processingTime <- orElse (m <- getProp response "metadata" ;; optProp m "processing_time")
                           (ret (JStr "0.5s")) ;;
  ret (Message.mk ("msg-" ++ JsString.ofN (idAt rd + 1)) text false (stampAt rd)
                  suggestedTopics confidenceScore queryType processingTime
                  (JStr ("resp-" ++ JsString.ofN (respAt rd))) JUndefined).

Definition handleSendMessage_begin (text : string) (rd : Readings) : Eff unit :=
  if JsString.isEmpty (JsString.trim text) then ret tt
  else
    setMessages (fun prev => (prev ++ [userMessage text rd])%list) ;;
    setInputText "" ;;
    setIsTyping true ;;
    issue (AwaitSupport (JsString.trim text)).

Definition handleSendMessage_resume (tr : Transport) (rd : Readings) : Eff unit :=
  tryFinally
    (tryCatch
       (response <- callAgentAPI_settle tr ;;
        msg <- aiMessage response rd ;;
        setMessages (fun prev => (prev ++ [msg])%list))
       (fun error => setMessages (fun prev => (prev ++ [errorMessage rd])%list)))
    (setIsTyping false).

Definition handleFeedback_begin (messageId : string) (feedbackType : Polarity) : Eff unit :=
  msgs <- readMessages ;;
  match findMessage messageId msgs with
  | None => ret tt
  | Some message =>
      if negb (Js.truthy (Message.responseId message)) then ret tt
      else
        let payload := "Feedback for response "
                       ++ toStr numberToString (Message.responseId message)
                       ++ ": " ++ polarityText feedbackType in
        issue (AwaitFeedback messageId payload)
  end.

Definition handleFeedback_resume (messageId : string) (tr : Transport) : Eff unit :=
  tryCatch
    (_ <- callAgentAPI_settle tr ;;
     setMessages (markFeedback messageId))
    (fun error => ret tt).

End App.

End Earlier.

(* ================================================================== *)
(** * Vocabulary of the properties *)

(** A transport outcome on which [callAgentAPI] takes its [catch] branch:
    the fetch rejected, the status is not 2xx, or the body is not JSON. *)
Definition failed (tr : Transport) : bool :=
  match tr with
  | Reply _ => false
  | _ => true
  end.

(** [w] spells the lower-case ASCII word [kw], each letter in either case. *)
Inductive spells : string -> string -> Prop :=
| spells_nil : spells "" ""
| spells_lower c w kw : spells w kw -> spells (String c w) (String c kw)
| spells_upper c k w kw :
    (JsString.code c + 32 = JsString.code k)%N ->
    spells w kw -> spells (String c w) (String k kw).

(** The query contains the word, in any mix of letter cases. *)
Definition containsIgnoringCase (query kw : string) : Prop :=
  exists pre w post, query = pre ++ w ++ post /\ spells w kw.

(** The word is made of the letters a-z. *)
Fixpoint lowerWord (kw : string) : bool :=
  match kw with
  | EmptyString => true
  | String k kw' => ((97 <=? JsString.code k) && (JsString.code k <=? 122))%N && lowerWord kw'
  end.

(** [v.a.b] *)
Definition path2 (v : JsValue) (a b : string) : Completion JsValue :=
  match Js.get v a with
  | Normal x => Js.get x b
  | Throw e => Throw e
  end.

(** What [Math.random()] returns: a binary64 value in [0, 1). *)
Definition unitDouble (r : Q) : Prop :=
  Float64.isDouble r /\ (0 <= r)%Q /\ (r < 1)%Q.

(** The value of a decimal numeral [digits.digits]. *)
Definition readDecimal (s : string) : option Q :=
  match index 0 "." s with
  | None => None
  | Some i =>
      let whole := substring 0 i s in
      let frac := substring (S i) (String.length s - S i) s in
      match whole, frac with
      | EmptyString, _ | _, EmptyString => None
      | _, _ =>
          match NilEmpty.uint_of_string whole, NilEmpty.uint_of_string frac with
          | Some w, Some f =>
              Some (inject_Z (Z.of_N (N.of_uint w))
                    + inject_Z (Z.of_N (N.of_uint f)) / inject_Z (10 ^ Z.of_nat (String.length frac)))%Q
          | _, _ => None
          end
      end
  end.

(** The numeral printed for k tenths reads back as k / 10. *)
Definition readsBack (k : nat) : bool :=
  match readDecimal (Float64.printTenths (N.of_nat k)) with
  | Some v => Qeq_bool v (inject_Z (Z.of_nat k) / 10)
  | None => false
  end.

(** The state with entries added to the debug log. *)
Definition appendLogs (st : State) (entries : list string) : State :=
  mkState (messages st) (inputText st) (isTyping st) (debugMode st)
          (debugLogs st ++ entries)%list (inFlight st).

(** Everything of the state but the debug log. *)
Definition frame (st : State) : list Message.t * string * bool * bool * list Pending :=
  (messages st, inputText st, isTyping st, debugMode st, inFlight st).

(** A computation that writes to the debug log at most. *)
Definition logsOnly {A} (m : Eff A) : Prop :=
  forall st, frame (snd (m st)) = frame st.

(** The reply [createMockSupportResponse] builds. *)
Definition mockSupportReply (query : string) (d : MockDraws) : JsValue :=
  JObj [("response", JObj [("message", JStr (mockMessage query));
                           ("suggested_topics",
                            JArr [pickTopic (drawTopic1 d); pickTopic (drawTopic2 d);
                                  pickTopic (drawTopic3 d)]);
                           ("confidence_score", JNum (mockConfidence (drawConfidence d)))]);
        ("metadata", JObj [("query_type", JStr (mockQueryType query));
                           ("processing_time", JStr (mockSupportTime (drawTime d)))])].

(** The reply [createMockFeedbackResponse] builds. *)
Definition mockFeedbackReply (r : Q) (now : N) : JsValue :=
  JObj [("response", JObj [("acknowledgment", JStr "Thank you for your feedback!");
                           ("feedback_processed", JBool true);
                           ("feedback_type", JStr "positive")]);
        ("metadata", JObj [("processing_time", JStr (mockFeedbackTime r));
                           ("response_id", JStr ("resp-" ++ JsString.ofN now))])].

(** The query-type label the keyword scan of the specification selects:
    "order" before "ship" before "return", else the generic label. *)
Definition labelled (query label : string) : Prop :=
  (containsIgnoringCase query "order" -> label = "order") /\
  (~ containsIgnoringCase query "order" ->
   containsIgnoringCase query "ship" -> label = "shipping") /\
  (~ containsIgnoringCase query "order" -> ~ containsIgnoringCase query "ship" ->
   containsIgnoringCase query "return" -> label = "return") /\
  (~ containsIgnoringCase query "order" -> ~ containsIgnoringCase query "ship" ->
   ~ containsIgnoringCase query "return" -> label = "general").

(** The pending flag tells whether an exchange is in flight. *)
Definition gated (st : State) : Prop :=
  exchangesInFlight st = (if isTyping st then 1 else 0)%nat.

(** An event of the form, of the feedback buttons, of the debug panel, or
    a settlement: anything but a click on a topic. *)
Definition notTopicClick (ev : Event) : bool :=
  match ev with
  | ClickHelpTopic _ _ | ClickSuggestedTopic _ _ _ => false
  | _ => true
  end.

Definition isSupport (p : Pending) : bool :=
  match p with AwaitSupport _ => true | _ => false end.


(** [response.response || response], the block [aiMessage] reads the
    response identifier from. *)
Definition responseBlockOf (response : JsValue) : JsValue :=
  match Js.get response "response" with
  | Normal b => if Js.truthy b then b else response
  | Throw _ => response
  end.

(** [responseBlock.response_id]: the identifier the reply supplies. *)
Definition suppliedResponseId (response : JsValue) : JsValue :=
  match Js.get (responseBlockOf response) "response_id" with
  | Normal v => v
  | Throw _ => JUndefined
  end.

(* ================================================================== *)
(** * Sample replies and sessions *)

(** A parser that hands its argument back. *)
Definition identityParser (v : JsValue) : Completion JsValue := Normal v.

(** Integers print as their digits. *)
Definition printNumber (q : Q) : string := JsString.ofN (Z.to_N (Qfloor q)).

(** All three clock readings of a step taken at the same millisecond. *)
Definition at_ (t : N) : Readings := mkReadings t t t.

Definition halfDraws : MockDraws := mkDraws (1 # 2) (1 # 2) (1 # 2) (1 # 2) (1 # 2).

(** A reply in the canonical shape. *)
Definition canonicalReply : JsValue :=
  JObj [("response", JObj [("message", JStr "Your order has shipped.");
                           ("suggested_topics", JArr [JStr "Shipping"]);
                           ("confidence_score", JNum (Float64.lit (93 # 100)))]);
        ("metadata", JObj [("query_type", JStr "order");
                           ("processing_time", JStr "1.2s")])].

(** A reply that has both fields, the [response] field holding the empty
    string. *)
Definition emptyResponseReply : JsValue :=
  JObj [("response", JStr ""); ("metadata", JObj [("query_type", JStr "order")])].

(** A reply wrapped in [agent_response] that brings its own identifier. *)
Definition wrappedReply : JsValue :=
  JObj [("agent_response",
         JObj [("response", JObj [("message", JStr "Your order has shipped.");
                                  ("response_id", JStr "r-1")]);
               ("metadata", JObj [("query_type", JStr "order")])])].

Definition plainStringReply : string := "Your parcel left the warehouse this morning.".

Definition acknowledgement : JsValue :=
  JObj [("response", JStr "Feedback received.")].

Definition runSession (evs : list Event) : State :=
  runEvents identityParser printNumber evs initialState.

(** One exchange answered by a synthesized reply: a user message
    "msg-1000" and an assistant message "msg-1501" with response
    identifier "resp-1500". *)
Definition answeredSession : list Event :=
  [ClickHelpTopic "Orders" (at_ 1000); Settle 0 NetworkFailure halfDraws (at_ 1500)].


(** A list with one user message, "msg-5". *)
Definition loneUserMessage : State :=
  mkState [userMessage "hello" (at_ 5)] "" false false [] [].

(* ================================================================== *)
(** * Vocabulary of the invariants *)

(** The reply has a truthy [response] and a truthy [metadata]: the shape
    [validateSupportAgentResponse] passes through. *)
Definition isCanonical (v : JsValue) : bool :=
  match Js.get v "response", Js.get v "metadata" with
  | Normal r, Normal m => Js.truthy r && Js.truthy m
  | _, _ => false
  end.

(** Every normal result of the computation satisfies [P]. *)
Definition ensures {A} (P : A -> Prop) (m : Eff A) : Prop :=
  forall st, match m st with
             | (Normal a, _) => P a
             | (Throw _, _) => True
             end.

(** The computation returns normally from every state. *)
Definition neverThrows {A} (m : Eff A) : Prop :=
  forall st, exists a st', m st = (Normal a, st').

(** An assistant message with every optional field filled in and no
    feedback yet. *)
Definition populated (m : Message.t) : Prop :=
  Message.isUser m = false /\
  Js.truthy (Message.text m) = true /\
  Js.truthy (Message.suggestedTopics m) = true /\
  Js.truthy (Message.confidenceScore m) = true /\
  Js.truthy (Message.queryType m) = true /\
  Js.truthy (Message.processingTime m) = true /\
  Js.truthy (Message.responseId m) = true /\
  Message.feedbackSubmitted m = JUndefined.

(** What the normaliser gives up on: a falsy value, a number, a boolean. *)
Definition unrecognised (data : JsValue) : bool :=
  negb (Js.truthy data) || String.eqb (Js.typeof data) "number"
  || String.eqb (Js.typeof data) "boolean".

(** A computation that neither reads nor changes the state, but for the
    entries it appends to the debug log: its completion and its entries are
    the same from every state. *)
Definition writer {A} (m : Eff A) : Prop :=
  exists c entries, forall st, m st = (c, appendLogs st entries).

(** The conversation: the state without the debug switch and the debug
    log. *)
Definition conversation (st : State) : list Message.t * string * bool * list Pending :=
  (messages st, inputText st, isTyping st, inFlight st).

(** The events of the debug controls. *)
Definition isDebugEvent (ev : Event) : bool :=
  match ev with
  | ToggleDebug | ClearDebugLogs => true
  | _ => false
  end.

(** A message as it was, or with feedback recorded on it. *)
Definition evolved (m m' : Message.t) : Prop :=
  m' = m \/ m' = Message.withFeedbackSubmitted m.

(** The later list holds the earlier messages, in their order and each one
    evolved, followed by new ones. *)
Definition extends (l l' : list Message.t) : Prop :=
  exists l1 l2, l' = (l1 ++ l2)%list /\ Forall2 evolved l l1.


(** The ways one event changes the state: nothing; the input text; a
    question sent; a feedback call issued; the debug switch or the debug
    log; an exchange answered; a feedback call settled. *)
Inductive Move (st : State) : State -> Prop :=
| MoveNone : Move st st
| MoveInput s :
    isTyping st = false ->
    Move st (mkState (messages st) s (isTyping st) (debugMode st) (debugLogs st)
                     (inFlight st))
| MoveSend text rd logs :
    JsString.isEmpty (JsString.trim text) = false ->
    Move st (mkState (messages st ++ [userMessage text rd])%list "" true (debugMode st)
                     (debugLogs st ++ logs)%list
                     (inFlight st ++ [AwaitSupport (JsString.trim text)])%list)
| MoveFeedback messageId payload logs :
    Move st (mkState (messages st) (inputText st) (isTyping st) (debugMode st)
                     (debugLogs st ++ logs)%list
                     (inFlight st ++ [AwaitFeedback messageId payload])%list)
| MoveDebug mode logs :
    Move st (mkState (messages st) (inputText st) (isTyping st) mode logs (inFlight st))
| MoveAnswer k text m logs :
    nth_error (inFlight st) k = Some (AwaitSupport text) ->
    populated m ->
    Move st (mkState (messages st ++ [m])%list (inputText st) false (debugMode st)
                     (debugLogs st ++ logs)%list
                     (firstn k (inFlight st) ++ skipn (S k) (inFlight st))%list)
| MoveMark k messageId payload logs :
    nth_error (inFlight st) k = Some (AwaitFeedback messageId payload) ->
    Move st (mkState (markFeedback messageId (messages st)) (inputText st) (isTyping st)
                     (debugMode st) (debugLogs st ++ logs)%list
                     (firstn k (inFlight st) ++ skipn (S k) (inFlight st))%list).

(** A session in which feedback on the assistant message has been given
    and recorded. *)
Definition ratedSession : list Event :=
  (answeredSession ++ [ClickFeedback 1 Positive;
                       Settle 0 (Reply acknowledgement) halfDraws (at_ 2000)])%list.

(** A session with the debug controls used in between. *)
Definition debuggedSession : list Event :=
  [ToggleDebug; ClickHelpTopic "Orders" (at_ 1000); ClearDebugLogs;
   Settle 0 NetworkFailure halfDraws (at_ 1500); ToggleDebug].

(** [null] or [undefined]. *)
Definition nullish (v : JsValue) : bool :=
  match v with
  | JUndefined | JNull => true
  | _ => false
  end.

(** The fetch brought no JSON body: it rejected, or the body did not
    parse. *)
Definition unreadable (tr : Transport) : bool :=
  match tr with
  | NetworkFailure | MalformedBody | HttpFailure _ None => true
  | HttpFailure _ (Some _) | Reply _ => false
  end.

(** The event clears the debug log. *)
Definition isClear (ev : Event) : bool :=
  match ev with
  | ClearDebugLogs => true
  | _ => false
  end.

(** The value [callAgentAPI] takes out of the body of a reply, when the
    parser does not throw: [parseLLMJson(result.assistant)], else
    [result.response], else [result]. *)
Definition parsesTo (parseLLMJson : JsValue -> Completion JsValue)
           (result parsedData : JsValue) : Prop :=
  exists assistant,
    Js.get result "assistant" = Normal assistant /\
    if Js.truthy assistant then parseLLMJson assistant = Normal parsedData
    else exists response,
        Js.get result "response" = Normal response /\
        parsedData = if Js.truthy response then response else result.

(** A body whose [response] field holds the canonical sample reply. *)
Definition canonicalBody : JsValue := JObj [("response", canonicalReply)].

(** What the normaliser makes of [wrappedReply]. *)
Definition unwrappedReply : JsValue :=
  JObj [("response", JObj [("message", JStr "Your order has shipped.");
                           ("response_id", JStr "r-1")]);
        ("metadata", JObj [("query_type", JStr "order")])].

(* ================================================================== *)
(** * Tactics *)

(** Unfold the operations of [Eff]. *)
Ltac eff_unfold :=
  cbv beta iota delta
      [tryCatch tryFinally orElse andAlso getProp lift throw bind ret
       addDebugLog setDebugLogs setMessages setInputText setIsTyping
       setDebugMode issue readMessages createMockSupportResponse
       createMockFeedbackResponse] in *.

(** Decide an inequality between two closed rationals. *)
Ltac by_computation := apply Qle_bool_iff; vm_compute; reflexivity.

(** Case analysis on every test of a conditional in the goal. *)
Ltac split_ifs :=
  repeat match goal with
         | |- context [if ?c then _ else _] => destruct c
         end.

(* ================================================================== *)
(** * Facts about strings *)

Module JsStringFacts.
Import JsString.

Lemma trimStart_allWhiteSpace s : allWhiteSpace s = true -> trimStart s = "".
Proof.
  induction s as [| c s IH]; simpl; intros H; [reflexivity|].
  apply andb_true_iff in H as [Hc Hs]. rewrite Hc. apply IH, Hs.
Qed.

Lemma trim_allWhiteSpace s : allWhiteSpace s = true -> trim s = "".
Proof. intros H. unfold trim. rewrite (trimStart_allWhiteSpace s H). reflexivity. Qed.

Lemma startsWith_iff s sub :
  startsWith s sub = true <-> exists post, s = sub ++ post.
Proof.
  revert s. induction sub as [| b sub IH]; intros s; simpl.
  - split; [intros _; exists s; reflexivity | reflexivity].
  - destruct s as [| a s].
    + split; [discriminate | intros [post H]; discriminate].
    + rewrite andb_true_iff, Ascii.eqb_eq, IH. split.
      * intros [-> [post ->]]. exists post. reflexivity.
      * intros [post H]. injection H as -> ->. split; [reflexivity | exists post; reflexivity].
Qed.

Lemma includes_iff s sub :
  includes s sub = true <-> exists pre post, s = pre ++ sub ++ post.
Proof.
  induction s as [| a s IH]; simpl.
  - destruct (startsWith "" sub) eqn:E.
    + split; [intros _ | reflexivity].
      apply startsWith_iff in E as [post E]. exists "", post. exact E.
    + split; [discriminate|]. intros [pre [post H]].
      destruct pre; simpl in H.
      * assert (startsWith "" sub = true) by (apply startsWith_iff; exists post; exact H).
        congruence.
      * discriminate.
  - destruct (startsWith (String a s) sub) eqn:E.
    + split; [intros _ | reflexivity].
      apply startsWith_iff in E as [post E]. exists "", post. exact E.
    + rewrite IH. split.
      * intros [pre [post ->]]. exists (String a pre), post. reflexivity.
      * intros [pre [post H]]. destruct pre as [| p pre]; simpl in H.
        -- assert (startsWith (String a s) sub = true)
             by (apply startsWith_iff; exists post; exact H).
           congruence.
        -- injection H as -> ->. exists pre, post. reflexivity.
Qed.

Lemma toLowerCase_app a b : toLowerCase (a ++ b) = toLowerCase a ++ toLowerCase b.
Proof. induction a as [| c a IH]; simpl; [reflexivity | rewrite IH; reflexivity]. Qed.

Lemma toLowerCase_split q a b :
  toLowerCase q = a ++ b ->
  exists qa qb, q = qa ++ qb /\ toLowerCase qa = a /\ toLowerCase qb = b.
Proof.
  revert q. induction a as [| c a IH]; intros q H; simpl in H.
  - exists "", q. auto.
  - destruct q as [| x q]; simpl in H; [discriminate|].
    injection H as Hc Hq. destruct (IH q Hq) as [qa [qb [-> [Ha Hb]]]].
    exists (String x qa), qb. simpl. rewrite Hc, Ha. auto.
Qed.

Lemma code_inj_lower c k :
  (code c + 32 = code k)%N -> ascii_of_N (code c + 32) = k.
Proof. intros H. rewrite H. apply ascii_N_embedding. Qed.

Lemma isUpper_letter_range c :
  (65 <= code c <= 90)%N -> isUpper c = true.
Proof.
  intros [H1 H2]. unfold isUpper.
  apply N.leb_le in H1. apply N.leb_le in H2. rewrite H1, H2. reflexivity.
Qed.

Lemma isUpper_not_lower_letter c :
  (97 <= code c <= 122)%N -> isUpper c = false.
Proof.
  intros [H1 H2]. unfold isUpper.
  assert (E1 : (code c <=? 90)%N = false) by (apply N.leb_gt; lia).
  assert (E2 : (192 <=? code c)%N = false) by (apply N.leb_gt; lia).
  rewrite E1, E2, andb_false_r. reflexivity.
Qed.

Lemma isUpper_bound c : isUpper c = true -> (code c + 32 < 256)%N.
Proof.
  unfold isUpper. intros H. apply orb_true_iff in H as [H | H].
  - apply andb_true_iff in H as [_ H]. apply N.leb_le in H. lia.
  - apply andb_true_iff in H as [H _]. apply andb_true_iff in H as [_ H].
    apply N.leb_le in H. lia.
Qed.

(** Lower-casing a word yields the keyword exactly when the word spells
    it. *)
Lemma spells_toLowerCase w kw :
  lowerWord kw = true -> spells w kw -> toLowerCase w = kw.
Proof.
  intros Hkw H. induction H as [| c w kw H IH | c k w kw Hc H IH]; simpl in *.
  - reflexivity.
  - apply andb_true_iff in Hkw as [Hk Hkw]. apply andb_true_iff in Hk as [H1 H2].
    apply N.leb_le in H1. apply N.leb_le in H2.
    unfold lowerChar. rewrite (isUpper_not_lower_letter c (conj H1 H2)).
    rewrite (IH Hkw). reflexivity.
  - apply andb_true_iff in Hkw as [Hk Hkw]. apply andb_true_iff in Hk as [H1 H2].
    apply N.leb_le in H1. apply N.leb_le in H2.
    unfold lowerChar. rewrite isUpper_letter_range by lia.
    rewrite (code_inj_lower c k Hc), (IH Hkw). reflexivity.
Qed.

Lemma toLowerCase_spells w kw :
  toLowerCase w = kw -> spells w kw.
Proof.
  revert kw. induction w as [| c w IH]; intros kw H; simpl in H; subst kw.
  - constructor.
  - unfold lowerChar. destruct (isUpper c) eqn:U.
    + apply spells_upper; [| apply IH; reflexivity].
      unfold code at 2. rewrite N_ascii_embedding; [reflexivity|].
      apply isUpper_bound, U.
    + apply spells_lower. apply IH. reflexivity.
Qed.

Theorem includes_toLowerCase_iff query kw :
  lowerWord kw = true ->
  (includes (toLowerCase query) kw = true <-> containsIgnoringCase query kw).
Proof.
  intros Hkw. rewrite includes_iff. split.
  - intros [pre [post H]].
    apply toLowerCase_split in H as [qa [qr [-> [Ha Hr]]]].
    apply toLowerCase_split in Hr as [w [qb [-> [Hw Hb]]]].
    exists qa, w, qb. split; [reflexivity | apply toLowerCase_spells; exact Hw].
  - intros [pre [w [post [-> Hw]]]].
    exists (toLowerCase pre), (toLowerCase post).
    rewrite !toLowerCase_app, (spells_toLowerCase w kw Hkw Hw). reflexivity.
Qed.
End JsStringFacts.

(* ================================================================== *)
(** * Facts about binary64 rounding *)

Module Float64Facts.
Import Float64.
Open Scope Q_scope.

Lemma pow2_pos k : 0 < pow2 k.
Proof. unfold pow2. apply Qpower_0_lt. reflexivity. Qed.

Lemma pow2_add a b : pow2 (a + b) == pow2 a * pow2 b.
Proof. unfold pow2. apply Qpower_plus. discriminate. Qed.

Lemma pow2_le a b : (a <= b)%Z -> pow2 a <= pow2 b.
Proof. intros H. unfold pow2. apply Qpower_le_compat_l; [exact H | discriminate]. Qed.

Lemma pow2_inject k : (0 <= k)%Z -> pow2 k == inject_Z (2 ^ k).
Proof. intros H. unfold pow2. rewrite (Zpower_Qpower 2 k H). reflexivity. Qed.

Lemma pow2_sub a b : pow2 (a - b) == pow2 a / pow2 b.
Proof.
  unfold Z.sub. rewrite pow2_add. unfold pow2 at 2. rewrite Qpower_opp. reflexivity.
Qed.

(** The bracket of a positive rational between two powers of two. *)
Lemma ilog2_spec x : 0 < x -> pow2 (ilog2 x) <= x /\ x < pow2 (ilog2 x + 1).
Proof.
  intros Hx. destruct x as [n d].
  assert (Hn : (0 < n)%Z) by (unfold Qlt in Hx; simpl in Hx; lia).
  assert (Hd : (0 < Zpos d)%Z) by lia.
  pose proof (Z.log2_spec n Hn) as [Ha1 Ha2].
  pose proof (Z.log2_spec (Zpos d) Hd) as [Hb1 Hb2].
  pose proof (Z.log2_nonneg n) as Ha0.
  pose proof (Z.log2_nonneg (Zpos d)) as Hb0.
  set (a := Z.log2 n) in *. set (b := Z.log2 (Zpos d)) in *.
  assert (Hup : n # d < pow2 (a - b + 1)).
  { replace (a - b + 1)%Z with ((a + 1) - b)%Z by ring.
    rewrite pow2_sub. apply Qlt_shift_div_l; [apply pow2_pos|].
    rewrite (pow2_inject b Hb0), (pow2_inject (a + 1)) by lia.
    unfold Qlt, Qmult, inject_Z; simpl. 
    replace (Z.succ a) with (a + 1)%Z in Ha2 by lia. nia. }
  assert (Hlo : pow2 (a - b - 1) <= n # d).
  { replace (a - b - 1)%Z with (a - (b + 1))%Z by ring.
    rewrite pow2_sub. apply Qle_shift_div_r; [apply pow2_pos|].
    rewrite (pow2_inject a Ha0), (pow2_inject (b + 1)) by lia.
    unfold Qle, Qmult, inject_Z; simpl.
    replace (Z.succ b) with (b + 1)%Z in Hb2 by lia. nia. }
  unfold ilog2. cbn [Qnum Qden]. fold a b.
  destruct (Qle_bool (pow2 (a - b)) (n # d)) eqn:E.
  - apply Qle_bool_iff in E. split; assumption.
  - split.
    + exact Hlo.
    + replace (a - b - 1 + 1)%Z with (a - b)%Z by ring.
      apply Qnot_le_lt. intro H. apply Qle_bool_iff in H. congruence.
Qed.

Lemma ilog2_unique x e : 0 < x -> pow2 e <= x -> x < pow2 (e + 1) -> ilog2 x = e.
Proof.
  intros Hx Hlo Hhi. destruct (ilog2_spec x Hx) as [Slo Shi].
  destruct (Z.lt_trichotomy (ilog2 x) e) as [H | [H | H]]; [exfalso | exact H | exfalso].
  - assert (pow2 (ilog2 x + 1) <= pow2 e) by (apply pow2_le; lia).
    apply (Qlt_irrefl x). eapply Qlt_le_trans; [exact Shi|]. eapply Qle_trans; eassumption.
  - assert (pow2 (e + 1) <= pow2 (ilog2 x)) by (apply pow2_le; lia).
    apply (Qlt_irrefl x). eapply Qlt_le_trans; [exact Hhi|]. eapply Qle_trans; eassumption.
Qed.

Lemma ilog2_comp x y : 0 < x -> x == y -> ilog2 x = ilog2 y.
Proof.
  intros Hx E. symmetry. assert (Hy : 0 < y) by (rewrite <- E; exact Hx).
  destruct (ilog2_spec x Hx) as [Slo Shi].
  apply ilog2_unique; [exact Hy | rewrite <- E; exact Slo | rewrite <- E; exact Shi].
Qed.

Lemma ilog2_mono x y : 0 < x -> x <= y -> (ilog2 x <= ilog2 y)%Z.
Proof.
  intros Hx Hxy. assert (Hy : 0 < y) by (eapply Qlt_le_trans; eassumption).
  destruct (ilog2_spec x Hx) as [Xlo Xhi]. destruct (ilog2_spec y Hy) as [Ylo Yhi].
  destruct (Z_le_gt_dec (ilog2 x) (ilog2 y)) as [H | H]; [exact H | exfalso].
  assert (pow2 (ilog2 y + 1) <= pow2 (ilog2 x)) by (apply pow2_le; lia).
  apply (Qlt_irrefl y). eapply Qlt_le_trans; [exact Yhi|].
  eapply Qle_trans; [eassumption|]. eapply Qle_trans; eassumption.
Qed.

Lemma rne_comp q q' : q == q' -> rne q = rne q'.
Proof.
  intros E. unfold rne. rewrite (Qfloor_comp q q' E).
  assert (E' : q - inject_Z (Qfloor q') == q' - inject_Z (Qfloor q')) by (rewrite E; reflexivity).
  rewrite (Qcompare_comp _ _ E' (1 # 2) (1 # 2) (Qeq_refl _)). reflexivity.
Qed.

Lemma rne_floor q : (Qfloor q <= rne q <= Qfloor q + 1)%Z.
Proof.
  unfold rne. destruct (Qcompare (q - inject_Z (Qfloor q)) (1 # 2)); try lia.
  destruct (Z.even (Qfloor q)); lia.
Qed.

Lemma rne_inject n : rne (inject_Z n) = n.
Proof.
  unfold rne. rewrite Qfloor_Z.
  assert (E : Qcompare (inject_Z n - inject_Z n) (1 # 2) = Lt).
  { rewrite <- Qlt_alt. ring_simplify. reflexivity. }
  rewrite E. reflexivity.
Qed.

Lemma rne_mono q1 q2 : q1 <= q2 -> (rne q1 <= rne q2)%Z.
Proof.
  intros H. pose proof (Qfloor_resp_le q1 q2 H) as Hf.
  pose proof (rne_floor q1) as B1. pose proof (rne_floor q2) as B2.
  destruct (Z.eq_dec (Qfloor q1) (Qfloor q2)) as [E | NE]; [| lia].
  unfold rne in *. rewrite <- E in *.
  set (f := Qfloor q1) in *.
  assert (Hr : q1 - inject_Z f <= q2 - inject_Z f).
  { apply Qplus_le_l with (z := inject_Z f). ring_simplify. exact H. }
  destruct (Qcompare (q1 - inject_Z f) (1 # 2)) eqn:C1;
    destruct (Qcompare (q2 - inject_Z f) (1 # 2)) eqn:C2;
    try lia; try (destruct (Z.even f); lia); exfalso.
  - apply Qeq_alt in C1. apply Qlt_alt in C2. rewrite C1 in Hr.
    exact (Qlt_irrefl _ (Qlt_le_trans _ _ _ C2 Hr)).
  - apply Qgt_alt in C1. apply Qeq_alt in C2. rewrite C2 in Hr.
    exact (Qlt_irrefl _ (Qlt_le_trans _ _ _ C1 Hr)).
  - apply Qgt_alt in C1. apply Qlt_alt in C2.
    apply (Qlt_irrefl (1 # 2)). eapply Qlt_le_trans; [exact C1|].
    eapply Qle_trans; [exact Hr|]. apply Qlt_le_weak. exact C2.
Qed.

Lemma fl_unfold x :
  fl x == inject_Z (rne (x / pow2 (ulpExp x))) * pow2 (ulpExp x).
Proof. unfold fl. apply Qred_correct. Qed.

Lemma ulpExp_pos x : 0 < x -> ulpExp x = (Z.max (ilog2 x) (-1022) - 52)%Z.
Proof.
  intros Hx. unfold ulpExp. f_equal. f_equal.
  assert (E : Qabs x == x) by (apply Qabs_pos; apply Qlt_le_weak; exact Hx).
  apply ilog2_comp; [rewrite E; exact Hx | exact E].
Qed.

Lemma div_pow2_le x y k : x <= y -> x / pow2 k <= y / pow2 k.
Proof.
  intros H. unfold Qdiv. apply Qmult_le_compat_r; [exact H|].
  apply Qlt_le_weak. apply Qinv_lt_0_compat. apply pow2_pos.
Qed.

Lemma fl_nonneg x : 0 <= x -> 0 <= fl x.
Proof.
  intros Hx. rewrite fl_unfold.
  apply Qmult_le_0_compat; [| apply Qlt_le_weak, pow2_pos].
  assert (H0 : 0 / pow2 (ulpExp x) <= x / pow2 (ulpExp x)) by (apply div_pow2_le; exact Hx).
  apply rne_mono in H0.
  assert (E : 0 / pow2 (ulpExp x) == inject_Z 0) by (unfold Qdiv; ring).
  rewrite (rne_comp _ _ E), rne_inject in H0.
  change 0 with (inject_Z 0). rewrite <- Zle_Qle. exact H0.
Qed.

Lemma fl_zero x : x == 0 -> fl x == 0.
Proof.
  intros E. rewrite fl_unfold.
  assert (E' : x / pow2 (ulpExp x) == inject_Z 0).
  { generalize (ulpExp x). intros k. rewrite E. unfold Qdiv. ring. }
  rewrite (rne_comp _ _ E'), rne_inject. ring.
Qed.

(** Rounding never moves a value across a power of two. *)
Lemma fl_le_pow2 x e :
  0 < x -> x <= pow2 e -> (ulpExp x <= e)%Z -> fl x <= pow2 e.
Proof.
  intros Hx Hle Hk. rewrite fl_unfold. set (k := ulpExp x) in *.
  assert (Hq : x / pow2 k <= inject_Z (2 ^ (e - k))).
  { rewrite <- pow2_inject by lia. rewrite pow2_sub. apply div_pow2_le. exact Hle. }
  apply rne_mono in Hq. rewrite rne_inject in Hq.
  rewrite Zle_Qle in Hq. rewrite <- pow2_inject in Hq by lia.
  apply Qle_trans with (pow2 (e - k) * pow2 k).
  - apply Qmult_le_compat_r; [exact Hq | apply Qlt_le_weak, pow2_pos].
  - rewrite <- pow2_add. replace (e - k + k)%Z with e by ring. apply Qle_refl.
Qed.

Lemma fl_ge_pow2 x e :
  0 < x -> pow2 e <= x -> (ulpExp x <= e)%Z -> pow2 e <= fl x.
Proof.
  intros Hx Hle Hk. rewrite fl_unfold. set (k := ulpExp x) in *.
  assert (Hq : inject_Z (2 ^ (e - k)) <= x / pow2 k).
  { rewrite <- pow2_inject by lia. rewrite pow2_sub. apply div_pow2_le. exact Hle. }
  apply rne_mono in Hq. rewrite rne_inject in Hq.
  rewrite Zle_Qle in Hq. rewrite <- pow2_inject in Hq by lia.
  apply Qle_trans with (pow2 (e - k) * pow2 k).
  - rewrite <- pow2_add. replace (e - k + k)%Z with e by ring. apply Qle_refl.
  - apply Qmult_le_compat_r; [exact Hq | apply Qlt_le_weak, pow2_pos].
Qed.

(** Rounding to nearest is monotone. *)
Theorem fl_mono x y : 0 <= x -> x <= y -> fl x <= fl y.
Proof.
  intros Hx Hxy.
  destruct (Qlt_le_dec 0 x) as [Hpos | Hzero].
  2:{ assert (E : x == 0) by (apply Qle_antisym; assumption).
      rewrite (fl_zero x E). apply fl_nonneg. eapply Qle_trans; eassumption. }
  assert (Hy : 0 < y) by (eapply Qlt_le_trans; eassumption).
  pose proof (ilog2_mono x y Hpos Hxy) as He.
  pose proof (ulpExp_pos x Hpos) as Kx. pose proof (ulpExp_pos y Hy) as Ky.
  destruct (ilog2_spec x Hpos) as [Xlo Xhi]. destruct (ilog2_spec y Hy) as [Ylo Yhi].
  destruct (Z.eq_dec (ulpExp x) (ulpExp y)) as [E | NE].
  - rewrite (fl_unfold x), (fl_unfold y), E.
    apply Qmult_le_compat_r; [| apply Qlt_le_weak, pow2_pos].
    rewrite <- Zle_Qle. apply rne_mono. apply div_pow2_le. exact Hxy.
  - assert (Hlt : (ilog2 x < ilog2 y)%Z) by lia.
    assert (Hn : (-1022 < ilog2 y)%Z) by lia.
    apply Qle_trans with (pow2 (ilog2 y)).
    + apply fl_le_pow2; [exact Hpos | | lia].
      apply Qlt_le_weak. eapply Qlt_le_trans; [exact Xhi|]. apply pow2_le. lia.
    + apply fl_ge_pow2; [exact Hy | exact Ylo | lia].
Qed.

(** A binary64 value below 1 is at most 1 - 2^-53. *)
Lemma unitDouble_le r : unitDouble r -> r <= 1 - pow2 (-53).
Proof.
  intros [Hd [H0 H1]].
  destruct (Qlt_le_dec r (1 # 2)) as [Hs | Hb].
  { apply Qlt_le_weak. eapply Qlt_le_trans; [exact Hs|].
    apply Qle_bool_iff. vm_compute. reflexivity. }
  assert (Hpos : 0 < r) by (eapply Qlt_le_trans; [|exact Hb]; reflexivity).
  assert (He : ilog2 r = (-1)%Z).
  { apply ilog2_unique; [exact Hpos | exact Hb | exact H1]. }
  assert (Hk : ulpExp r = (-53)%Z) by (rewrite (ulpExp_pos r Hpos), He; reflexivity).
  unfold isDouble in Hd. rewrite fl_unfold, Hk in Hd.
  set (n := rne (r / pow2 (-53))) in *.
  assert (Hn : (n < 2 ^ 53)%Z).
  { apply Z.nle_gt. intro Hge. apply (Qlt_irrefl r).
    eapply Qlt_le_trans; [exact H1|]. rewrite <- Hd.
    rewrite Zle_Qle in Hge.
    apply Qle_trans with (inject_Z (2 ^ 53) * pow2 (-53)).
    - apply Qle_bool_iff. vm_compute. reflexivity.
    - apply Qmult_le_compat_r; [exact Hge | apply Qlt_le_weak, pow2_pos]. }
  rewrite <- Hd.
  apply Qle_trans with (inject_Z (2 ^ 53 - 1) * pow2 (-53)).
  - apply Qmult_le_compat_r; [| apply Qlt_le_weak, pow2_pos].
    rewrite <- Zle_Qle. lia.
  - apply Qle_bool_iff. vm_compute. reflexivity.
Qed.

(** [fl (a + fl (r * b))] lies between its values at the ends of the
    range of r. *)
Lemma affine_bounds a b r hi :
  0 <= a -> 0 <= b -> 0 <= r -> r <= hi ->
  fl a <= add a (mul r b) /\ add a (mul r b) <= add a (mul hi b).
Proof.
  intros Ha Hb Hr Hhi. unfold add, mul.
  assert (H1 : 0 <= r * b) by (apply Qmult_le_0_compat; assumption).
  assert (H2 : r * b <= hi * b) by (apply Qmult_le_compat_r; assumption).
  pose proof (fl_nonneg _ H1) as H3.
  pose proof (fl_mono _ _ H1 H2) as H4.
  split; apply fl_mono; try exact Ha.
  - rewrite <- (Qplus_0_r a) at 1. apply Qplus_le_r. exact H3.
  - rewrite <- (Qplus_0_r 0). apply Qplus_le_compat; assumption.
  - apply Qplus_le_r. exact H4.
Qed.

Lemma mockConfidence_range r :
  unitDouble r -> 8 # 10 <= mockConfidence r /\ mockConfidence r <= 99 # 100.
Proof.
  intros Hr. pose proof (unitDouble_le r Hr) as Hmax. destruct Hr as [_ [H0 _]].
  unfold mockConfidence.
  destruct (affine_bounds (lit (8 # 10)) (lit (19 # 100)) r (1 - pow2 (-53)))
    as [Hlo Hhi]; [by_computation | by_computation | exact H0 | exact Hmax |].
  split.
  - eapply Qle_trans; [| exact Hlo]. by_computation.
  - eapply Qle_trans; [exact Hhi|]. by_computation.
Qed.

Lemma tenths_range x lo hi :
  lo <= x -> x <= hi -> (tenths lo <= tenths x <= tenths hi)%Z.
Proof.
  intros H1 H2. unfold tenths. split; apply Qfloor_resp_le;
    apply Qplus_le_l; apply Qmult_le_compat_r; try assumption; discriminate.
Qed.

Lemma supportTime_tenths r :
  0 <= r -> r < 1 ->
  (5 <= tenths (add (lit (1 # 2)) (mul r (lit (3 # 2)))) <= 20)%Z.
Proof.
  intros H0 H1.
  destruct (affine_bounds (lit (1 # 2)) (lit (3 # 2)) r 1)
    as [Hlo Hhi]; [by_computation | by_computation | exact H0
                   | apply Qlt_le_weak; exact H1 |].
  pose proof (tenths_range _ _ _ Hlo Hhi) as H.
  assert (E1 : tenths (fl (lit (1 # 2))) = 5%Z) by (vm_compute; reflexivity).
  assert (E2 : tenths (add (lit (1 # 2)) (mul 1 (lit (3 # 2)))) = 20%Z)
    by (vm_compute; reflexivity).
  rewrite E1, E2 in H. exact H.
Qed.

Lemma feedbackTime_tenths r :
  0 <= r -> r < 1 ->
  (1 <= tenths (add (lit (1 # 10)) (mul r (lit (4 # 10)))) <= 5)%Z.
Proof.
  intros H0 H1.
  destruct (affine_bounds (lit (1 # 10)) (lit (4 # 10)) r 1)
    as [Hlo Hhi]; [by_computation | by_computation | exact H0
                   | apply Qlt_le_weak; exact H1 |].
  pose proof (tenths_range _ _ _ Hlo Hhi) as H.
  assert (E1 : tenths (fl (lit (1 # 10))) = 1%Z) by (vm_compute; reflexivity).
  assert (E2 : tenths (add (lit (1 # 10)) (mul 1 (lit (4 # 10)))) = 5%Z)
    by (vm_compute; reflexivity).
  rewrite E1, E2 in H. exact H.
Qed.
End Float64Facts.

(* ================================================================== *)
(** * Facts about the effects *)



Create HintDb frame.

Lemma logsOnly_ret {A} (a : A) : logsOnly (ret a).
Proof. intros st. reflexivity. Qed.

Lemma logsOnly_throw {A} e : logsOnly (@throw A e).
Proof. intros st. reflexivity. Qed.

Lemma logsOnly_lift {A} (c : Completion A) : logsOnly (lift c).
Proof. intros st. reflexivity. Qed.

Lemma logsOnly_getProp v k : logsOnly (getProp v k).
Proof. intros st. reflexivity. Qed.

Lemma logsOnly_addDebugLog s : logsOnly (addDebugLog s).
Proof. intros st. reflexivity. Qed.

Lemma logsOnly_bind {A B} (m : Eff A) (k : A -> Eff B) :
  logsOnly m -> (forall a, logsOnly (k a)) -> logsOnly (bind m k).
Proof.
  intros Hm Hk st. unfold bind. specialize (Hm st).
  destruct (m st) as [[a | e] st1]; cbn [snd] in *.
  - rewrite (Hk a st1). exact Hm.
  - exact Hm.
Qed.

Lemma logsOnly_tryCatch {A} (m : Eff A) (h : JsError -> Eff A) :
  logsOnly m -> (forall e, logsOnly (h e)) -> logsOnly (tryCatch m h).
Proof.
  intros Hm Hh st. unfold tryCatch. specialize (Hm st).
  destruct (m st) as [[a | e] st1]; cbn [snd] in *.
  - exact Hm.
  - rewrite (Hh e st1). exact Hm.
Qed.

Lemma logsOnly_orElse a b : logsOnly a -> logsOnly b -> logsOnly (orElse a b).
Proof.
  intros Ha Hb. unfold orElse. apply logsOnly_bind; [exact Ha|].
  intros x. destruct (Js.truthy x); [apply logsOnly_ret | exact Hb].
Qed.

Lemma logsOnly_andAlso a b : logsOnly a -> logsOnly b -> logsOnly (andAlso a b).
Proof.
  intros Ha Hb. unfold andAlso. apply logsOnly_bind; [exact Ha|].
  intros x. destruct (Js.truthy x); [exact Hb | apply logsOnly_ret].
Qed.

Lemma logsOnly_if {A} (c : bool) (a b : Eff A) :
  logsOnly a -> logsOnly b -> logsOnly (if c then a else b).
Proof. destruct c; auto. Qed.

#[export] Hint Resolve logsOnly_ret logsOnly_throw logsOnly_lift logsOnly_getProp
  logsOnly_addDebugLog logsOnly_bind logsOnly_tryCatch logsOnly_orElse
  logsOnly_andAlso logsOnly_if : frame.

Lemma createMockSupportResponse_run query d st :
  createMockSupportResponse query d st
  = (Normal (mockSupportReply query d),
     appendLogs st ["Using mock support response with confidence:"]).
Proof. reflexivity. Qed.

Lemma createMockFeedbackResponse_run r now st :
  createMockFeedbackResponse r now st
  = (Normal (mockFeedbackReply r now), appendLogs st ["Using mock feedback response"]).
Proof. reflexivity. Qed.

Lemma logsOnly_createMockSupportResponse query d :
  logsOnly (createMockSupportResponse query d).
Proof. unfold createMockSupportResponse. auto with frame. Qed.

Lemma logsOnly_createMockFeedbackResponse r now :
  logsOnly (createMockFeedbackResponse r now).
Proof. unfold createMockFeedbackResponse. auto with frame. Qed.

#[export] Hint Resolve logsOnly_createMockSupportResponse
  logsOnly_createMockFeedbackResponse : frame.

Lemma logsOnly_validate data d : logsOnly (validateSupportAgentResponse data d).
Proof.
  unfold validateSupportAgentResponse.
  apply logsOnly_tryCatch; [| auto with frame].
  apply logsOnly_if; [auto with frame|].
  apply logsOnly_bind; [auto with frame|]. intros c.
  apply logsOnly_if; [auto with frame|].
  apply logsOnly_bind; [auto with frame|]. intros w.
  apply logsOnly_if; [auto 7 with frame|].
  apply logsOnly_if; [destruct data; auto with frame|].
  apply logsOnly_if; auto 8 with frame.
Qed.

#[export] Hint Resolve logsOnly_validate : frame.

Lemma logsOnly_callAgentAPI_settle parseLLMJson agentId message tr d rd :
  logsOnly (callAgentAPI_settle parseLLMJson agentId message tr d rd).
Proof.
  unfold callAgentAPI_settle.
  apply logsOnly_tryCatch.
  - destruct tr; auto with frame.
    apply logsOnly_bind; [auto with frame|]. intros _.
    apply logsOnly_bind.
    + apply logsOnly_tryCatch; [| auto with frame].
      apply logsOnly_bind; [auto with frame|]. intros a.
      apply logsOnly_if; auto 7 with frame.
    + intros parsed. apply logsOnly_bind; [auto with frame|]. intros _.
      apply logsOnly_if; auto 7 with frame.
  - intros e. apply logsOnly_bind; [auto with frame|]. intros _.
    apply logsOnly_if; auto 7 with frame.
Qed.

Lemma logsOnly_aiMessage response rd : logsOnly (aiMessage response rd).
Proof. unfold aiMessage. auto 20 with frame. Qed.

Lemma frame_parts st st' :
  frame st' = frame st ->
  messages st' = messages st /\ inputText st' = inputText st /\
  isTyping st' = isTyping st /\ inFlight st' = inFlight st.
Proof. unfold frame. intros H. injection H as H1 H2 H3 _ H5. auto. Qed.

(** What [handleSendMessage] leaves behind once its call has settled: one
    more message, the pending flag cleared, the calls in flight untouched. *)
Lemma resume_support parseLLMJson message tr d rd st :
  let st' := run (handleSendMessage_resume parseLLMJson message tr d rd) st in
  isTyping st' = false /\ inFlight st' = inFlight st /\ inputText st' = inputText st /\
  exists m,
    messages st' = (messages st ++ [m])%list /\
    (m = errorMessage rd \/
     exists response s s', aiMessage response rd s = (Normal m, s')).
Proof.
  unfold run, handleSendMessage_resume.
  cbv beta iota delta [tryFinally tryCatch bind].
  pose proof (logsOnly_callAgentAPI_settle parseLLMJson AgentIds.support message tr d rd st)
    as F1.
  destruct (callAgentAPI_settle parseLLMJson AgentIds.support message tr d rd st)
    as [[resp | e] s1]; cbn [snd] in F1;
    apply frame_parts in F1 as (M1 & I1 & T1 & P1).
  2:{ cbn. rewrite M1, I1, P1. repeat split; eauto. }
  cbv beta iota delta [lift getProp].
  destruct (Js.keys resp) as [ks | e];
    [| cbn; rewrite M1, I1, P1; repeat split; eauto].
  destruct (Js.get resp "response") as [r | e];
    [| cbn; rewrite M1, I1, P1; repeat split; eauto].
  destruct (Js.get resp "metadata") as [md | e];
    [| cbn; rewrite M1, I1, P1; repeat split; eauto].
  cbv beta iota delta [addDebugLog setDebugLogs].
  match goal with
  | |- context [aiMessage resp rd ?s] =>
      pose proof (logsOnly_aiMessage resp rd s) as F2;
      destruct (aiMessage resp rd s) as [[m | e] s2] eqn:E2
  end; cbn [snd] in F2; apply frame_parts in F2 as (M2 & I2 & T2 & P2);
    cbn [messages inputText isTyping inFlight] in *;
    cbn; rewrite M2, I2, P2, M1, I1, P1; repeat split; eauto 8.
Qed.

(* ================================================================== *)
(** * The response normaliser *)

(** C1, as amended.  When the [response] field and the [metadata] field of
    the reply both hold truthy values, [validateSupportAgentResponse]
    returns the reply itself: every field of it is passed through, nothing
    is sampled (the draws are not looked at) and nothing is logged. *)
Theorem validate_canonical_passthrough :
  forall data r m d st,
    Js.get data "response" = Normal r -> Js.truthy r = true ->
    Js.get data "metadata" = Normal m -> Js.truthy m = true ->
    validateSupportAgentResponse data d st = (Normal data, st).
Proof.
  intros data r m d st Hr Tr Hm Tm.
  destruct data as [| | b | q | s | items | fields]; simpl in Hr, Hm;
    try discriminate;
    try (injection Hr as <-; discriminate).
  injection Hr as Hr. injection Hm as Hm.
  unfold validateSupportAgentResponse. eff_unfold.
  simpl. rewrite Hr, Tr, Hm, Tm. reflexivity.
Qed.

Lemma validate_canonical_passthrough_witness :
  validateSupportAgentResponse canonicalReply halfDraws initialState
  = (Normal canonicalReply, initialState).
Proof.
  apply (validate_canonical_passthrough canonicalReply
           (JObj [("message", JStr "Your order has shipped.");
                  ("suggested_topics", JArr [JStr "Shipping"]);
                  ("confidence_score", JNum (Float64.lit (93 # 100)))])
           (JObj [("query_type", JStr "order"); ("processing_time", JStr "1.2s")]));
    reflexivity.
Defined.

(** C1, as stated, fails: a reply that has both fields, the [response]
    field holding the empty string, is not returned unchanged.  It is
    wrapped into a new object whose [response] is the whole reply; that is
    also what [callAgentAPI] returns when the body of the remote response
    is this reply. *)
Lemma validate_present_fields_counterexample :
  Js.hasField emptyResponseReply "response" /\
  Js.hasField emptyResponseReply "metadata" /\
  validateSupportAgentResponse emptyResponseReply halfDraws initialState
  = (Normal (JObj [("response", emptyResponseReply);
                   ("metadata", JObj [("query_type", JStr "order")])]),
     initialState) /\
  fst (callAgentAPI_settle identityParser AgentIds.support "Where is my order?"
                           (Reply emptyResponseReply) halfDraws (at_ 1500) initialState)
  = Normal (JObj [("response", emptyResponseReply);
                  ("metadata", JObj [("query_type", JStr "order")])]) /\
  ~ (forall data d st,
        Js.hasField data "response" -> Js.hasField data "metadata" ->
        fst (validateSupportAgentResponse data d st) = Normal data).
Proof.
  assert (H1 : Js.hasField emptyResponseReply "response")
    by (exists (JStr ""); simpl; auto).
  assert (H2 : Js.hasField emptyResponseReply "metadata")
    by (exists (JObj [("query_type", JStr "order")]); simpl; auto).
  split; [exact H1|]. split; [exact H2|].
  split; [reflexivity|]. split; [reflexivity|].
  intros H. specialize (H emptyResponseReply halfDraws initialState H1 H2).
  discriminate H.
Qed.

(** A non-empty string is handed to [createMockSupportResponse] as if it
    were the query. *)
Lemma validate_plain_string s d st :
  s <> "" ->
  validateSupportAgentResponse (JStr s) d st = createMockSupportResponse s d st.
Proof.
  intros Hs. destruct s as [| c s]; [congruence|]. reflexivity.
Qed.

(** The message of a synthesized reply is one of the four templates. *)
Lemma mockMessage_template query :
  mockMessage query = Text.orders \/ mockMessage query = Text.shipping \/
  mockMessage query = Text.returns \/ mockMessage query = Text.generic.
Proof.
  unfold mockMessage.
  destruct (JsString.includes (JsString.toLowerCase query) "order"); [auto|].
  destruct (JsString.includes (JsString.toLowerCase query) "ship"); [auto|].
  destruct (JsString.includes (JsString.toLowerCase query) "return"); auto.
Qed.

(** C8.  The code at a plain-string reply: the string is not kept as the
    message text.  It is scanned for the keywords like a query, and the
    message of the result is the canned template the scan selects; in a
    session where the remote answers the question about shipping with
    this string, the assistant message shows the generic template and the
    label "general". *)
Theorem validate_plain_string_replaces_text :
  (forall d st,
      validateSupportAgentResponse (JStr plainStringReply) d st
      = (Normal (mockSupportReply plainStringReply d),
         appendLogs st ["Using mock support response with confidence:"])) /\
  (forall d,
      path2 (mockSupportReply plainStringReply d) "response" "message"
      = Normal (JStr Text.generic)) /\
  JStr Text.generic <> JStr plainStringReply /\
  (let shown :=
     nth_error (messages (runSession
                            [ClickHelpTopic "Shipping" (at_ 1000);
                             Settle 0 (Reply (JObj [("response", JStr plainStringReply)]))
                                    halfDraws (at_ 1500)])) 1 in
   option_map Message.text shown = Some (JStr Text.generic) /\
   option_map Message.queryType shown = Some (JStr "general")).
Proof.
  split; [| split; [| split]].
  - intros d st. rewrite validate_plain_string by discriminate.
    apply createMockSupportResponse_run.
  - intros d. reflexivity.
  - discriminate.
  - vm_compute. split; reflexivity.
Qed.

(* ================================================================== *)
(** * The synthesized replies *)

Lemma scan_found query kw :
  lowerWord kw = true ->
  JsString.includes (JsString.toLowerCase query) kw = true ->
  containsIgnoringCase query kw.
Proof. intros Hkw H. apply (JsStringFacts.includes_toLowerCase_iff query kw Hkw). exact H. Qed.

Lemma scan_missed query kw :
  lowerWord kw = true ->
  JsString.includes (JsString.toLowerCase query) kw = false ->
  ~ containsIgnoringCase query kw.
Proof.
  intros Hkw H C. apply (JsStringFacts.includes_toLowerCase_iff query kw Hkw) in C.
  congruence.
Qed.

(** The label [createMockSupportResponse] computes is the one the scan of
    the specification selects. *)
Lemma mockQueryType_labelled query : labelled query (mockQueryType query).
Proof.
  unfold labelled, mockQueryType.
  destruct (JsString.includes (JsString.toLowerCase query) "order") eqn:Eo.
  { repeat split; intros; try reflexivity;
      exfalso; pose proof (scan_found query "order" eq_refl Eo); contradiction. }
  pose proof (scan_missed query "order" eq_refl Eo) as No.
  destruct (JsString.includes (JsString.toLowerCase query) "ship") eqn:Es.
  { repeat split; intros; try reflexivity; try contradiction;
      exfalso; pose proof (scan_found query "ship" eq_refl Es); contradiction. }
  pose proof (scan_missed query "ship" eq_refl Es) as Ns.
  destruct (JsString.includes (JsString.toLowerCase query) "return") eqn:Er.
  { repeat split; intros; try reflexivity; try contradiction;
      exfalso; pose proof (scan_found query "return" eq_refl Er); contradiction. }
  pose proof (scan_missed query "return" eq_refl Er) as Nr.
  repeat split; intros; try reflexivity; contradiction.
Qed.

Lemma mockQueryType_nonempty query : JsString.isEmpty (mockQueryType query) = false.
Proof.
  unfold mockQueryType.
  destruct (JsString.includes (JsString.toLowerCase query) "order"); [reflexivity|].
  destruct (JsString.includes (JsString.toLowerCase query) "ship"); [reflexivity|].
  destruct (JsString.includes (JsString.toLowerCase query) "return"); reflexivity.
Qed.

(** On a failed transport a support call returns the synthesized reply. *)
Lemma settle_support_failed parseLLMJson query tr d rd st :
  failed tr = true ->
  callAgentAPI_settle parseLLMJson AgentIds.support query tr d rd st
  = (Normal (mockSupportReply query d),
     appendLogs st ["Agent API error, using mock response:";
                    "Using mock support response with confidence:"]).
Proof.
  intros H. destruct tr; try discriminate;
    unfold callAgentAPI_settle, appendLogs; eff_unfold; simpl;
    rewrite <- app_assoc; reflexivity.
Qed.

(** The assistant message built from a synthesized support reply. *)
Lemma aiMessage_mock query d rd st :
  exists m,
    aiMessage (mockSupportReply query d) rd st = (Normal m, st) /\
    Message.queryType m = JStr (mockQueryType query) /\
    Message.isUser m = false.
Proof.
  unfold aiMessage, mockSupportReply. eff_unfold.
  cbn [Js.get Js.lookup String.eqb Ascii.eqb Bool.eqb Js.truthy negb].
  rewrite (mockQueryType_nonempty query). cbn [negb].
  split_ifs; eexists; (split; [reflexivity | split; reflexivity]).
Qed.

Lemma resume_failed parseLLMJson query tr d rd st :
  failed tr = true ->
  exists m,
    messages (run (handleSendMessage_resume parseLLMJson query tr d rd) st)
    = (messages st ++ [m])%list /\
    Message.queryType m = JStr (mockQueryType query) /\
    Message.isUser m = false.
Proof.
  intros H. unfold run, handleSendMessage_resume.
  cbv beta iota delta [tryFinally tryCatch bind].
  rewrite (settle_support_failed parseLLMJson query tr d rd st H).
  cbv beta iota delta [lift getProp addDebugLog setDebugLogs setMessages setIsTyping ret bind].
  cbn [Js.keys Js.get mockSupportReply].
  match goal with
  | |- context [aiMessage ?v rd ?s] =>
      destruct (aiMessage_mock query d rd s) as [m [E [Hq Hu]]]; rewrite E
  end.
  exists m. cbn. auto.
Qed.

(** C3.  When the transport of a support call fails, [callAgentAPI]
    returns a synthesized reply whose query-type label is chosen by a
    case-insensitive scan of the query, "order" before "ship" before
    "return", else generic; the assistant message shown for the exchange
    carries that label.  In particular a query that contains "order" in
    any letter case is labelled "order". *)
Theorem fallback_query_type_by_keyword_priority :
  forall parseLLMJson query tr d rd st,
    failed tr = true ->
    exists reply st' label m,
      callAgentAPI_settle parseLLMJson AgentIds.support query tr d rd st
      = (Normal reply, st') /\
      path2 reply "metadata" "query_type" = Normal (JStr label) /\
      (containsIgnoringCase query "order" -> label = "order") /\
      (~ containsIgnoringCase query "order" ->
       containsIgnoringCase query "ship" -> label = "shipping") /\
      (~ containsIgnoringCase query "order" -> ~ containsIgnoringCase query "ship" ->
       containsIgnoringCase query "return" -> label = "return") /\
      (~ containsIgnoringCase query "order" -> ~ containsIgnoringCase query "ship" ->
       ~ containsIgnoringCase query "return" -> label = "general") /\
      messages (run (handleSendMessage_resume parseLLMJson query tr d rd) st)
      = (messages st ++ [m])%list /\
      Message.isUser m = false /\
      Message.queryType m = JStr label.
Proof.
  intros parseLLMJson query tr d rd st H.
  destruct (resume_failed parseLLMJson query tr d rd st H) as [m [Hm [Hq Hu]]].
  destruct (mockQueryType_labelled query) as [L1 [L2 [L3 L4]]].
  exists (mockSupportReply query d),
    (appendLogs st ["Agent API error, using mock response:";
                    "Using mock support response with confidence:"]),
    (mockQueryType query), m.
  split; [apply settle_support_failed; exact H|].
  split; [reflexivity|].
  repeat (split; [assumption|]). assumption.
Qed.

Lemma spells_ORDER : spells "ORDER" "order".
Proof. repeat (apply spells_upper; [reflexivity|]). apply spells_nil. Qed.

Lemma fallback_query_type_by_keyword_priority_witness :
  containsIgnoringCase "Where is my ORDER?" "order" /\
  exists reply st' m,
    callAgentAPI_settle identityParser AgentIds.support "Where is my ORDER?"
                        NetworkFailure halfDraws (at_ 1500) initialState
    = (Normal reply, st') /\
    path2 reply "metadata" "query_type" = Normal (JStr "order") /\
    messages (run (handleSendMessage_resume identityParser "Where is my ORDER?"
                     NetworkFailure halfDraws (at_ 1500)) initialState)
    = [m] /\
    Message.queryType m = JStr "order".
Proof.
  assert (C : containsIgnoringCase "Where is my ORDER?" "order").
  { exists "Where is my ", "ORDER", "?". split; [reflexivity | exact spells_ORDER]. }
  split; [exact C|].
  destruct (fallback_query_type_by_keyword_priority identityParser "Where is my ORDER?"
              NetworkFailure halfDraws (at_ 1500) initialState eq_refl)
    as [reply [st' [label [m [E [P [L [_ [_ [_ [M [_ Q]]]]]]]]]]]].
  rewrite (L C) in P, Q.
  exists reply, st', m. split; [exact E|]. split; [exact P|]. split; [exact M | exact Q].
Defined.

Lemma append_empty_l (s : string) : "" ++ s = s.
Proof. reflexivity. Qed.

(** The numeral printed for k tenths reads back as k / 10. *)
Lemma printTenths_reads k :
  (k <= 20)%nat ->
  exists v, readDecimal (Float64.printTenths (N.of_nat k)) = Some v /\
            (v == inject_Z (Z.of_nat k) / 10)%Q.
Proof.
  intros Hk.
  assert (All : forallb readsBack (seq 0 21) = true) by (vm_compute; reflexivity).
  assert (Hin : In k (seq 0 21)) by (apply in_seq; lia).
  pose proof (proj1 (forallb_forall readsBack (seq 0 21)) All k Hin) as C.
  unfold readsBack in C.
  destruct (readDecimal (Float64.printTenths (N.of_nat k))) as [v |]; [| discriminate].
  exists v. split; [reflexivity | apply Qeq_bool_eq; exact C].
Qed.

(** The numeral [toFixed1] prints reads back as the tenths it rounds to. *)
Lemma toFixed1_reads x lo hi :
  (0 <= lo)%Z -> (hi <= 20)%Z -> (lo <= Float64.tenths x <= hi)%Z ->
  exists v, readDecimal (Float64.toFixed1 x) = Some v /\
            (inject_Z lo / 10 <= v)%Q /\ (v <= inject_Z hi / 10)%Q.
Proof.
  intros Hlo Hhi Hn. unfold Float64.toFixed1.
  set (n := Float64.tenths x) in *. clearbody n.
  destruct (printTenths_reads (Z.to_nat n) ltac:(lia)) as [v [Hv E]].
  replace (N.of_nat (Z.to_nat n)) with (Z.to_N n) in Hv by lia.
  replace (Z.of_nat (Z.to_nat n)) with n in E by lia.
  exists v. split; [exact Hv|]. rewrite E. unfold Qdiv.
  split; (apply Qmult_le_compat_r; [rewrite <- Zle_Qle; lia | discriminate]).
Qed.

Lemma mockSupportTime_label r :
  (0 <= r)%Q -> (r < 1)%Q ->
  exists num v, mockSupportTime r = num ++ "s" /\ readDecimal num = Some v /\
                (1 # 2 <= v)%Q /\ (v <= 2)%Q.
Proof.
  intros H0 H1.
  destruct (toFixed1_reads _ 5 20 ltac:(lia) ltac:(lia)
              (Float64Facts.supportTime_tenths r H0 H1)) as [v [Hv [Hlo Hhi]]].
  exists (Float64.toFixed1
            (Float64.add (Float64.lit (1 # 2)) (Float64.mul r (Float64.lit (3 # 2))))), v.
  split; [unfold mockSupportTime; rewrite append_empty_l; reflexivity|].
  split; [exact Hv|]. split.
  - eapply Qle_trans; [| exact Hlo]. discriminate.
  - eapply Qle_trans; [exact Hhi|]. discriminate.
Qed.

Lemma mockFeedbackTime_label r :
  (0 <= r)%Q -> (r < 1)%Q ->
  exists num v, mockFeedbackTime r = num ++ "s" /\ readDecimal num = Some v /\
                (1 # 10 <= v)%Q /\ (v <= 5 # 10)%Q.
Proof.
  intros H0 H1.
  destruct (toFixed1_reads _ 1 5 ltac:(lia) ltac:(lia)
              (Float64Facts.feedbackTime_tenths r H0 H1)) as [v [Hv [Hlo Hhi]]].
  exists (Float64.toFixed1
            (Float64.add (Float64.lit (1 # 10)) (Float64.mul r (Float64.lit (4 # 10))))), v.
  split; [unfold mockFeedbackTime; rewrite append_empty_l; reflexivity|].
  split; [exact Hv|]. split.
  - eapply Qle_trans; [| exact Hlo]. discriminate.
  - eapply Qle_trans; [exact Hhi|]. discriminate.
Qed.

(** C7, as amended.  Every synthesized support reply carries a confidence
    score in [0.8, 0.99] and a processing-time label that is a decimal
    numeral in [0.5, 2.0] followed by "s"; every synthesized feedback reply
    has no confidence score, and its label is a decimal numeral in
    [0.1, 0.5] followed by "s".  The draws are what [Math.random()]
    returns: binary64 values in [0, 1). *)
Theorem synthesized_reply_ranges :
  forall query d st r now st2,
    unitDouble (drawConfidence d) -> unitDouble (drawTime d) -> unitDouble r ->
    (exists reply st' c label num v,
        createMockSupportResponse query d st = (Normal reply, st') /\
        path2 reply "response" "confidence_score" = Normal (JNum c) /\
        (8 # 10 <= c)%Q /\ (c <= 99 # 100)%Q /\
        path2 reply "metadata" "processing_time" = Normal (JStr label) /\
        label = num ++ "s" /\ readDecimal num = Some v /\
        (1 # 2 <= v)%Q /\ (v <= 2)%Q) /\
    (exists reply st' label num v,
        createMockFeedbackResponse r now st2 = (Normal reply, st') /\
        path2 reply "response" "confidence_score" = Normal JUndefined /\
        path2 reply "metadata" "processing_time" = Normal (JStr label) /\
        label = num ++ "s" /\ readDecimal num = Some v /\
        (1 # 10 <= v)%Q /\ (v <= 5 # 10)%Q).
Proof.
  intros query d st r now st2 Hc Ht Hr. split.
  - destruct (Float64Facts.mockConfidence_range _ Hc) as [C1 C2].
    destruct Ht as [_ [T0 T1]].
    destruct (mockSupportTime_label _ T0 T1) as [num [v [E [Hv [V1 V2]]]]].
    exists (mockSupportReply query d),
      (appendLogs st ["Using mock support response with confidence:"]),
      (mockConfidence (drawConfidence d)), (mockSupportTime (drawTime d)), num, v.
    exact (conj eq_refl (conj eq_refl (conj C1 (conj C2 (conj eq_refl
            (conj E (conj Hv (conj V1 V2)))))))).
  - destruct Hr as [_ [R0 R1]].
    destruct (mockFeedbackTime_label _ R0 R1) as [num [v [E [Hv [V1 V2]]]]].
    exists (mockFeedbackReply r now), (appendLogs st2 ["Using mock feedback response"]),
      (mockFeedbackTime r), num, v.
    exact (conj eq_refl (conj eq_refl (conj eq_refl (conj E (conj Hv (conj V1 V2)))))).
Qed.

Lemma unitDouble_half : unitDouble (1 # 2).
Proof.
  split; [| split].
  - unfold Float64.isDouble. vm_compute. reflexivity.
  - discriminate.
  - reflexivity.
Defined.

Lemma synthesized_reply_ranges_witness :
  (exists reply st' c label num v,
      createMockSupportResponse "where is my order" halfDraws initialState
      = (Normal reply, st') /\
      path2 reply "response" "confidence_score" = Normal (JNum c) /\
      (8 # 10 <= c)%Q /\ (c <= 99 # 100)%Q /\
      path2 reply "metadata" "processing_time" = Normal (JStr label) /\
      label = num ++ "s" /\ readDecimal num = Some v /\
      (1 # 2 <= v)%Q /\ (v <= 2)%Q) /\
  (exists reply st' label num v,
      createMockFeedbackResponse (1 # 2) 1700000000000 initialState = (Normal reply, st') /\
      path2 reply "response" "confidence_score" = Normal JUndefined /\
      path2 reply "metadata" "processing_time" = Normal (JStr label) /\
      label = num ++ "s" /\ readDecimal num = Some v /\
      (1 # 10 <= v)%Q /\ (v <= 5 # 10)%Q).
Proof.
  apply (synthesized_reply_ranges "where is my order" halfDraws initialState
           (1 # 2) 1700000000000%N initialState);
    exact unitDouble_half.
Defined.

(** C7, as stated, fails for the feedback endpoint: the reply
    [createMockFeedbackResponse] builds has no confidence score at all, so
    its [confidence_score] is undefined and no number of [0.8, 0.99]. *)
Lemma feedback_reply_without_confidence_counterexample :
  exists reply st',
    createMockFeedbackResponse (1 # 2) 1700000000000 initialState = (Normal reply, st') /\
    path2 reply "response" "confidence_score" = Normal JUndefined /\
    ~ (exists c, path2 reply "response" "confidence_score" = Normal (JNum c) /\
                 (8 # 10 <= c)%Q /\ (c <= 99 # 100)%Q).
Proof.
  exists (mockFeedbackReply (1 # 2) 1700000000000),
    (appendLogs initialState ["Using mock feedback response"]).
  split; [apply createMockFeedbackResponse_run |]. split; [reflexivity |].
  intros (c & H & _). discriminate H.
Qed.

(* ================================================================== *)
(** * The conversation controller *)

(** C10.  A text that is empty or all white space makes
    [handleSendMessage] return at once, in both revisions: the state is
    the one before the call, so no user message is appended, the input
    text is not cleared, the pending flag is not set, no call is issued
    and nothing is logged. *)
Theorem whitespace_submission_is_noop :
  forall text rd st,
    JsString.allWhiteSpace text = true ->
    handleSendMessage_begin text rd st = (Normal tt, st) /\
    Earlier.handleSendMessage_begin text rd st = (Normal tt, st).
Proof.
  intros text rd st H.
  unfold handleSendMessage_begin, Earlier.handleSendMessage_begin.
  rewrite (JsStringFacts.trim_allWhiteSpace text H). split; reflexivity.
Qed.

Lemma whitespace_submission_is_noop_witness :
  handleSendMessage_begin "   " (at_ 5) initialState = (Normal tt, initialState) /\
  Earlier.handleSendMessage_begin "   " (at_ 5) initialState = (Normal tt, initialState).
Proof.
  apply (whitespace_submission_is_noop "   " (at_ 5) initialState).
  reflexivity.
Defined.






(** A feedback call never throws: whatever the transport does, a value
    comes back and only the debug log grows. *)
Lemma settle_feedback parseLLMJson payload tr d rd st :
  exists v logs,
    callAgentAPI_settle parseLLMJson AgentIds.feedback payload tr d rd st
    = (Normal v, appendLogs st logs).
Proof.
  unfold callAgentAPI_settle, appendLogs. eff_unfold.
  destruct tr as [| status body | | result]; cbn;
    [do 2 eexists; rewrite <- !app_assoc; reflexivity ..|].
  destruct (Js.get result "assistant") as [a | e]; cbn;
    [destruct (Js.truthy a); cbn;
     [destruct (parseLLMJson a) as [v | e]; cbn
     | destruct (Js.get result "response") as [r | e]; cbn;
       [destruct (Js.truthy r) eqn:T; cbn; [rewrite ?T; cbn|] |] ] |];
    try (destruct (Js.truthy result); cbn);
    try (destruct (Js.truthy v); cbn);
    do 2 eexists; rewrite <- !app_assoc; reflexivity.
Qed.

(** What [handleFeedback] does once its call has settled, whatever the
    transport did: the messages bearing the identifier are marked, the
    debug log grows, nothing else changes. *)
Lemma resume_feedback parseLLMJson messageId payload tr d rd st :
  exists logs,
    run (handleFeedback_resume parseLLMJson messageId payload tr d rd) st
    = mkState (markFeedback messageId (messages st)) (inputText st) (isTyping st)
              (debugMode st) (debugLogs st ++ logs)%list (inFlight st).
Proof.
  destruct (settle_feedback parseLLMJson payload tr d rd st) as [v [logs E]].
  exists logs. unfold run, handleFeedback_resume.
  cbv beta iota delta [tryCatch bind]. rewrite E. reflexivity.
Qed.









(** ** One exchange at a time *)

(** The form is gated: while a reply is pending neither typing nor
    submitting does anything. *)
Lemma form_gated_while_pending parseLLMJson numberToString st s rd :
  isTyping st = true ->
  step parseLLMJson numberToString (ChangeInput s) st = st /\
  step parseLLMJson numberToString (SubmitForm rd) st = st.
Proof.
  intros H. unfold step, inputDisabled, sendDisabled. rewrite H. split; reflexivity.
Qed.

Lemma trim_topic_request topic :
  In topic HELP_TOPICS ->
  JsString.trim ("Tell me about " ++ topic) = "Tell me about " ++ topic.
Proof.
  intros [<- | [<- | [<- | []]]]; reflexivity.
Qed.

(** The help-topic buttons are not gated: a click starts another exchange
    whatever the pending flag says. *)
Lemma help_topic_click_not_gated parseLLMJson numberToString st topic rd :
  In topic HELP_TOPICS ->
  exchangesInFlight (step parseLLMJson numberToString (ClickHelpTopic topic rd) st)
  = S (exchangesInFlight st).
Proof.
  intros H.
  assert (E : existsb (String.eqb topic) HELP_TOPICS = true).
  { apply existsb_exists. exists topic. split; [exact H | apply String.eqb_refl]. }
  unfold step. rewrite E.
  unfold run, handleTopicClick, handleSendMessage_begin.
  rewrite (trim_topic_request topic H).
  cbn [JsString.isEmpty append].
  unfold callAgentAPI_request. eff_unfold. cbn [snd inFlight exchangesInFlight].
  unfold exchangesInFlight. cbn [inFlight].
  rewrite filter_app, length_app. cbn. lia.
Qed.

(** Taking the k-th call out of the calls in flight. *)
Lemma exchanges_drop k l p :
  nth_error l k = Some p ->
  (List.length (filter isSupport (firstn k l ++ skipn (S k) l))
   + (if isSupport p then 1 else 0)
   = List.length (filter isSupport l))%nat.
Proof.
  intros H. destruct (nth_error_split l k H) as (l1 & l2 & -> & <-).
  rewrite firstn_app, Nat.sub_diag, firstn_all, firstn_O, app_nil_r.
  replace (S (List.length l1)) with (List.length l1 + 1)%nat by lia.
  rewrite skipn_app, skipn_all2 by lia.
  replace (List.length l1 + 1 - List.length l1)%nat with 1%nat by lia.
  cbn [skipn app]. rewrite !filter_app, !length_app. cbn [filter].
  destruct (isSupport p); cbn [List.length]; lia.
Qed.

(** An event other than a topic click keeps the pending flag in step with
    the exchange in flight. *)
Lemma step_gated parseLLMJson numberToString ev st :
  notTopicClick ev = true -> gated st ->
  gated (step parseLLMJson numberToString ev st).
Proof.
  unfold gated, exchangesInFlight. fold isSupport.
  intros Hev G. destruct ev as [s | rd | topic rd | i j rd | i p | | | k tr d rd];
    try discriminate; unfold step.
  - unfold inputDisabled. destruct (isTyping st) eqn:T; [rewrite T; exact G|].
    cbn. rewrite T. exact G.
  - unfold sendDisabled. destruct (isTyping st) eqn:T; cbn [orb]; [rewrite T; exact G|].
    destruct (JsString.isEmpty (JsString.trim (inputText st))) eqn:E; [rewrite T; exact G|].
    unfold run, handleSubmit, handleSendMessage_begin. rewrite E.
    unfold callAgentAPI_request. eff_unfold. cbn [snd inFlight isTyping].
    rewrite filter_app, length_app, G. reflexivity.
  - destruct (nth_error (messages st) i) as [m |]; [| exact G].
    destruct (feedbackControlsShown m); [| exact G].
    unfold run, handleFeedback_begin. cbv beta iota delta [bind readMessages].
    destruct (findMessage (Message.id m) (messages st)) as [target |]; [| exact G].
    destruct (negb (Js.truthy (Message.responseId target))); [exact G|].
    unfold callAgentAPI_request. eff_unfold. cbn [snd inFlight isTyping].
    rewrite filter_app, length_app, G. cbn. lia.
  - cbn. exact G.
  - destruct (debugMode st); [cbn|]; exact G.
  - destruct (nth_error (inFlight st) k) as [[message | messageId payload] |] eqn:Hk;
      [| | exact G].
    + pose proof (exchanges_drop k _ _ Hk) as D. cbn [isSupport] in D.
      destruct (resume_support parseLLMJson message tr d rd (dropInFlight k st))
        as (T & P & _ & _).
      rewrite T, P. cbn [dropInFlight inFlight].
      destruct (isTyping st); lia.
    + pose proof (exchanges_drop k _ _ Hk) as D. cbn [isSupport] in D.
      destruct (resume_feedback parseLLMJson messageId payload tr d rd (dropInFlight k st))
        as [logs E].
      rewrite E. cbn [dropInFlight inFlight isTyping]. lia.
Qed.

(** X19.  The form keeps to one exchange at a time: over any sequence of events
    without a topic click, the pending flag is set exactly while one
    exchange is in flight, and never more than one is. *)
Theorem form_keeps_one_exchange parseLLMJson numberToString evs :
  forallb notTopicClick evs = true ->
  let st := runEvents parseLLMJson numberToString evs initialState in
  (exchangesInFlight st <= 1)%nat /\
  (isTyping st = true <-> exchangesInFlight st = 1%nat).
Proof.
  intros H.
  assert (G : gated (runEvents parseLLMJson numberToString evs initialState)).
  { assert (G0 : gated initialState) by reflexivity.
    revert G0. generalize initialState. induction evs as [| ev evs IH]; intros st G0.
    - exact G0.
    - cbn in H. apply andb_true_iff in H as [Hev Hrest]. cbn.
      apply IH; [exact Hrest | apply step_gated; assumption]. }
  cbv zeta. unfold gated in G. rewrite G.
  destruct (isTyping (runEvents parseLLMJson numberToString evs initialState));
    split; try lia; split; intros; try reflexivity; discriminate.
Qed.

(** C2.  The code at a second submit attempt while a reply is pending:
    after a help-topic click the pending flag is set and one exchange is
    in flight; a second help-topic click, and likewise a click on a
    suggested topic of an earlier reply, is not rejected: each appends a
    user message and issues another call, so two exchanges are in flight. *)
Theorem second_submit_while_pending_not_rejected :
  let pending := runSession [ClickHelpTopic "Orders" (at_ 1000)] in
  let again :=
    step identityParser printNumber (ClickHelpTopic "Shipping" (at_ 1200)) pending in
  let answered := runSession (answeredSession ++ [ClickHelpTopic "Returns" (at_ 1700)]) in
  let chip :=
    step identityParser printNumber (ClickSuggestedTopic 1 0 (at_ 1800)) answered in
  isTyping pending = true /\ exchangesInFlight pending = 1%nat /\
  isTyping again = true /\ exchangesInFlight again = 2%nat /\
  List.length (messages again) = S (List.length (messages pending)) /\
  isTyping answered = true /\ exchangesInFlight answered = 1%nat /\
  exchangesInFlight chip = 2%nat /\
  List.length (messages chip) = S (List.length (messages answered)).
Proof.
  vm_compute. repeat split; reflexivity.
Qed.

(** ** Response identifiers *)

(** Every settled support exchange appends exactly one message: the
    apology, or the assistant message [aiMessage] builds from the reply
    with the clock readings of this settlement. *)
Lemma settle_support_appends parseLLMJson numberToString k message tr d rd st :
  nth_error (inFlight st) k = Some (AwaitSupport message) ->
  exists m,
    messages (step parseLLMJson numberToString (Settle k tr d rd) st)
    = (messages st ++ [m])%list /\
    (m = errorMessage rd \/
     exists response s s', aiMessage response rd s = (Normal m, s')).
Proof.
  intros H. unfold step. rewrite H.
  destruct (resume_support parseLLMJson message tr d rd (dropInFlight k st))
    as (_ & _ & _ & m & Hm & Hsrc).
  exists m. split; [exact Hm | exact Hsrc].
Qed.





(* ================================================================== *)
(** * What a computation ensures, and whether it returns *)

Lemma ensures_ret {A} (P : A -> Prop) a : P a -> ensures P (ret a).
Proof. intros H st. exact H. Qed.

Lemma ensures_throw {A} (P : A -> Prop) e : ensures P (throw e).
Proof. intros st. exact I. Qed.

Lemma ensures_weaken {A} (P Q : A -> Prop) m :
  (forall a, P a -> Q a) -> ensures P m -> ensures Q m.
Proof.
  intros H Hm st. specialize (Hm st). destruct (m st) as [[a | e] s]; auto.
Qed.

Lemma ensures_bind {A B} (Q : A -> Prop) (P : B -> Prop) m (k : A -> Eff B) :
  ensures Q m -> (forall a, Q a -> ensures P (k a)) -> ensures P (bind m k).
Proof.
  intros Hm Hk st. unfold bind. specialize (Hm st).
  destruct (m st) as [[a | e] s]; [apply (Hk a Hm) | exact I].
Qed.

Lemma ensures_tryCatch {A} (P : A -> Prop) m (h : JsError -> Eff A) :
  ensures P m -> (forall e, ensures P (h e)) -> ensures P (tryCatch m h).
Proof.
  intros Hm Hh st. unfold tryCatch. specialize (Hm st).
  destruct (m st) as [[a | e] s]; [exact Hm | apply Hh].
Qed.

Lemma ensures_orElse (P : JsValue -> Prop) a b :
  ensures (fun v => Js.truthy v = true -> P v) a -> ensures P b ->
  ensures P (orElse a b).
Proof.
  intros Ha Hb. unfold orElse. apply (ensures_bind (fun v => Js.truthy v = true -> P v));
    [exact Ha|].
  intros v Hv. destruct (Js.truthy v) eqn:T; [apply ensures_ret; auto | exact Hb].
Qed.

Lemma ensures_if {A} (P : A -> Prop) (c : bool) (a b : Eff A) :
  ensures P a -> ensures P b -> ensures P (if c then a else b).
Proof. destruct c; auto. Qed.

Lemma ensures_any {A} (m : Eff A) : ensures (fun _ => True) m.
Proof. intros st. destruct (m st) as [[a | e] s]; exact I. Qed.

Lemma neverThrows_ret {A} (a : A) : neverThrows (ret a).
Proof. intros st. exists a, st. reflexivity. Qed.

Lemma neverThrows_addDebugLog s : neverThrows (addDebugLog s).
Proof. intros st. eexists. eexists. reflexivity. Qed.

Lemma neverThrows_setMessages f : neverThrows (setMessages f).
Proof. intros st. eexists. eexists. reflexivity. Qed.

Lemma neverThrows_getProp v k : Js.truthy v = true -> neverThrows (getProp v k).
Proof.
  intros T st. unfold getProp, lift.
  destruct v; try discriminate; eexists; eexists; reflexivity.
Qed.

Lemma neverThrows_bind {A B} (Q : A -> Prop) m (k : A -> Eff B) :
  neverThrows m -> ensures Q m -> (forall a, Q a -> neverThrows (k a)) ->
  neverThrows (bind m k).
Proof.
  intros Hm HQ Hk st. unfold bind. destruct (Hm st) as (a & s & E).
  specialize (HQ st). rewrite E in *. apply (Hk a HQ).
Qed.

Lemma neverThrows_tryCatch {A} m (h : JsError -> Eff A) :
  (forall e, neverThrows (h e)) -> neverThrows (tryCatch m h).
Proof.
  intros Hh st. unfold tryCatch. destruct (m st) as [[a | e] s].
  - exists a, s. reflexivity.
  - apply Hh.
Qed.

Lemma neverThrows_orElse a b : neverThrows a -> neverThrows b -> neverThrows (orElse a b).
Proof.
  intros Ha Hb. unfold orElse. apply (neverThrows_bind (fun _ => True));
    [exact Ha | apply ensures_any |].
  intros v _. destruct (Js.truthy v); [apply neverThrows_ret | exact Hb].
Qed.

Lemma neverThrows_if {A} (c : bool) (a b : Eff A) :
  neverThrows a -> neverThrows b -> neverThrows (if c then a else b).
Proof. destruct c; auto. Qed.

Lemma neverThrows_createMockSupportResponse query d :
  neverThrows (createMockSupportResponse query d).
Proof. intros st. eexists. eexists. apply createMockSupportResponse_run. Qed.

Lemma neverThrows_createMockFeedbackResponse r now :
  neverThrows (createMockFeedbackResponse r now).
Proof. intros st. eexists. eexists. apply createMockFeedbackResponse_run. Qed.

Create HintDb total.
#[export] Hint Resolve neverThrows_ret neverThrows_addDebugLog neverThrows_setMessages
  neverThrows_tryCatch neverThrows_orElse neverThrows_if
  neverThrows_createMockSupportResponse neverThrows_createMockFeedbackResponse : total.

Lemma ensures_createMockSupportResponse query d :
  ensures (fun v => isCanonical v = true) (createMockSupportResponse query d).
Proof. intros st. rewrite createMockSupportResponse_run. reflexivity. Qed.

Lemma isCanonical_pair r m :
  Js.truthy r = true -> Js.truthy m = true ->
  isCanonical (JObj [("response", r); ("metadata", m)]) = true.
Proof. intros Hr Hm. unfold isCanonical. cbn. rewrite Hr, Hm. reflexivity. Qed.

Lemma isCanonical_truthy v : isCanonical v = true -> Js.truthy v = true.
Proof. destruct v; try discriminate; reflexivity. Qed.

(** [x.k || dflt] is truthy when the default is. *)
Lemma ensures_default v k dflt :
  Js.truthy dflt = true ->
  ensures (fun x => Js.truthy x = true) (orElse (getProp v k) (ret dflt)).
Proof.
  intros T. apply ensures_orElse; [| apply ensures_ret; exact T].
  intros st. unfold getProp, lift. destruct (Js.get v k); auto.
Qed.

Lemma neverThrows_default v k dflt :
  Js.truthy v = true -> neverThrows (orElse (getProp v k) (ret dflt)).
Proof. intros T. apply neverThrows_orElse; [apply neverThrows_getProp, T | apply neverThrows_ret]. Qed.

(** The normaliser never throws. *)
Lemma neverThrows_validate data d : neverThrows (validateSupportAgentResponse data d).
Proof.
  unfold validateSupportAgentResponse. apply neverThrows_tryCatch.
  intros e. apply (neverThrows_bind (fun _ => True)); auto with total.
  apply ensures_any.
Qed.


(** ** Computations that only append to the debug log *)

Lemma appendLogs_nil st : appendLogs st [] = st.
Proof. destruct st. unfold appendLogs. cbn. rewrite app_nil_r. reflexivity. Qed.

Lemma appendLogs_app st a b : appendLogs (appendLogs st a) b = appendLogs st (a ++ b).
Proof. unfold appendLogs. cbn. rewrite app_assoc. reflexivity. Qed.

Lemma writer_pure {A} (c : Completion A) : writer (fun st => (c, st)).
Proof. exists c, []. intros st. rewrite appendLogs_nil. reflexivity. Qed.

Lemma writer_ret {A} (a : A) : writer (ret a).
Proof. apply writer_pure. Qed.

Lemma writer_throw {A} e : writer (@throw A e).
Proof. apply writer_pure. Qed.

Lemma writer_lift {A} (c : Completion A) : writer (lift c).
Proof. apply writer_pure. Qed.

Lemma writer_getProp v k : writer (getProp v k).
Proof. apply writer_pure. Qed.

Lemma writer_addDebugLog s : writer (addDebugLog s).
Proof. exists (Normal tt), [s]. reflexivity. Qed.

Lemma writer_bind {A B} (m : Eff A) (k : A -> Eff B) :
  writer m -> (forall a, writer (k a)) -> writer (bind m k).
Proof.
  intros (c & l1 & Hm) Hk. destruct c as [a | e].
  - destruct (Hk a) as (c2 & l2 & H2). exists c2, (l1 ++ l2)%list.
    intros st. unfold bind. rewrite Hm, H2. rewrite appendLogs_app. reflexivity.
  - exists (Throw e), l1. intros st. unfold bind. rewrite Hm. reflexivity.
Qed.

Lemma writer_tryCatch {A} (m : Eff A) (h : JsError -> Eff A) :
  writer m -> (forall e, writer (h e)) -> writer (tryCatch m h).
Proof.
  intros (c & l1 & Hm) Hh. destruct c as [a | e].
  - exists (Normal a), l1. intros st. unfold tryCatch. rewrite Hm. reflexivity.
  - destruct (Hh e) as (c2 & l2 & H2). exists c2, (l1 ++ l2)%list.
    intros st. unfold tryCatch. rewrite Hm, H2. rewrite appendLogs_app. reflexivity.
Qed.

Lemma writer_if {A} (c : bool) (a b : Eff A) :
  writer a -> writer b -> writer (if c then a else b).
Proof. destruct c; auto. Qed.

Lemma writer_orElse a b : writer a -> writer b -> writer (orElse a b).
Proof.
  intros Ha Hb. unfold orElse. apply writer_bind; [exact Ha|].
  intros x. apply writer_if; [apply writer_ret | exact Hb].
Qed.

Lemma writer_andAlso a b : writer a -> writer b -> writer (andAlso a b).
Proof.
  intros Ha Hb. unfold andAlso. apply writer_bind; [exact Ha|].
  intros x. apply writer_if; [exact Hb | apply writer_ret].
Qed.

Create HintDb logs.
#[export] Hint Resolve writer_ret writer_throw writer_lift
  writer_getProp writer_addDebugLog writer_bind writer_tryCatch
  writer_if writer_orElse writer_andAlso : logs.

Lemma writer_createMockSupportResponse query d :
  writer (createMockSupportResponse query d).
Proof. unfold createMockSupportResponse. auto with logs. Qed.

Lemma writer_createMockFeedbackResponse r now :
  writer (createMockFeedbackResponse r now).
Proof. unfold createMockFeedbackResponse. auto with logs. Qed.

#[export] Hint Resolve writer_createMockSupportResponse
  writer_createMockFeedbackResponse : logs.

Lemma writer_validate data d : writer (validateSupportAgentResponse data d).
Proof.
  unfold validateSupportAgentResponse.
  apply writer_tryCatch; [| auto with logs].
  apply writer_if; [auto with logs|].
  apply writer_bind; [auto with logs|]. intros c.
  apply writer_if; [auto with logs|].
  apply writer_bind; [auto with logs|]. intros w.
  apply writer_if; [auto 7 with logs|].
  apply writer_if; [destruct data; auto with logs|].
  apply writer_if; auto 8 with logs.
Qed.

#[export] Hint Resolve writer_validate : logs.

Lemma writer_callAgentAPI_settle parseLLMJson agentId message tr d rd :
  writer (callAgentAPI_settle parseLLMJson agentId message tr d rd).
Proof.
  unfold callAgentAPI_settle.
  apply writer_tryCatch.
  - destruct tr; auto with logs.
    apply writer_bind; [auto with logs|]. intros _.
    apply writer_bind.
    + apply writer_tryCatch; [| auto with logs].
      apply writer_bind; [auto with logs|]. intros a.
      apply writer_if; auto 7 with logs.
    + intros parsed. apply writer_bind; [auto with logs|]. intros _.
      apply writer_if; auto 7 with logs.
  - intros e. apply writer_bind; [auto with logs|]. intros _.
    apply writer_if; auto 7 with logs.
Qed.

Lemma writer_aiMessage response rd : writer (aiMessage response rd).
Proof. unfold aiMessage. auto 20 with logs. Qed.


(* ================================================================== *)
(** * The response normaliser: its results *)

Lemma get_of_truthy v k : Js.truthy v = true -> exists x, Js.get v k = Normal x.
Proof. destruct v; try discriminate; intros _; eexists; reflexivity. Qed.

Lemma validate_unrecognised data d st :
  unrecognised data = true ->
  validateSupportAgentResponse data d st = (Normal JNull, st).
Proof.
  unfold unrecognised. destruct data as [| | b | q | s | items | fields].
  - reflexivity.
  - reflexivity.
  - intros _. destruct b; reflexivity.
  - intros _. unfold validateSupportAgentResponse; eff_unfold; cbn.
    destruct (Qnum q =? 0)%Z; reflexivity.
  - cbn. rewrite !orb_false_r. intros E. apply negb_true_iff, negb_false_iff in E.
    unfold validateSupportAgentResponse; eff_unfold; cbn. rewrite E. reflexivity.
  - discriminate.
  - discriminate.
Qed.

Lemma validate_recognised data d st :
  unrecognised data = false ->
  exists v st', validateSupportAgentResponse data d st = (Normal v, st') /\
                isCanonical v = true /\ frame st' = frame st.
Proof.
  unfold unrecognised. destruct data as [| | b | q | s | items | fields]; try discriminate.
  - destruct b; discriminate.
  - cbn. rewrite orb_true_r. discriminate.
  - cbn. rewrite !orb_false_r. intros E. apply negb_false_iff in E.
    unfold validateSupportAgentResponse. eff_unfold. cbn. rewrite E. cbn.
    eexists. eexists. split; [reflexivity | split; reflexivity].
  - intros _. eexists. eexists. split; [reflexivity | split; reflexivity].
  - intros _. unfold validateSupportAgentResponse. eff_unfold. cbn.
    destruct (Js.truthy (Js.lookup "response" fields)) eqn:Tr;
      destruct (Js.truthy (Js.lookup "metadata" fields)) eqn:Tm;
      destruct (Js.truthy (Js.lookup "agent_response" fields)) eqn:Ta;
      destruct (Js.truthy (Js.lookup "message" fields)) eqn:Tg;
      try (destruct (get_of_truthy _ "response" Ta) as (r & Er);
           destruct (get_of_truthy _ "metadata" Ta) as (m & Em);
           rewrite ?Er, ?Em;
           destruct (Js.truthy r) eqn:T1; destruct (Js.truthy m) eqn:T2);
      repeat (cbn; rewrite ?Tr, ?Tm, ?Ta, ?Tg, ?T1, ?T2);
      (eexists; eexists; split; [reflexivity | split; [| reflexivity]]);
      solve [ apply isCanonical_pair; auto
            | unfold isCanonical; cbn; rewrite Tr, Tm; reflexivity ].
Qed.

(** A canonical reply is a fixed point of the normaliser. *)
Lemma validate_fixed v d st :
  isCanonical v = true -> validateSupportAgentResponse v d st = (Normal v, st).
Proof.
  unfold isCanonical. destruct v as [| | b | q | s | items | fields]; try discriminate.
  cbn. intros E. apply andb_true_iff in E. destruct E as [Tr Tm].
  unfold validateSupportAgentResponse. eff_unfold. cbn. rewrite Tr, Tm. reflexivity.
Qed.

(** X1.  [validateSupportAgentResponse] never throws and changes nothing
    but the debug log.  It gives up (returns null, logging nothing) exactly
    on a falsy value, a number or a boolean; every other value is turned
    into a reply with a truthy [response] and a truthy [metadata]. *)
Theorem validate_null_or_canonical data d st :
  exists v st',
    validateSupportAgentResponse data d st = (Normal v, st') /\
    frame st' = frame st /\
    (if unrecognised data then v = JNull /\ st' = st else isCanonical v = true).
Proof.
  destruct (unrecognised data) eqn:U.
  - exists JNull, st. rewrite (validate_unrecognised _ _ _ U). auto.
  - destruct (validate_recognised data d st U) as (v & st' & E & C & F).
    exists v, st'. auto.
Qed.

(** X2.  Normalising is idempotent: a result other than null is returned
    unchanged by a second pass, whatever is drawn then, and the second pass
    logs nothing. *)
Theorem validate_idempotent data d st v st' :
  validateSupportAgentResponse data d st = (Normal v, st') ->
  v <> JNull ->
  forall d2 st2, validateSupportAgentResponse v d2 st2 = (Normal v, st2).
Proof.
  intros E N d2 st2. apply validate_fixed.
  destruct (unrecognised data) eqn:U.
  - rewrite (validate_unrecognised _ _ _ U) in E. congruence.
  - destruct (validate_recognised data d st U) as (v' & s' & E' & C & _).
    congruence.
Qed.

Lemma validate_idempotent_witness :
  validateSupportAgentResponse unwrappedReply halfDraws loneUserMessage
  = (Normal unwrappedReply, loneUserMessage).
Proof.
  apply (validate_idempotent wrappedReply halfDraws initialState unwrappedReply initialState).
  - reflexivity.
  - discriminate.
Defined.


(* ================================================================== *)
(** * The remote call: what it returns and when it throws *)

Lemma ensures_validate data d :
  ensures (fun v => Js.truthy v = true -> isCanonical v = true)
          (validateSupportAgentResponse data d).
Proof.
  intros st. destruct (unrecognised data) eqn:U.
  - rewrite (validate_unrecognised _ _ _ U). discriminate.
  - destruct (validate_recognised data d st U) as (v & st' & -> & C & _). auto.
Qed.

Lemma neverThrows_parsedData parseLLMJson result :
  neverThrows
    (tryCatch
       (assistant <- getProp result "assistant" ;;
        if Js.truthy assistant then lift (parseLLMJson assistant)
        else
          response <- getProp result "response" ;;
          if Js.truthy response then ret response else ret result)
       (fun parseError => addDebugLog "Parse error using fallback:" ;; ret result)).
Proof.
  apply neverThrows_tryCatch. intros e.
  apply (neverThrows_bind (fun _ => True)); auto with total. apply ensures_any.
Qed.

Lemma neverThrows_tryCatch_body {A} m (h : JsError -> Eff A) :
  neverThrows m -> neverThrows (tryCatch m h).
Proof.
  intros Hm st. unfold tryCatch. destruct (Hm st) as (a & s & E). rewrite E.
  exists a, s. reflexivity.
Qed.

(** On a reply [callAgentAPI] returns, whatever the agent. *)
Lemma neverThrows_settle_reply parseLLMJson agentId message result d rd :
  neverThrows (callAgentAPI_settle parseLLMJson agentId message (Reply result) d rd).
Proof.
  unfold callAgentAPI_settle. apply neverThrows_tryCatch_body.
  apply (neverThrows_bind (fun _ => True)); auto with total; [apply ensures_any|].
  intros _ _.
  apply (neverThrows_bind (fun _ => True));
    [apply neverThrows_parsedData | apply ensures_any |].
  intros pd _.
  apply (neverThrows_bind (fun _ => True)); auto with total; [apply ensures_any|].
  intros _ _. apply neverThrows_if; apply neverThrows_orElse; auto with total.
  apply neverThrows_validate.
Qed.

Lemma neverThrows_settle_support parseLLMJson message tr d rd :
  neverThrows (callAgentAPI_settle parseLLMJson AgentIds.support message tr d rd).
Proof.
  unfold callAgentAPI_settle. apply neverThrows_tryCatch. intros e.
  rewrite String.eqb_refl.
  apply (neverThrows_bind (fun _ => True)); auto with total. apply ensures_any.
Qed.

(** What [callAgentAPI] gives for the support agent: the reply and the
    log entries do not depend on the state. *)
Lemma settle_support_result parseLLMJson message tr d rd :
  exists v logs,
    isCanonical v = true /\
    forall st,
      callAgentAPI_settle parseLLMJson AgentIds.support message tr d rd st
      = (Normal v, appendLogs st logs).
Proof.
  pose proof (neverThrows_settle_support parseLLMJson message tr d rd) as T.
  assert (C : ensures (fun v => isCanonical v = true)
                      (callAgentAPI_settle parseLLMJson AgentIds.support message tr d rd)).
  { unfold callAgentAPI_settle. rewrite String.eqb_refl. apply ensures_tryCatch.
    - destruct tr; try apply ensures_throw.
      apply (ensures_bind (fun _ => True)); [apply ensures_any | intros _ _].
      apply (ensures_bind (fun _ => True)); [apply ensures_any | intros pd _].
      apply (ensures_bind (fun _ => True)); [apply ensures_any | intros _ _].
      apply ensures_orElse;
        [apply ensures_validate | apply ensures_createMockSupportResponse].
    - intros e. apply (ensures_bind (fun _ => True)); [apply ensures_any | intros _ _].
      apply ensures_createMockSupportResponse. }
  destruct (writer_callAgentAPI_settle parseLLMJson AgentIds.support message tr d rd)
    as (c & logs & W).
  destruct (T initialState) as (v & st' & E).
  specialize (C initialState). rewrite E in C. rewrite W in E.
  injection E as -> _. exists v, logs. auto.
Qed.

(** X3.  For the support agent [callAgentAPI] never throws, whatever the
    transport and the parser do, and what it returns always has a truthy
    [response] and a truthy [metadata]; after a failed call it is the reply
    synthesized for the message.  The reply does not depend on the state of
    the component, and the call only appends entries to the debug log. *)
Theorem callAgentAPI_support_canonical parseLLMJson message tr d rd :
  exists v logs,
    isCanonical v = true /\
    (if failed tr then v = mockSupportReply message d else True) /\
    forall st,
      callAgentAPI_settle parseLLMJson AgentIds.support message tr d rd st
      = (Normal v, appendLogs st logs).
Proof.
  destruct (settle_support_result parseLLMJson message tr d rd) as (v & logs & C & E).
  exists v, logs. split; [exact C |]. split; [| exact E].
  destruct (failed tr) eqn:F; [| exact I].
  pose proof (settle_support_failed parseLLMJson message tr d rd initialState F) as S.
  rewrite E in S. injection S as S _. exact S.
Qed.

(** X4.  [callAgentAPI] rethrows exactly when the call failed (the fetch
    rejected, the status is not 2xx, the body is not JSON) and the agent is
    neither the support agent nor the feedback agent; for the two agents of
    the application it always returns. *)
Theorem callAgentAPI_throws_iff parseLLMJson agentId message tr d rd st :
  (exists e st',
     callAgentAPI_settle parseLLMJson agentId message tr d rd st = (Throw e, st'))
  <-> failed tr = true /\ agentId <> AgentIds.support /\ agentId <> AgentIds.feedback.
Proof.
  split.
  - intros (e & st' & E).
    destruct (failed tr) eqn:F.
    + split; [reflexivity |].
      split; intros ->.
      * destruct (neverThrows_settle_support parseLLMJson message tr d rd st)
          as (v & s & E'). congruence.
      * destruct (settle_feedback parseLLMJson message tr d rd st) as (v & logs & E').
        congruence.
    + exfalso. destruct tr as [| | | result]; try discriminate.
      pose proof (neverThrows_settle_reply parseLLMJson agentId message result d rd) as T.
      destruct (T st) as (v & s & E'). congruence.
  - intros (F & Hs & Hf).
    apply String.eqb_neq in Hs, Hf.
    destruct tr as [| status body | | result]; try discriminate;
      unfold callAgentAPI_settle; eff_unfold; rewrite Hs, Hf;
      eexists; eexists; reflexivity.
Qed.


(* ================================================================== *)
(** * Every exchange ends with an answer *)

Lemma ensures_orElse_truthy a b :
  ensures (fun v => Js.truthy v = true) b ->
  ensures (fun v => Js.truthy v = true) (orElse a b).
Proof.
  intros Hb. apply ensures_orElse; [| exact Hb].
  intros st. destruct (a st) as [[v | e] s]; auto.
Qed.

Lemma ensures_truthy_ret v :
  Js.truthy v = true -> ensures (fun v => Js.truthy v = true) (ret v).
Proof. apply (ensures_ret (fun v => Js.truthy v = true)). Qed.

Create HintDb truthy.
#[export] Hint Resolve ensures_orElse_truthy ensures_truthy_ret : truthy.
#[export] Hint Resolve neverThrows_getProp : total.

Lemma truthy_confidence_default : Js.truthy (JNum (Float64.lit (8 # 10))) = true.
Proof. vm_compute. reflexivity. Qed.

Lemma truthy_generated_id t : Js.truthy (JStr ("resp-" ++ JsString.ofN t)) = true.
Proof. reflexivity. Qed.

#[export] Hint Resolve truthy_confidence_default truthy_generated_id : truthy.

Lemma neverThrows_aiMessage response rd :
  Js.truthy response = true -> neverThrows (aiMessage response rd).
Proof.
  intros T. unfold aiMessage.
  do 8 (apply (neverThrows_bind (fun v => Js.truthy v = true));
        [solve [auto 8 with total] | solve [auto 8 with truthy] | intros ? ?]).
  apply neverThrows_ret.
Qed.

Lemma ensures_aiMessage response rd :
  Js.truthy response = true ->
  ensures (fun m => populated m /\ Message.id m = "msg-" ++ JsString.ofN (idAt rd + 1)
                    /\ Message.timestamp m = stampAt rd)
          (aiMessage response rd).
Proof.
  intros T. unfold aiMessage.
  do 8 (apply (ensures_bind (fun v => Js.truthy v = true));
        [solve [auto 8 with truthy] | intros ? ?]).
  apply ensures_ret. unfold populated. cbn. auto 10.
Qed.

Lemma populated_controls m : populated m -> feedbackControlsShown m = true.
Proof.
  intros (U & _ & _ & _ & _ & _ & R & F). unfold feedbackControlsShown.
  rewrite U, R, F. reflexivity.
Qed.

Lemma keys_of_truthy v : Js.truthy v = true -> exists ks, Js.keys v = Normal ks.
Proof. destruct v; try discriminate; intros _; eexists; reflexivity. Qed.

(** What [handleSendMessage] leaves behind once its call has settled:
    the message and the log entries do not depend on the state. *)
Lemma resume_support_populated parseLLMJson message tr d rd :
  exists m logs,
    populated m /\ Message.id m = "msg-" ++ JsString.ofN (idAt rd + 1) /\
    Message.timestamp m = stampAt rd /\
    forall st,
      run (handleSendMessage_resume parseLLMJson message tr d rd) st
      = mkState (messages st ++ [m])%list (inputText st) false (debugMode st)
                (debugLogs st ++ logs)%list (inFlight st).
Proof.
  destruct (settle_support_result parseLLMJson message tr d rd) as (v & l1 & C & E1).
  apply isCanonical_truthy in C.
  destruct (keys_of_truthy v C) as (ks & Ek).
  destruct (get_of_truthy v "response" C) as (r & Er).
  destruct (get_of_truthy v "metadata" C) as (md & Em).
  destruct (writer_aiMessage v rd) as (c & l2 & E2).
  destruct (neverThrows_aiMessage v rd C initialState) as (m & s2 & E).
  pose proof (ensures_aiMessage v rd C initialState) as P.
  rewrite E in P. rewrite E2 in E. injection E as -> _.
  exists m, (l1 ++ ["Support agent response structure:"] ++ l2 ++ ["Creating AI message:"])%list.
  destruct P as (P1 & P2 & P3). split; [exact P1|]. split; [exact P2|].
  split; [exact P3|]. intros st.
  unfold run, handleSendMessage_resume.
  cbv beta iota delta [tryFinally tryCatch bind]. rewrite E1.
  cbv beta iota delta [lift getProp]. rewrite Ek, Er, Em.
  change (addDebugLog "Support agent response structure:" (appendLogs st l1))
    with (Normal tt, appendLogs (appendLogs st l1) ["Support agent response structure:"]).
  cbv beta iota. rewrite E2. cbn. rewrite <- !app_assoc. reflexivity.
Qed.

(** X5.  Every support exchange of the application ends with an assistant
    message in the state, never with the apology: when the call settles,
    whatever the transport and the parser did, one message is appended
    that is not a user message and has a text, suggested topics, a
    confidence score, a query type, a processing time and a response
    identifier (all truthy) and no feedback recorded, so the test of the
    feedback controls, [!message.isUser && message.responseId &&
    !message.feedbackSubmitted], is true of it; the pending flag is
    cleared, and the input text, the earlier messages and the calls in
    flight are left as they are.  This is a statement about the state: the
    values are whatever truthy values the reply carried, and what the
    component renders from them is not part of it. *)
Theorem support_exchange_always_answered parseLLMJson message tr d rd st :
  exists m logs,
    run (handleSendMessage_resume parseLLMJson message tr d rd) st
    = mkState (messages st ++ [m])%list (inputText st) false (debugMode st)
              (debugLogs st ++ logs)%list (inFlight st) /\
    populated m /\ feedbackControlsShown m = true /\ m <> errorMessage rd.
Proof.
  destruct (resume_support_populated parseLLMJson message tr d rd)
    as (m & logs & P & _ & _ & E).
  exists m, logs. split; [apply E |]. split; [exact P |].
  split; [apply populated_controls, P |].
  intros ->. destruct P as (_ & _ & _ & _ & _ & _ & R & _). discriminate.
Qed.


(** ** The effect of each handler on the state *)

Lemma begin_blank text rd st :
  JsString.isEmpty (JsString.trim text) = true ->
  run (handleSendMessage_begin text rd) st = st.
Proof. intros E. unfold run, handleSendMessage_begin. rewrite E. reflexivity. Qed.

Lemma begin_effect text rd st :
  JsString.isEmpty (JsString.trim text) = false ->
  run (handleSendMessage_begin text rd) st
  = mkState (messages st ++ [userMessage text rd])%list "" true (debugMode st)
            (debugLogs st ++ ["Calling support agent with message:";
                              ("Calling agent API: " ++ AgentIds.support
                               ++ " with message: " ++ JsString.trim text)%string])%list
            (inFlight st ++ [AwaitSupport (JsString.trim text)])%list.
Proof.
  intros E. unfold run, handleSendMessage_begin. rewrite E.
  unfold callAgentAPI_request. eff_unfold. cbn. rewrite <- app_assoc. reflexivity.
Qed.

Lemma feedback_begin_effect numberToString messageId p st :
  run (handleFeedback_begin numberToString messageId p) st
  = match findMessage messageId (messages st) with
    | None => st
    | Some target =>
        if Js.truthy (Message.responseId target)
        then
          let payload := "Feedback for response "
                         ++ toStr numberToString (Message.responseId target)
                         ++ ": " ++ polarityText p in
          mkState (messages st) (inputText st) (isTyping st) (debugMode st)
                  (debugLogs st ++ ["Calling feedback agent for message:";
                                    ("Calling agent API: " ++ AgentIds.feedback
                                     ++ " with message: " ++ payload)%string])%list
                  (inFlight st ++ [AwaitFeedback messageId payload])%list
        else st
    end.
Proof.
  unfold run, handleFeedback_begin. cbv beta iota delta [bind readMessages].
  destruct (findMessage messageId (messages st)) as [target |]; [| reflexivity].
  destruct (Js.truthy (Message.responseId target)) eqn:T; [| reflexivity].
  unfold callAgentAPI_request. eff_unfold. cbn. rewrite <- app_assoc. reflexivity.
Qed.

Lemma resume_feedback_effect parseLLMJson messageId payload tr d rd :
  exists logs, forall st,
    run (handleFeedback_resume parseLLMJson messageId payload tr d rd) st
    = mkState (markFeedback messageId (messages st)) (inputText st) (isTyping st)
              (debugMode st) (debugLogs st ++ logs)%list (inFlight st).
Proof.
  destruct (writer_callAgentAPI_settle parseLLMJson AgentIds.feedback payload tr d rd)
    as (c & logs & W).
  destruct (settle_feedback parseLLMJson payload tr d rd initialState) as (v & l0 & E).
  rewrite W in E. injection E as -> _.
  exists logs. intros st. unfold run, handleFeedback_resume.
  cbv beta iota delta [tryCatch bind]. rewrite W. reflexivity.
Qed.

(** Every event is one of the moves. *)
Lemma step_moves parseLLMJson numberToString ev st :
  Move st (step parseLLMJson numberToString ev st).
Proof.
  destruct ev as [s | rd | topic rd | i j rd | i p | | | k tr d rd]; unfold step.
  - unfold inputDisabled. destruct (isTyping st) eqn:T; [apply MoveNone |].
    unfold run, setInputText. cbn [snd]. apply MoveInput, T.
  - destruct (sendDisabled st) eqn:D; [apply MoveNone |].
    unfold sendDisabled in D. apply orb_false_iff in D as [_ E].
    unfold handleSubmit. change (run (fun st0 => handleSendMessage_begin (inputText st0) rd st0) st)
      with (run (handleSendMessage_begin (inputText st) rd) st).
    rewrite (begin_effect _ rd st E). apply MoveSend, E.
  - destruct (existsb (String.eqb topic) HELP_TOPICS); [| apply MoveNone].
    unfold handleTopicClick.
    destruct (JsString.isEmpty (JsString.trim ("Tell me about " ++ topic))) eqn:E.
    + rewrite (begin_blank _ rd st E). apply MoveNone.
    + rewrite (begin_effect _ rd st E). apply MoveSend, E.
  - destruct (nth_error (messages st) i) as [m |]; [| apply MoveNone].
    destruct (nth_error (suggestedChips m) j) as [[| | | | topic | |] |]; try apply MoveNone.
    destruct (JsString.isEmpty (JsString.trim topic)) eqn:E.
    + rewrite (begin_blank _ rd st E). apply MoveNone.
    + rewrite (begin_effect _ rd st E). apply MoveSend, E.
  - destruct (nth_error (messages st) i) as [m |]; [| apply MoveNone].
    destruct (feedbackControlsShown m); [| apply MoveNone].
    rewrite feedback_begin_effect.
    destruct (findMessage (Message.id m) (messages st)) as [target |]; [| apply MoveNone].
    destruct (Js.truthy (Message.responseId target)); [apply MoveFeedback | apply MoveNone].
  - apply MoveDebug.
  - destruct (debugMode st); [apply MoveDebug | apply MoveNone].
  - destruct (nth_error (inFlight st) k) as [[message | messageId payload] |] eqn:Hk;
      [| | apply MoveNone].
    + destruct (resume_support_populated parseLLMJson message tr d rd)
        as (m & logs & P & _ & _ & E).
      rewrite E. cbn [dropInFlight messages inputText debugMode debugLogs inFlight].
      apply (MoveAnswer st k message m logs Hk P).
    + destruct (resume_feedback_effect parseLLMJson messageId payload tr d rd)
        as (logs & E).
      rewrite E. cbn [dropInFlight messages inputText isTyping debugMode debugLogs inFlight].
      apply (MoveMark st k messageId payload logs Hk).
Qed.

(** A property kept by every move holds after every session. *)
Lemma runEvents_invariant parseLLMJson numberToString (I : State -> Prop) :
  (forall st st', Move st st' -> I st -> I st') ->
  forall evs st, I st -> I (runEvents parseLLMJson numberToString evs st).
Proof.
  intros HI evs. induction evs as [| ev evs IH]; intros st H; [exact H |].
  cbn. apply IH. apply (HI st); [apply step_moves | exact H].
Qed.


(* ================================================================== *)
(** * Invariants of sessions *)

Lemma exchanges_app l p :
  List.length (filter isSupport (l ++ [p]))
  = (List.length (filter isSupport l) + (if isSupport p then 1 else 0))%nat.
Proof. rewrite filter_app, length_app. cbn. destruct (isSupport p); reflexivity. Qed.

(** X6.  The typing indicator never stays on by itself: in every state a
    session can reach, when no support exchange is in flight the pending
    flag is clear, so the text input and the send button are usable again
    (this holds with topic clicks too, which can start several exchanges
    at once). *)
Theorem indicator_clears_when_idle parseLLMJson numberToString evs :
  let st := runEvents parseLLMJson numberToString evs initialState in
  exchangesInFlight st = 0%nat -> isTyping st = false.
Proof.
  cbv zeta.
  apply (runEvents_invariant parseLLMJson numberToString
           (fun st => exchangesInFlight st = 0%nat -> isTyping st = false));
    [| reflexivity].
  unfold exchangesInFlight. fold isSupport.
  intros st st' M I.
  destruct M as [| s T | text rd logs E | messageId payload logs | mode logs
                 | k text m logs Hk P | k messageId payload logs Hk];
    cbn [inFlight isTyping]; try exact I; try reflexivity.
  - rewrite exchanges_app. cbn. lia.
  - rewrite exchanges_app. cbn. rewrite Nat.add_0_r. exact I.
  - pose proof (exchanges_drop k _ _ Hk) as D. cbn [isSupport] in D.
    rewrite Nat.add_0_r in D. rewrite D. exact I.
Qed.

Lemma indicator_clears_when_idle_witness :
  exchangesInFlight (runSession answeredSession) = 0%nat /\
  isTyping (runSession answeredSession) = false.
Proof.
  split; [vm_compute; reflexivity |].
  apply (indicator_clears_when_idle identityParser printNumber answeredSession).
  vm_compute. reflexivity.
Defined.

Lemma evolved_refl m : evolved m m.
Proof. left. reflexivity. Qed.

Lemma evolved_mark messageId m m' :
  evolved m m' ->
  evolved m (if String.eqb (Message.id m') messageId
             then Message.withFeedbackSubmitted m' else m').
Proof.
  intros H. destruct (String.eqb (Message.id m') messageId); [| exact H].
  destruct H as [-> | ->]; right; reflexivity.
Qed.

Lemma extends_refl l : extends l l.
Proof.
  exists l, []. split; [rewrite app_nil_r; reflexivity |].
  induction l; constructor; [apply evolved_refl | assumption].
Qed.

Lemma extends_append l l' m : extends l l' -> extends l (l' ++ [m]).
Proof.
  intros (l1 & l2 & -> & F). exists l1, (l2 ++ [m])%list.
  split; [rewrite app_assoc; reflexivity | exact F].
Qed.

Lemma extends_mark messageId l l' : extends l l' -> extends l (markFeedback messageId l').
Proof.
  intros (l1 & l2 & -> & F).
  exists (markFeedback messageId l1), (markFeedback messageId l2).
  split; [unfold markFeedback; apply map_app |].
  induction F as [| m m' l l1 H F IH]; cbn; constructor;
    [apply evolved_mark, H | exact IH].
Qed.

Lemma session_extends parseLLMJson numberToString evs st :
  extends (messages st) (messages (runEvents parseLLMJson numberToString evs st)).
Proof.
  apply (runEvents_invariant parseLLMJson numberToString
           (fun s => extends (messages st) (messages s))); [| apply extends_refl].
  intros s s' M I.
  destruct M; cbn [messages]; try exact I;
    solve [apply extends_append, I | apply extends_mark, I].
Qed.

Lemma extends_nth l l' i m :
  extends l l' -> nth_error l i = Some m ->
  exists m', nth_error l' i = Some m' /\ evolved m m'.
Proof.
  intros (l1 & l2 & -> & F). revert i.
  induction F as [| x x' l l1 H F IH]; intros i Hi.
  - destruct i; discriminate.
  - destruct i as [| i]; cbn in *.
    + injection Hi as <-. exists x'. auto.
    + apply IH, Hi.
Qed.

(** X7.  The conversation is never rewritten: after any sequence of
    events, from any state, the message list still begins with the earlier
    messages, in their order, each one either untouched or differing only
    in that feedback has been recorded on it; whatever else the list holds
    was added at its end, so the list never gets shorter. *)
Theorem conversation_history_kept parseLLMJson numberToString evs st :
  exists kept added,
    messages (runEvents parseLLMJson numberToString evs st) = (kept ++ added)%list /\
    Forall2 (fun m m' => m' = m \/ m' = Message.withFeedbackSubmitted m)
            (messages st) kept /\
    List.length kept = List.length (messages st).
Proof.
  destruct (session_extends parseLLMJson numberToString evs st) as (kept & added & E & F).
  exists kept, added. split; [exact E |]. split; [exact F |].
  symmetry. apply (Forall2_length F).
Qed.





Lemma evolved_controls m m' :
  evolved m m' -> feedbackControlsShown m = false -> feedbackControlsShown m' = false.
Proof.
  intros [-> | ->] H; [exact H |].
  unfold feedbackControlsShown. cbn. rewrite andb_false_r. reflexivity.
Qed.

(** X9.  The test of the feedback controls does not come back at a list
    position: where [!message.isUser && message.responseId &&
    !message.feedbackSubmitted] is false of the message at a position
    (feedback has been recorded, or the message has no response identifier,
    or it is a user message), it is false of the message at that position
    after any further events, and a click on a feedback button at that
    position does nothing.  The statement is about the position, not about
    the response: [handleFeedback] itself never looks at
    [feedbackSubmitted]. *)
Theorem feedback_controls_stay_hidden parseLLMJson numberToString evs st i m p :
  nth_error (messages st) i = Some m ->
  feedbackControlsShown m = false ->
  let st' := runEvents parseLLMJson numberToString evs st in
  (exists m', nth_error (messages st') i = Some m' /\ feedbackControlsShown m' = false) /\
  step parseLLMJson numberToString (ClickFeedback i p) st' = st'.
Proof.
  intros Hi Hc. cbv zeta.
  destruct (extends_nth _ _ i m (session_extends parseLLMJson numberToString evs st) Hi)
    as (m' & Hi' & Ev).
  pose proof (evolved_controls m m' Ev Hc) as Hc'.
  split; [exists m'; auto |].
  unfold step. rewrite Hi', Hc'. reflexivity.
Qed.

Lemma feedback_controls_stay_hidden_witness :
  exists m,
    nth_error (messages (runSession ratedSession)) 1 = Some m /\
    feedbackControlsShown m = false /\
    (exists m',
        nth_error (messages (runEvents identityParser printNumber
                                       [ClickHelpTopic "Returns" (at_ 3000)]
                                       (runSession ratedSession))) 1 = Some m' /\
        feedbackControlsShown m' = false).
Proof.
  assert (H : exists m, nth_error (messages (runSession ratedSession)) 1 = Some m /\
                        feedbackControlsShown m = false).
  { vm_compute. eexists. split; reflexivity. }
  destruct H as (m & Hi & Hc). exists m. split; [exact Hi |]. split; [exact Hc |].
  apply (feedback_controls_stay_hidden identityParser printNumber
           [ClickHelpTopic "Returns" (at_ 3000)] (runSession ratedSession) 1 m Positive
           Hi Hc).
Defined.


Lemma nth_error_last {A} (l : list A) x : nth_error (l ++ [x]) (List.length l) = Some x.
Proof. rewrite nth_error_app2, Nat.sub_diag by lia. reflexivity. Qed.

Lemma drop_last {A} (l : list A) x :
  (firstn (List.length l) (l ++ [x]) ++ skipn (S (List.length l)) (l ++ [x]))%list = l.
Proof.
  rewrite firstn_app, Nat.sub_diag, firstn_all, firstn_O, app_nil_r.
  rewrite skipn_all2 by (rewrite length_app; cbn; lia). apply app_nil_r.
Qed.

(** X10.  A question asked through the form is answered exactly once.
    Typed and submitted while no reply is pending, a non-blank text is
    appended trimmed as a user message, the input is emptied, the pending
    flag is set and one call carrying the trimmed text is issued; when that
    call settles, however it ends, exactly one fully populated assistant
    message follows the question, the pending flag is clear again and the
    calls in flight are what they were. *)
Theorem question_answered_once parseLLMJson numberToString s rd tr d rd' st :
  isTyping st = false ->
  JsString.isEmpty (JsString.trim s) = false ->
  let asked := runEvents parseLLMJson numberToString [ChangeInput s; SubmitForm rd] st in
  let answered :=
    step parseLLMJson numberToString (Settle (List.length (inFlight st)) tr d rd') asked in
  (messages asked = (messages st ++ [userMessage s rd])%list /\
   inputText asked = "" /\ isTyping asked = true /\
   inFlight asked = (inFlight st ++ [AwaitSupport (JsString.trim s)])%list) /\
  exists m,
    messages answered = (messages st ++ [userMessage s rd; m])%list /\
    populated m /\
    inputText answered = "" /\ isTyping answered = false /\
    inFlight answered = inFlight st.
Proof.
  intros T E. cbv zeta. cbn [runEvents].
  assert (A : step parseLLMJson numberToString (SubmitForm rd)
                   (step parseLLMJson numberToString (ChangeInput s) st)
              = mkState (messages st ++ [userMessage s rd])%list "" true (debugMode st)
                        (debugLogs st ++ ["Calling support agent with message:";
                                          ("Calling agent API: " ++ AgentIds.support
                                           ++ " with message: " ++ JsString.trim s)%string])%list
                        (inFlight st ++ [AwaitSupport (JsString.trim s)])%list).
  { unfold step at 2. unfold inputDisabled. rewrite T.
    unfold run at 1. unfold setInputText. cbn [snd].
    unfold step, sendDisabled. cbn [isTyping inputText]. rewrite T, E. cbn [orb].
    unfold handleSubmit.
    match goal with
    | |- run ?f ?s0 = _ =>
        change (run f s0) with (run (handleSendMessage_begin s rd) s0)
    end.
    rewrite (begin_effect s rd _ E). reflexivity. }
  rewrite A. split; [cbn; auto |].
  unfold step. cbn [inFlight]. rewrite nth_error_last.
  destruct (resume_support_populated parseLLMJson (JsString.trim s) tr d rd')
    as (m & logs & P & _ & _ & R).
  rewrite R. cbn [dropInFlight messages inputText isTyping inFlight].
  exists m. rewrite <- app_assoc. cbn [app]. rewrite drop_last. auto.
Qed.

Lemma question_answered_once_witness :
  exists m,
    messages (step identityParser printNumber (Settle 0 NetworkFailure halfDraws (at_ 1500))
                   (runEvents identityParser printNumber
                              [ChangeInput "  Where is my order? "; SubmitForm (at_ 1000)]
                              initialState))
    = [userMessage "  Where is my order? " (at_ 1000); m] /\
    populated m.
Proof.
  destruct (question_answered_once identityParser printNumber "  Where is my order? "
              (at_ 1000) NetworkFailure halfDraws (at_ 1500) initialState)
    as (_ & m & Hm & P & _); [reflexivity | reflexivity |].
  exists m. split; [exact Hm | exact P].
Defined.

(** X11.  The feedback buttons are not gated by a pending feedback call.
    A click on a rendered button of a message that is the first to bear
    its identifier leaves the messages as they are and issues one call to
    the feedback agent, with the payload ["Feedback for response <response
    identifier>: <polarity>"]; the buttons stay rendered until a call
    settles, so a second click issues a second call. *)
Theorem feedback_clicks_each_issue_a_call parseLLMJson numberToString st i m p q :
  nth_error (messages st) i = Some m ->
  feedbackControlsShown m = true ->
  findMessage (Message.id m) (messages st) = Some m ->
  let payload polarity :=
    "Feedback for response " ++ toStr numberToString (Message.responseId m)
    ++ ": " ++ polarityText polarity in
  let st' := runEvents parseLLMJson numberToString [ClickFeedback i p; ClickFeedback i q] st in
  messages st' = messages st /\
  inFlight st' = (inFlight st ++ [AwaitFeedback (Message.id m) (payload p);
                                  AwaitFeedback (Message.id m) (payload q)])%list /\
  inputText st' = inputText st /\ isTyping st' = isTyping st.
Proof.
  intros Hi Hc Hf. cbv zeta. cbn [runEvents].
  assert (R : Js.truthy (Message.responseId m) = true).
  { unfold feedbackControlsShown in Hc.
    apply andb_true_iff in Hc as [Hc _]. apply andb_true_iff in Hc as [_ Hc]. exact Hc. }
  assert (B : forall polarity s,
             messages s = messages st ->
             step parseLLMJson numberToString (ClickFeedback i polarity) s
             = mkState (messages s) (inputText s) (isTyping s) (debugMode s)
                 (debugLogs s ++ ["Calling feedback agent for message:";
                                  ("Calling agent API: " ++ AgentIds.feedback
                                   ++ " with message: " ++ "Feedback for response "
                                   ++ toStr numberToString (Message.responseId m)
                                   ++ ": " ++ polarityText polarity)%string])%list
                 (inFlight s ++ [AwaitFeedback (Message.id m)
                                   ("Feedback for response "
                                    ++ toStr numberToString (Message.responseId m)
                                    ++ ": " ++ polarityText polarity)])%list).
  { intros polarity s Hs. rewrite <- Hs in Hi, Hf. unfold step. rewrite Hi, Hc.
    unfold run, handleFeedback_begin. cbv beta iota delta [bind readMessages].
    rewrite Hf, R. cbn [negb].
    unfold callAgentAPI_request. eff_unfold. cbn. rewrite <- app_assoc. reflexivity. }
  rewrite (B p st eq_refl). rewrite B by reflexivity.
  cbn [messages inFlight inputText isTyping]. rewrite <- app_assoc. auto.
Qed.

Lemma feedback_clicks_each_issue_a_call_witness :
  List.length (inFlight (runEvents identityParser printNumber
                           [ClickFeedback 1 Positive; ClickFeedback 1 Negative]
                           (runSession answeredSession))) = 2%nat.
Proof.
  assert (H : exists m,
             nth_error (messages (runSession answeredSession)) 1 = Some m /\
             feedbackControlsShown m = true /\
             findMessage (Message.id m) (messages (runSession answeredSession)) = Some m).
  { vm_compute. eexists. repeat split; reflexivity. }
  destruct H as (m & Hi & Hc & Hf).
  destruct (feedback_clicks_each_issue_a_call identityParser printNumber
              (runSession answeredSession) 1 m Positive Negative Hi Hc Hf)
    as (_ & F & _).
  rewrite F. rewrite length_app. reflexivity.
Defined.


(* ================================================================== *)
(** * The topics of a synthesized reply *)

Lemma pickTopic_index r :
  unitDouble r ->
  (0 <= Float64.floor (Float64.mul r (inject_Z (Z.of_nat (List.length mockTopics)))) <= 5)%Z.
Proof.
  intros Hr. pose proof (Float64Facts.unitDouble_le r Hr) as Hmax.
  destruct Hr as (_ & H0 & _).
  change (inject_Z (Z.of_nat (List.length mockTopics))) with (6 # 1).
  unfold Float64.floor, Float64.mul. split.
  - change 0%Z with (Qfloor 0). apply Qfloor_resp_le.
    apply Float64Facts.fl_nonneg. apply Qmult_le_0_compat; [exact H0 | discriminate].
  - assert (E : Qfloor (Float64.fl ((1 - Float64.pow2 (-53)) * (6 # 1))) = 5%Z)
      by (vm_compute; reflexivity).
    rewrite <- E. apply Qfloor_resp_le. apply Float64Facts.fl_mono.
    + apply Qmult_le_0_compat; [exact H0 | discriminate].
    + apply Qmult_le_compat_r; [exact Hmax | discriminate].
Qed.

Lemma pickTopic_in r : unitDouble r -> In (pickTopic r) mockTopics.
Proof.
  intros Hr. pose proof (pickTopic_index r Hr) as [H0 H5]. unfold pickTopic.
  cbv zeta.
  destruct (Float64.floor (Float64.mul r (inject_Z (Z.of_nat (List.length mockTopics)))))
    as [| i | i]; [| | lia].
  - cbn. auto.
  - assert (Hi : (Z.to_nat (Z.pos i) < 6)%nat) by lia.
    change (Z.pos i <? 0)%Z with false. cbv iota.
    apply nth_In. exact Hi.
Qed.

(** X12.  The suggested topics of a synthesized support reply are three
    entries of the topic list (Orders, Shipping, Returns, Products,
    Warranty, Account): with draws that [Math.random()] can return, the
    index [Math.floor(Math.random() * topics.length)] never leaves the
    list, so no chip is undefined and each one can be clicked. *)
Theorem synthesized_topics_in_list query d st :
  unitDouble (drawTopic1 d) -> unitDouble (drawTopic2 d) -> unitDouble (drawTopic3 d) ->
  exists reply st' topics,
    createMockSupportResponse query d st = (Normal reply, st') /\
    path2 reply "response" "suggested_topics" = Normal (JArr topics) /\
    List.length topics = 3%nat /\
    Forall (fun t => In t mockTopics /\ exists s, t = JStr s) topics.
Proof.
  intros H1 H2 H3.
  exists (mockSupportReply query d),
    (appendLogs st ["Using mock support response with confidence:"]),
    [pickTopic (drawTopic1 d); pickTopic (drawTopic2 d); pickTopic (drawTopic3 d)].
  assert (S : forall t, In t mockTopics -> In t mockTopics /\ exists s, t = JStr s).
  { intros t Ht. split; [exact Ht |].
    repeat (destruct Ht as [<- | Ht]; [eexists; reflexivity |]). destruct Ht. }
  split; [apply createMockSupportResponse_run |]. split; [reflexivity |].
  split; [reflexivity |].
  repeat (apply Forall_cons; [apply S, pickTopic_in; assumption |]).
  apply Forall_nil.
Qed.

Lemma synthesized_topics_in_list_witness :
  exists reply st' topics,
    createMockSupportResponse "Where is my order?" halfDraws initialState
    = (Normal reply, st') /\
    path2 reply "response" "suggested_topics" = Normal (JArr topics) /\
    List.length topics = 3%nat /\
    Forall (fun t => In t mockTopics /\ exists s, t = JStr s) topics.
Proof.
  apply (synthesized_topics_in_list "Where is my order?" halfDraws initialState);
    apply unitDouble_half.
Defined.


(* ================================================================== *)
(** * The debug controls *)

Lemma conversation_parts st st' :
  conversation st = conversation st' ->
  messages st = messages st' /\ inputText st = inputText st' /\
  isTyping st = isTyping st' /\ inFlight st = inFlight st'.
Proof. unfold conversation. intros H. injection H as H1 H2 H3 H4. auto. Qed.

Lemma begin_conversation text rd st st' :
  conversation st = conversation st' ->
  conversation (run (handleSendMessage_begin text rd) st)
  = conversation (run (handleSendMessage_begin text rd) st').
Proof.
  intros H. apply conversation_parts in H as (Hm & Hi & Ht & Hf).
  destruct (JsString.isEmpty (JsString.trim text)) eqn:E.
  - rewrite !(begin_blank _ _ _ E). unfold conversation. congruence.
  - rewrite !(begin_effect _ _ _ E). unfold conversation. cbn. congruence.
Qed.

(** An event of the conversation does the same to the conversation
    whatever the debug switch and the debug log hold. *)
Lemma step_conversation parseLLMJson numberToString ev st st' :
  isDebugEvent ev = false ->
  conversation st = conversation st' ->
  conversation (step parseLLMJson numberToString ev st)
  = conversation (step parseLLMJson numberToString ev st').
Proof.
  intros Hev H. pose proof H as H0. apply conversation_parts in H0 as (Hm & Hi & Ht & Hf).
  destruct ev as [s | rd | topic rd | i j rd | i p | | | k tr d rd]; try discriminate;
    unfold step.
  - unfold inputDisabled. rewrite Ht. destruct (isTyping st') eqn:T'; [exact H |].
    unfold conversation. cbn. congruence.
  - unfold sendDisabled. rewrite Ht, Hi.
    destruct (isTyping st' || JsString.isEmpty (JsString.trim (inputText st')));
      [exact H |].
    unfold handleSubmit.
    change (run (fun s0 => handleSendMessage_begin (inputText s0) rd s0) st)
      with (run (handleSendMessage_begin (inputText st) rd) st).
    change (run (fun s0 => handleSendMessage_begin (inputText s0) rd s0) st')
      with (run (handleSendMessage_begin (inputText st') rd) st').
    rewrite Hi. apply begin_conversation, H.
  - destruct (existsb (String.eqb topic) HELP_TOPICS); [| exact H].
    apply begin_conversation, H.
  - rewrite Hm. destruct (nth_error (messages st') i) as [m |]; [| exact H].
    destruct (nth_error (suggestedChips m) j) as [[| | | | topic | |] |]; try exact H.
    apply begin_conversation, H.
  - rewrite Hm. destruct (nth_error (messages st') i) as [m |]; [| exact H].
    destruct (feedbackControlsShown m); [| exact H].
    rewrite !feedback_begin_effect. rewrite Hm.
    destruct (findMessage (Message.id m) (messages st')) as [target |]; [| exact H].
    destruct (Js.truthy (Message.responseId target)); [| exact H].
    unfold conversation. cbn. congruence.
  - rewrite Hf.
    destruct (nth_error (inFlight st') k) as [[message | messageId payload] |];
      [| | exact H].
    + destruct (resume_support_populated parseLLMJson message tr d rd)
        as (m & logs & _ & _ & _ & R).
      rewrite !R. unfold conversation. cbn. rewrite Hm, Hi, Hf. reflexivity.
    + destruct (resume_feedback_effect parseLLMJson messageId payload tr d rd)
        as (logs & R).
      rewrite !R. unfold conversation. cbn. rewrite Hm, Hi, Ht, Hf. reflexivity.
Qed.

Lemma debug_step_conversation parseLLMJson numberToString ev st :
  isDebugEvent ev = true ->
  conversation (step parseLLMJson numberToString ev st) = conversation st.
Proof.
  destruct ev; try discriminate; intros _; unfold step; [reflexivity |].
  destruct (debugMode st); reflexivity.
Qed.

(** X13.  The debug controls are inert.  The conversation (messages,
    input text, pending flag, calls in flight) a session arrives at does
    not depend on the debug switch or on the debug log: the same events
    with the debug events left out, started from a state with the same
    conversation, arrive at the same conversation. *)
Theorem debug_controls_inert parseLLMJson numberToString evs st st' :
  conversation st = conversation st' ->
  conversation (runEvents parseLLMJson numberToString evs st)
  = conversation (runEvents parseLLMJson numberToString
                            (filter (fun ev => negb (isDebugEvent ev)) evs) st').
Proof.
  revert st st'. induction evs as [| ev evs IH]; intros st st' H; [exact H |].
  cbn [runEvents filter]. destruct (isDebugEvent ev) eqn:D; cbn [negb].
  - apply IH. rewrite (debug_step_conversation _ _ _ _ D). exact H.
  - cbn [runEvents]. apply IH. apply step_conversation; assumption.
Qed.

Lemma debug_controls_inert_witness :
  conversation (runSession debuggedSession) = conversation (runSession answeredSession).
Proof.
  apply (debug_controls_inert identityParser printNumber debuggedSession
           initialState initialState).
  reflexivity.
Defined.


(** X14.  The debug log is append-only: over any sequence of events
    without a click on Clear, from any state, the log keeps every entry it
    had, in order, and only gains entries at its end; nothing in the
    application trims it. *)
Theorem debug_log_append_only parseLLMJson numberToString evs st :
  forallb (fun ev => negb (isClear ev)) evs = true ->
  exists entries,
    debugLogs (runEvents parseLLMJson numberToString evs st)
    = (debugLogs st ++ entries)%list.
Proof.
  revert st. induction evs as [| ev evs IH]; intros st H.
  - exists []. rewrite app_nil_r. reflexivity.
  - cbn in H. apply andb_true_iff in H as [Hev H]. cbn [runEvents].
    destruct (IH (step parseLLMJson numberToString ev st) H) as (l2 & E2).
    assert (S : exists l1, debugLogs (step parseLLMJson numberToString ev st)
                           = (debugLogs st ++ l1)%list).
    { assert (N : exists l1, debugLogs st = (debugLogs st ++ l1)%list)
        by (exists []; rewrite app_nil_r; reflexivity).
      destruct ev as [s | rd | topic rd | i j rd | i p | | | k tr d rd];
        try discriminate; unfold step.
      - destruct (inputDisabled st); exact N.
      - destruct (sendDisabled st) eqn:D; [exact N |].
        unfold sendDisabled in D. apply orb_false_iff in D as [_ E].
        unfold handleSubmit.
        change (run (fun s0 => handleSendMessage_begin (inputText s0) rd s0) st)
          with (run (handleSendMessage_begin (inputText st) rd) st).
        rewrite (begin_effect _ rd st E). eexists. reflexivity.
      - destruct (existsb (String.eqb topic) HELP_TOPICS); [| exact N].
        unfold handleTopicClick.
        destruct (JsString.isEmpty (JsString.trim ("Tell me about " ++ topic))) eqn:E.
        + rewrite (begin_blank _ rd st E). exact N.
        + rewrite (begin_effect _ rd st E). eexists. reflexivity.
      - destruct (nth_error (messages st) i) as [m |]; [| exact N].
        destruct (nth_error (suggestedChips m) j) as [[| | | | topic | |] |]; try exact N.
        destruct (JsString.isEmpty (JsString.trim topic)) eqn:E.
        + rewrite (begin_blank _ rd st E). exact N.
        + rewrite (begin_effect _ rd st E). eexists. reflexivity.
      - destruct (nth_error (messages st) i) as [m |]; [| exact N].
        destruct (feedbackControlsShown m); [| exact N].
        rewrite feedback_begin_effect.
        destruct (findMessage (Message.id m) (messages st)) as [target |]; [| exact N].
        destruct (Js.truthy (Message.responseId target)); [| exact N].
        eexists. reflexivity.
      - exact N.
      - destruct (nth_error (inFlight st) k) as [[message | messageId payload] |];
          [| | exact N].
        + destruct (resume_support_populated parseLLMJson message tr d rd)
            as (m & logs & _ & _ & _ & R).
          rewrite R. exists logs. reflexivity.
        + destruct (resume_feedback_effect parseLLMJson messageId payload tr d rd)
            as (logs & R).
          rewrite R. exists logs. reflexivity. }
    destruct S as (l1 & E1). exists (l1 ++ l2)%list.
    rewrite E2, E1, app_assoc. reflexivity.
Qed.

Lemma debug_log_append_only_witness :
  exists entries,
    debugLogs (runEvents identityParser printNumber
                         [Settle 0 NetworkFailure halfDraws (at_ 1500)]
                         (runSession [ClickHelpTopic "Orders" (at_ 1000)]))
    = (debugLogs (runSession [ClickHelpTopic "Orders" (at_ 1000)]) ++ entries)%list.
Proof.
  apply (debug_log_append_only identityParser printNumber
           [Settle 0 NetworkFailure halfDraws (at_ 1500)]
           (runSession [ClickHelpTopic "Orders" (at_ 1000)])).
  reflexivity.
Defined.

(* ================================================================== *)
(** * The earlier revision: failed calls *)

Module EarlierFacts.

(** [callAgentAPI] of the earlier revision leaves the state alone. *)
Lemma settle_pure parseLLMJson tr :
  exists c, forall st, Earlier.callAgentAPI_settle parseLLMJson tr st = (c, st).
Proof.
  unfold Earlier.callAgentAPI_settle. eff_unfold.
  destruct tr as [| status [r |] | | r]; try (eexists; intros st; reflexivity).
  - destruct (Js.get r "assistant") as [a | e]; [| eexists; intros st; reflexivity].
    destruct (Js.truthy a).
    + destruct (parseLLMJson a); eexists; intros st; reflexivity.
    + destruct (Js.get r "response") as [b | e]; [| eexists; intros st; reflexivity].
      destruct (Js.truthy b);
        [destruct (parseLLMJson b) | destruct (parseLLMJson r)];
        eexists; intros st; reflexivity.
  - destruct (Js.get r "assistant") as [a | e]; [| eexists; intros st; reflexivity].
    destruct (Js.truthy a).
    + destruct (parseLLMJson a); eexists; intros st; reflexivity.
    + destruct (Js.get r "response") as [b | e]; [| eexists; intros st; reflexivity].
      destruct (Js.truthy b);
        [destruct (parseLLMJson b) | destruct (parseLLMJson r)];
        eexists; intros st; reflexivity.
Qed.

Lemma settle_unreadable parseLLMJson tr st :
  unreadable tr = true ->
  exists e, Earlier.callAgentAPI_settle parseLLMJson tr st = (Throw e, st).
Proof.
  destruct tr as [| status [r |] | | r]; try discriminate; intros _;
    eexists; reflexivity.
Qed.

Lemma optProp_pure v k : exists x, forall st, Earlier.optProp v k st = (Normal x, st).
Proof. destruct v; eexists; intros st; reflexivity. Qed.

(** One field of the [aiMessage] literal of the earlier revision:
    [response.a?.b || dflt]. *)
Lemma field_pure response a b dflt :
  nullish response = false -> Js.truthy dflt = true ->
  exists x, Js.truthy x = true /\
            forall st, orElse (r <- getProp response a ;; Earlier.optProp r b) (ret dflt) st
                       = (Normal x, st).
Proof.
  intros N T. destruct (Js.get response a) as [r | e] eqn:E;
    [| destruct response; discriminate].
  destruct (optProp_pure r b) as (x & Hx).
  destruct (Js.truthy x) eqn:Tx.
  - exists x. split; [exact Tx |]. intros st.
    unfold orElse, bind, getProp, lift. rewrite E, Hx, Tx. reflexivity.
  - exists dflt. split; [exact T |]. intros st.
    unfold orElse, bind, getProp, lift. rewrite E, Hx, Tx. reflexivity.
Qed.

Lemma aiMessage_populated response rd :
  nullish response = false ->
  exists m, populated m /\
            Message.responseId m = JStr ("resp-" ++ JsString.ofN (respAt rd)) /\
            forall st, Earlier.aiMessage response rd st = (Normal m, st).
Proof.
  intros N. unfold Earlier.aiMessage.
  destruct (field_pure response "response" "message" (JStr Earlier.fallback) N eq_refl)
    as (x1 & T1 & E1).
  destruct (field_pure response "response" "suggested_topics" (JArr []) N eq_refl)
    as (x2 & T2 & E2).
  destruct (field_pure response "response" "confidence_score"
              (JNum (Float64.lit (8 # 10))) N truthy_confidence_default)
    as (x3 & T3 & E3).
  destruct (field_pure response "metadata" "query_type" (JStr "general") N eq_refl)
    as (x4 & T4 & E4).
  destruct (field_pure response "metadata" "processing_time" (JStr "0.5s") N eq_refl)
    as (x5 & T5 & E5).
  eexists. split; [| split]; [| | intros st; unfold bind at 1; rewrite E1;
    unfold bind at 1; rewrite E2; unfold bind at 1; rewrite E3;
    unfold bind at 1; rewrite E4; unfold bind at 1; rewrite E5; reflexivity].
  - unfold populated. cbn. auto 10.
  - reflexivity.
Qed.

Lemma aiMessage_nullish response rd st :
  nullish response = true ->
  exists e, Earlier.aiMessage response rd st = (Throw e, st).
Proof. destruct response; try discriminate; intros _; eexists; reflexivity. Qed.

End EarlierFacts.

(** X15.  In the earlier revision a support exchange ends in the apology
    exactly when [callAgentAPI] throws (as it does when the fetch rejected
    or the body was not JSON) or returns null or undefined; the apology
    has no response identifier, so no feedback controls are rendered for
    it.  Otherwise a fully populated assistant message is appended, with a
    response identifier generated from the clock.  Either way one message is
    appended and the pending flag is cleared. *)
Theorem earlier_support_exchange_outcome parseLLMJson tr rd st :
  exists m,
    run (Earlier.handleSendMessage_resume parseLLMJson tr rd) st
    = mkState (messages st ++ [m])%list (inputText st) false (debugMode st)
              (debugLogs st) (inFlight st) /\
    match fst (Earlier.callAgentAPI_settle parseLLMJson tr st) with
    | Normal v =>
        if nullish v
        then m = Earlier.errorMessage rd
        else populated m /\
             Message.responseId m = JStr ("resp-" ++ JsString.ofN (respAt rd))
    | Throw _ => m = Earlier.errorMessage rd
    end /\
    (unreadable tr = true -> m = Earlier.errorMessage rd) /\
    feedbackControlsShown (Earlier.errorMessage rd) = false.
Proof.
  destruct (EarlierFacts.settle_pure parseLLMJson tr) as (c & E).
  unfold run, Earlier.handleSendMessage_resume.
  cbv beta iota delta [tryFinally tryCatch bind]. rewrite E. cbn [fst].
  destruct c as [v | e].
  - destruct (nullish v) eqn:N.
    + destruct (EarlierFacts.aiMessage_nullish v rd st N) as (e & A). rewrite A.
      exists (Earlier.errorMessage rd). split; [reflexivity |]. split; [reflexivity |].
      split; [reflexivity | reflexivity].
    + destruct (EarlierFacts.aiMessage_populated v rd N) as (m & P & R & A). rewrite A.
      exists m. split; [reflexivity |]. split; [auto |]. split; [| reflexivity].
      intros U. destruct (EarlierFacts.settle_unreadable parseLLMJson tr st U) as (e & X).
      rewrite E in X. discriminate.
  - exists (Earlier.errorMessage rd). split; [reflexivity |]. split; [reflexivity |].
    split; reflexivity.
Qed.

(** X16.  In the earlier revision a feedback call that fails records
    nothing: when [callAgentAPI] throws (as it does when the fetch rejected
    or the body was not JSON) the whole state is left as it was, so the
    feedback controls stay; when it returns, the messages bearing the
    identifier are marked and nothing else changes. *)
Theorem earlier_feedback_outcome parseLLMJson messageId tr st :
  run (Earlier.handleFeedback_resume parseLLMJson messageId tr) st
  = match fst (Earlier.callAgentAPI_settle parseLLMJson tr st) with
    | Normal _ => mkState (markFeedback messageId (messages st)) (inputText st)
                          (isTyping st) (debugMode st) (debugLogs st) (inFlight st)
    | Throw _ => st
    end
  /\ (unreadable tr = true ->
      run (Earlier.handleFeedback_resume parseLLMJson messageId tr) st = st).
Proof.
  destruct (EarlierFacts.settle_pure parseLLMJson tr) as (c & E).
  unfold run, Earlier.handleFeedback_resume.
  cbv beta iota delta [tryCatch bind]. rewrite E. cbn [fst].
  destruct c as [v | e].
  - split; [reflexivity |]. intros U.
    destruct (EarlierFacts.settle_unreadable parseLLMJson tr st U) as (e & X).
    rewrite E in X. discriminate.
  - split; reflexivity.
Qed.


(* ================================================================== *)
(** * What becomes of a canonical reply *)

Lemma path2_block v a b x :
  path2 v a b = Normal x -> Js.truthy x = true ->
  exists block, Js.get v a = Normal block /\ Js.get block b = Normal x /\
                Js.truthy block = true.
Proof.
  unfold path2. destruct (Js.get v a) as [block | e]; [| discriminate].
  intros H T. exists block. split; [reflexivity |]. split; [exact H |].
  destruct block; try reflexivity; cbn in H; try discriminate;
    injection H as <-; discriminate.
Qed.

Lemma settle_parsed parseLLMJson message result pd v d rd st :
  parsesTo parseLLMJson result pd ->
  (forall s, validateSupportAgentResponse pd d s = (Normal v, s)) ->
  Js.truthy v = true ->
  exists logs,
    callAgentAPI_settle parseLLMJson AgentIds.support message (Reply result) d rd st
    = (Normal v, appendLogs st logs).
Proof.
  intros (a & Ea & H) V T.
  unfold callAgentAPI_settle. rewrite String.eqb_refl.
  exists ["Agent API response:"; "Parsed data:"].
  eff_unfold. rewrite Ea. destruct (Js.truthy a).
  - rewrite H. cbv beta iota. rewrite V. rewrite T.
    unfold appendLogs. cbn. rewrite <- app_assoc. reflexivity.
  - destruct H as (r & Er & ->). rewrite Er.
    destruct (Js.truthy r); cbv beta iota; rewrite V; rewrite T;
      unfold appendLogs; cbn; rewrite <- app_assoc; reflexivity.
Qed.

(** A reply wrapped in [agent_response] is unwrapped: the normaliser
    returns the two blocks of the wrapped reply. *)
Lemma validate_wrapped data w r m d st :
  isCanonical data = false ->
  Js.get data "agent_response" = Normal w ->
  Js.get w "response" = Normal r -> Js.truthy r = true ->
  Js.get w "metadata" = Normal m -> Js.truthy m = true ->
  validateSupportAgentResponse data d st
  = (Normal (JObj [("response", r); ("metadata", m)]), st).
Proof.
  intros C Ew Er Tr Em Tm.
  assert (Tw : Js.truthy w = true).
  { destruct w; cbn in Er; try discriminate; try reflexivity;
      injection Er as <-; discriminate. }
  destruct data as [| | b | q | s | items | fields]; try discriminate;
    try (cbn in Ew; injection Ew as <-; discriminate).
  unfold isCanonical in C. cbn in C, Ew. injection Ew as Ew.
  unfold validateSupportAgentResponse. eff_unfold. cbn.
  destruct (Js.truthy (Js.lookup "response" fields)) eqn:T1.
  - cbn in C. rewrite C. rewrite Ew, Tw, Er, Tr, Em, Tm. reflexivity.
  - rewrite T1. rewrite Ew, Tw, Er, Tr, Em, Tm. reflexivity.
Qed.

Lemma aiMessage_canonical pd rd st text topics conf qt pt :
  path2 pd "response" "message" = Normal text -> Js.truthy text = true ->
  path2 pd "response" "suggested_topics" = Normal topics -> Js.truthy topics = true ->
  path2 pd "response" "confidence_score" = Normal conf -> Js.truthy conf = true ->
  path2 pd "metadata" "query_type" = Normal qt -> Js.truthy qt = true ->
  path2 pd "metadata" "processing_time" = Normal pt -> Js.truthy pt = true ->
  aiMessage pd rd st
  = (Normal (Message.mk ("msg-" ++ JsString.ofN (idAt rd + 1)) text false (stampAt rd)
                        topics conf qt pt
                        (if Js.truthy (suppliedResponseId pd) then suppliedResponseId pd
                         else JStr ("resp-" ++ JsString.ofN (respAt rd)))
                        JUndefined), st).
Proof.
  intros H1 T1 H2 T2 H3 T3 H4 T4 H5 T5.
  destruct (path2_block _ _ _ _ H1 T1) as (r & Er & E1 & Tr).
  destruct (path2_block _ _ _ _ H2 T2) as (r2 & Er2 & E2 & _).
  destruct (path2_block _ _ _ _ H3 T3) as (r3 & Er3 & E3 & _).
  destruct (path2_block _ _ _ _ H4 T4) as (md & Em & E4 & Tm).
  destruct (path2_block _ _ _ _ H5 T5) as (md5 & Em5 & E5 & _).
  assert (r2 = r) by congruence. assert (r3 = r) by congruence.
  assert (md5 = md) by congruence. subst r2 r3 md5.
  destruct (get_of_truthy r "response_id" Tr) as (x & Ex).
  unfold suppliedResponseId, responseBlockOf. rewrite Er, Tr, Ex.
  unfold aiMessage. eff_unfold.
  rewrite Er, Tr. cbv beta iota. rewrite Em, Tm. cbv beta iota.
  rewrite E1, T1. cbv beta iota. rewrite E2, T2. cbv beta iota.
  rewrite E3, T3. cbv beta iota. rewrite E4, T4. cbv beta iota.
  rewrite E5, T5. cbv beta iota. rewrite Ex.
  destruct (Js.truthy x); reflexivity.
Qed.

(** X17.  The value [callAgentAPI] takes out of the body is kept when it
    is canonical or wraps a canonical reply.  Let the parsed data be
    [parseLLMJson(result.assistant)], else [result.response], else the
    body, and let the reply be the parsed data, or what its
    [agent_response] field holds when the parsed data is not canonical.
    When the reply has a truthy message, suggested topics and confidence
    score in its [response] block and a truthy query type and processing
    time in its [metadata] block, the assistant message appended to the
    state when the call settles carries exactly these five values,
    whatever their types, and the response identifier of the reply if it
    has a truthy one (else one generated from the clock); nothing is
    synthesized.  A body that is itself canonical is not such a value:
    its parsed data is its [response] block. *)
Theorem parsed_canonical_reply_kept parseLLMJson message result pd reply d rd st
        text topics conf qt pt :
  parsesTo parseLLMJson result pd ->
  reply = pd \/ (isCanonical pd = false /\ Js.get pd "agent_response" = Normal reply) ->
  path2 reply "response" "message" = Normal text -> Js.truthy text = true ->
  path2 reply "response" "suggested_topics" = Normal topics -> Js.truthy topics = true ->
  path2 reply "response" "confidence_score" = Normal conf -> Js.truthy conf = true ->
  path2 reply "metadata" "query_type" = Normal qt -> Js.truthy qt = true ->
  path2 reply "metadata" "processing_time" = Normal pt -> Js.truthy pt = true ->
  exists logs,
    run (handleSendMessage_resume parseLLMJson message (Reply result) d rd) st
    = mkState
        (messages st ++
         [Message.mk ("msg-" ++ JsString.ofN (idAt rd + 1)) text false (stampAt rd)
                     topics conf qt pt
                     (if Js.truthy (suppliedResponseId reply) then suppliedResponseId reply
                      else JStr ("resp-" ++ JsString.ofN (respAt rd)))
                     JUndefined])%list
        (inputText st) false (debugMode st) (debugLogs st ++ logs)%list (inFlight st).
Proof.
  intros P W H1 T1 H2 T2 H3 T3 H4 T4 H5 T5.
  destruct (path2_block _ _ _ _ H1 T1) as (r & Er & _ & Tr).
  destruct (path2_block _ _ _ _ H4 T4) as (md & Em & _ & Tm).
  assert (C : isCanonical reply = true)
    by (unfold isCanonical; rewrite Er, Em, Tr, Tm; reflexivity).
  assert (N : exists v,
             (forall s, validateSupportAgentResponse pd d s = (Normal v, s)) /\
             Js.get v "response" = Normal r /\ Js.get v "metadata" = Normal md).
  { destruct W as [<- | (Cp & Ew)].
    - exists reply. split; [intros s; apply validate_fixed, C | auto].
    - exists (JObj [("response", r); ("metadata", md)]).
      split; [intros s; apply (validate_wrapped pd reply r md d s); assumption |].
      split; reflexivity. }
  destruct N as (v & V & Vr & Vm).
  assert (Tv : Js.truthy v = true).
  { destruct v; cbn in Vr; try discriminate; try reflexivity;
      injection Vr as <-; discriminate. }
  assert (S : suppliedResponseId v = suppliedResponseId reply)
    by (unfold suppliedResponseId, responseBlockOf; rewrite Vr, Er, Tr; reflexivity).
  assert (F : forall a, a = "response" \/ a = "metadata" ->
                        forall k x, path2 reply a k = Normal x -> path2 v a k = Normal x).
  { intros a [-> | ->] k x; unfold path2; rewrite ?Er, ?Em, ?Vr, ?Vm; auto. }
  destruct (settle_parsed parseLLMJson message result pd v d rd st P V Tv) as (l1 & E).
  destruct (keys_of_truthy v Tv) as (ks & Ek).
  exists (l1 ++ ["Support agent response structure:"; "Creating AI message:"])%list.
  unfold run, handleSendMessage_resume.
  cbv beta iota delta [tryFinally tryCatch bind]. rewrite E.
  cbv beta iota delta [lift getProp]. rewrite Ek, Vr, Vm.
  change (addDebugLog "Support agent response structure:" (appendLogs st l1))
    with (Normal tt, appendLogs (appendLogs st l1) ["Support agent response structure:"]).
  cbv beta iota.
  rewrite (aiMessage_canonical v rd _ text topics conf qt pt);
    try assumption;
    try (apply F; [auto | assumption]).
  rewrite S. cbn. rewrite <- !app_assoc. reflexivity.
Qed.

Lemma parsed_canonical_reply_kept_witness :
  exists logs,
    run (handleSendMessage_resume identityParser "Where is my order?" (Reply canonicalBody)
                                  halfDraws (at_ 1500)) initialState
    = mkState
        [Message.mk "msg-1501" (JStr "Your order has shipped.") false 1500
                    (JArr [JStr "Shipping"]) (JNum (Float64.lit (93 # 100)))
                    (JStr "order") (JStr "1.2s") (JStr "resp-1500") JUndefined]
        "" false false logs [].
Proof.
  apply (parsed_canonical_reply_kept identityParser "Where is my order?" canonicalBody
           canonicalReply canonicalReply halfDraws (at_ 1500) initialState
           (JStr "Your order has shipped.") (JArr [JStr "Shipping"])
           (JNum (Float64.lit (93 # 100))) (JStr "order") (JStr "1.2s"));
    try reflexivity.
  - exists JUndefined. split; [reflexivity |]. exists canonicalReply. split; reflexivity.
  - left. reflexivity.
Defined.

(** The normaliser on a bare response block: the message is taken out of
    the block and wrapped. *)
Lemma validate_bare_block block s d st :
  Js.lookup "message" block = JStr s -> JsString.isEmpty s = false ->
  Js.truthy (Js.lookup "response" block) = false ->
  Js.truthy (Js.lookup "metadata" block) = false ->
  Js.truthy (Js.lookup "agent_response" block) = false ->
  validateSupportAgentResponse (JObj block) d st
  = (Normal (JObj [("response", JStr s); ("metadata", JObj [])]), st).
Proof.
  intros Hm Hs Hr Hd Ha. unfold validateSupportAgentResponse. eff_unfold. cbn.
  rewrite Hr. rewrite Ha. rewrite Hr. rewrite Hm. cbn. rewrite Hs. cbn. rewrite Hd.
  reflexivity.
Qed.

(** X20.  A body that is itself in the canonical shape is not kept.  When
    the body has no truthy [assistant] and its [response] field holds a
    block with a non-empty message string (and no truthy [response],
    [metadata] or [agent_response] of its own), [callAgentAPI] takes the
    block, the normaliser takes the message out of it and wraps the bare
    string, and [handleSendMessage] finds none of the fields it reads: the
    assistant message appended when the call settles has the fallback
    text, no suggested topics, confidence 0.8, query type "general",
    processing time "0.5s" and a response identifier generated from the
    clock.  The message, topics, confidence score and response identifier
    of the block and the [metadata] of the body are dropped. *)
Theorem canonical_body_answered_with_defaults parseLLMJson message fields block s d rd st :
  Js.truthy (Js.lookup "assistant" fields) = false ->
  Js.lookup "response" fields = JObj block ->
  Js.lookup "message" block = JStr s -> JsString.isEmpty s = false ->
  Js.truthy (Js.lookup "response" block) = false ->
  Js.truthy (Js.lookup "metadata" block) = false ->
  Js.truthy (Js.lookup "agent_response" block) = false ->
  exists logs,
    run (handleSendMessage_resume parseLLMJson message (Reply (JObj fields)) d rd) st
    = mkState
        (messages st ++
         [Message.mk ("msg-" ++ JsString.ofN (idAt rd + 1)) (JStr Text.fallback) false
                     (stampAt rd) (JArr []) (JNum (Float64.lit (8 # 10)))
                     (JStr "general") (JStr "0.5s")
                     (JStr ("resp-" ++ JsString.ofN (respAt rd))) JUndefined])%list
        (inputText st) false (debugMode st) (debugLogs st ++ logs)%list (inFlight st).
Proof.
  intros Ta Hb Hm Hs Hr Hd Ha.
  set (v := JObj [("response", JStr s); ("metadata", JObj [])]).
  assert (P : parsesTo parseLLMJson (JObj fields) (JObj block)).
  { exists (Js.lookup "assistant" fields). split; [reflexivity |]. rewrite Ta.
    exists (JObj block). split; [cbn; rewrite Hb; reflexivity | reflexivity]. }
  assert (V : forall s0, validateSupportAgentResponse (JObj block) d s0 = (Normal v, s0))
    by (intros s0; apply validate_bare_block; assumption).
  destruct (settle_parsed parseLLMJson message (JObj fields) (JObj block) v d rd st
              P V eq_refl) as (l1 & E).
  exists (l1 ++ ["Support agent response structure:"; "Creating AI message:"])%list.
  unfold run, handleSendMessage_resume.
  cbv beta iota delta [tryFinally tryCatch bind]. rewrite E.
  unfold v, aiMessage. eff_unfold. cbn. rewrite Hs. cbn.
  rewrite <- !app_assoc. reflexivity.
Qed.

Lemma canonical_body_answered_with_defaults_witness :
  exists logs,
    run (handleSendMessage_resume identityParser "Where is my order?" (Reply canonicalReply)
                                  halfDraws (at_ 1500)) initialState
    = mkState
        [Message.mk "msg-1501" (JStr Text.fallback) false 1500 (JArr [])
                    (JNum (Float64.lit (8 # 10))) (JStr "general") (JStr "0.5s")
                    (JStr "resp-1500") JUndefined]
        "" false false logs [].
Proof.
  apply (canonical_body_answered_with_defaults identityParser "Where is my order?"
           [("response", JObj [("message", JStr "Your order has shipped.");
                               ("suggested_topics", JArr [JStr "Shipping"]);
                               ("confidence_score", JNum (Float64.lit (93 # 100)))]);
            ("metadata", JObj [("query_type", JStr "order");
                               ("processing_time", JStr "1.2s")])]
           [("message", JStr "Your order has shipped.");
            ("suggested_topics", JArr [JStr "Shipping"]);
            ("confidence_score", JNum (Float64.lit (93 # 100)))]
           "Your order has shipped." halfDraws (at_ 1500) initialState);
    reflexivity.
Defined.


(* ================================================================== *)
(** * The feedback payload *)

Lemma length_append (a b : string) :
  String.length (a ++ b) = (String.length a + String.length b)%nat.
Proof. induction a as [| c a IH]; cbn; [reflexivity | rewrite IH; reflexivity]. Qed.

Lemma append_inv_head (a b b' : string) : a ++ b = a ++ b' -> b = b'.
Proof. induction a as [| c a IH]; cbn; intros H; [exact H | injection H as H; auto]. Qed.

Lemma append_inj (a a' b b' : string) :
  String.length b = String.length b' -> a ++ b = a' ++ b' -> a = a' /\ b = b'.
Proof.
  intros L. revert a'. induction a as [| c a IH]; intros a' H.
  - destruct a' as [| c' a']; [cbn in H; auto |].
    apply (f_equal String.length) in H. cbn in H. rewrite length_append in H. lia.
  - destruct a' as [| c' a'].
    + apply (f_equal String.length) in H. cbn in H. rewrite length_append in H. lia.
    + cbn in H. injection H as -> H. destruct (IH a' H) as [-> ->]. auto.
Qed.

(** X18.  The message [handleFeedback] sends to the feedback agent,
    ["Feedback for response <response identifier>: <polarity>"], can be read
    back: two submissions with the same message have the same response
    identifier (as printed) and the same polarity, whatever characters the
    identifier holds. *)
Theorem feedback_payload_reads_back numberToString m m' p p' :
  "Feedback for response " ++ toStr numberToString (Message.responseId m)
    ++ ": " ++ polarityText p
  = "Feedback for response " ++ toStr numberToString (Message.responseId m')
    ++ ": " ++ polarityText p' ->
  toStr numberToString (Message.responseId m) = toStr numberToString (Message.responseId m')
  /\ p = p'.
Proof.
  intros H. apply append_inv_head in H.
  apply append_inj in H; [| destruct p, p'; reflexivity].
  destruct H as [E H]. split; [exact E |].
  destruct p, p'; try reflexivity; discriminate.
Qed.

Lemma feedback_payload_reads_back_witness :
  toStr printNumber (JStr "resp-1500") = toStr printNumber (JStr "resp-1500")
  /\ Negative = Negative.
Proof.
  apply (feedback_payload_reads_back printNumber
           (Message.mk "msg-1" JUndefined false 0 JUndefined JUndefined JUndefined
                       JUndefined (JStr "resp-1500") JUndefined)
           (Message.mk "msg-2" JUndefined false 0 JUndefined JUndefined JUndefined
                       JUndefined (JStr "resp-1500") JUndefined)
           Negative Negative).
  reflexivity.
Defined.

Lemma form_keeps_one_exchange_witness :
  (exchangesInFlight (runSession [ChangeInput "Where is my order?"; SubmitForm (at_ 1000)])
   <= 1)%nat /\
  (isTyping (runSession [ChangeInput "Where is my order?"; SubmitForm (at_ 1000)]) = true
   <-> exchangesInFlight (runSession [ChangeInput "Where is my order?"; SubmitForm (at_ 1000)])
       = 1%nat).
Proof.
  apply (form_keeps_one_exchange identityParser printNumber
           [ChangeInput "Where is my order?"; SubmitForm (at_ 1000)]).
  reflexivity.
Defined.

(* ================================================================== *)
(** * Response identifiers: generated or supplied *)




